(** * pypicoboot: the ESP32-family boot controller and its presence monitor

    A shallow embedding of [src/picoboot/espboot.py],
    [src/picoboot/espbootmonitor.py] and [src/picoboot/platform.py].

    Python values are modelled by the data the code inspects: [str] as
    [string] (ASCII text), [bytes] as [list byte], [int] as [Z], [None] and
    missing attributes as [option].  Calls into the flashing toolkit, the
    serial-port enumeration and the file system are answered by an explicit
    environment and recorded in an event log, so that "the call was never
    attempted" is a statement about that log. *)

From Stdlib Require Import ZArith NArith List Bool Lia Permutation.
From Stdlib.Strings Require Import String Ascii Byte.
Import ListNotations.
Local Open Scope string_scope.
Local Open Scope list_scope.

(** ** Python string primitives used by the source *)

Module PyStr.

Definition is_upper (c : ascii) : bool :=
  let n := nat_of_ascii c in (65 <=? n)%nat && (n <=? 90)%nat.

Definition is_lower (c : ascii) : bool :=
  let n := nat_of_ascii c in (97 <=? n)%nat && (n <=? 122)%nat.

Definition is_digit (c : ascii) : bool :=
  let n := nat_of_ascii c in (48 <=? n)%nat && (n <=? 57)%nat.

(** [str.isspace] on ASCII: tab, LF, VT, FF, CR, FS, GS, RS, US, space. *)
Definition is_space (c : ascii) : bool :=
  let n := nat_of_ascii c in
  ((9 <=? n)%nat && (n <=? 13)%nat) || ((28 <=? n)%nat && (n <=? 32)%nat).

Definition lower_char (c : ascii) : ascii :=
  if is_upper c then ascii_of_nat (nat_of_ascii c + 32) else c.

Definition upper_char (c : ascii) : ascii :=
  if is_lower c then ascii_of_nat (nat_of_ascii c - 32) else c.

Fixpoint map_chars (f : ascii -> ascii) (s : string) : string :=
  match s with
  | EmptyString => EmptyString
  | String c t => String (f c) (map_chars f t)
  end.

(** [s.lower()] and [s.upper()] *)
Definition lower : string -> string := map_chars lower_char.
Definition upper : string -> string := map_chars upper_char.

(** [s.startswith(p)] *)
Fixpoint startswith (p s : string) : bool :=
  match p, s with
  | EmptyString, _ => true
  | String _ _, EmptyString => false
  | String a p', String b s' => Ascii.eqb a b && startswith p' s'
  end.

(** [sub in s] *)
Fixpoint contains (sub s : string) : bool :=
  startswith sub s ||
  match s with
  | EmptyString => false
  | String _ t => contains sub t
  end.

(** [s.endswith(suf)] *)
Definition endswith (suf s : string) : bool :=
  (String.length suf <=? String.length s)%nat &&
  String.eqb (substring (String.length s - String.length suf) (String.length suf) s) suf.

(** [s[:-n]] for a positive literal [n] *)
Definition drop_last (n : nat) (s : string) : string :=
  substring 0 (String.length s - n) s.

Fixpoint lstrip_chars (l : list ascii) : list ascii :=
  match l with
  | c :: t => if is_space c then lstrip_chars t else l
  | [] => []
  end.

(** [s.strip()] *)
Definition strip (s : string) : string :=
  string_of_list_ascii
    (rev (lstrip_chars (rev (lstrip_chars (list_ascii_of_string s))))).

(** [sep.join(parts)] *)
Fixpoint join (sep : string) (parts : list string) : string :=
  match parts with
  | [] => ""
  | [x] => x
  | x :: rest => x ++ sep ++ join sep rest
  end.

Definition digit_val (c : ascii) : Z := Z.of_nat (nat_of_ascii c - 48).

(** The digit part of a decimal literal accepted by [int(s)]: a non-empty
    run of digits in which single underscores may separate digits. *)
Fixpoint digits_val (acc : Z) (after_digit : bool) (l : list ascii) : option Z :=
  match l with
  | [] => if after_digit then Some acc else None
  | c :: t =>
      if is_digit c then digits_val (acc * 10 + digit_val c) true t
      else if Ascii.eqb c "_" then
        (if after_digit then digits_val acc false t else None)
      else None
  end.

(** [int(s)] for a [str] argument in base 10: surrounding whitespace is
    ignored and one sign is allowed; [None] stands for [ValueError].  The
    interpreter's configurable cap on the number of digits is not part of
    the model. *)
Definition int_of_str (s : string) : option Z :=
  match list_ascii_of_string (strip s) with
  | c :: t =>
      if Ascii.eqb c "-" then option_map Z.opp (digits_val 0 false t)
      else if Ascii.eqb c "+" then digits_val 0 false t
      else digits_val 0 false (c :: t)
  | [] => None
  end.

End PyStr.

(** ** platform.py *)

Inductive Platform : Type :=
| RP2040 | RP2350 | ESP32S3 | ESP32S2 | ESP32C3 | UNKNOWN.

Definition Platform_value (p : Platform) : Z :=
  match p with
  | RP2040 => 0x01754d
  | RP2350 => 0x02754d
  | ESP32S3 => 0x03754d
  | ESP32S2 => 0x04754d
  | ESP32C3 => 0x05754d
  | UNKNOWN => 0x000000
  end.

(** The member names [Platform] declares.  [Platform.<name>] for any other
    name raises [AttributeError]. *)
Definition Platform_member (name : string) : option Platform :=
  if String.eqb name "RP2040" then Some RP2040
  else if String.eqb name "RP2350" then Some RP2350
  else if String.eqb name "ESP32S3" then Some ESP32S3
  else if String.eqb name "ESP32S2" then Some ESP32S2
  else if String.eqb name "ESP32C3" then Some ESP32C3
  else if String.eqb name "UNKNOWN" then Some UNKNOWN
  else None.

(** ** Exceptions *)

(** Modelled from the spec: [core/exceptions.py] is not among the sources.
    The ESP32 family has three error kinds, a generic operation failure
    ([EspBootError]), a "no device found" failure ([EspBootNotFoundError])
    and an "invalid state" failure ([EspBootInvalidStateError]).  The other
    classes are the interpreter's own and [ForeignError], which stands for
    any [Exception] raised inside the toolkit or the operating system. *)
Inductive ExnClass : Type :=
| EspBootError
| EspBootNotFoundError
| EspBootInvalidStateError
| AttributeError
| OverflowError
| ValueError
| ForeignError.

(** An exception object: its class, [str(e)], and, for [raise ... from e],
    the exception it was raised from ([e.__cause__]). *)
Inductive Exn : Type :=
| MkExn (cls : ExnClass) (msg : string)
| MkExnFrom (cls : ExnClass) (msg : string) (cause : Exn).

Definition exn_class (e : Exn) : ExnClass :=
  match e with MkExn c _ | MkExnFrom c _ _ => c end.
Definition exn_msg (e : Exn) : string :=
  match e with MkExn _ m | MkExnFrom _ m _ => m end.
Definition exn_cause (e : Exn) : option Exn :=
  match e with MkExn _ _ => None | MkExnFrom _ _ c => Some c end.

Definition ExnClass_eqb (a b : ExnClass) : bool :=
  match a, b with
  | EspBootError, EspBootError
  | EspBootNotFoundError, EspBootNotFoundError
  | EspBootInvalidStateError, EspBootInvalidStateError
  | AttributeError, AttributeError
  | OverflowError, OverflowError
  | ValueError, ValueError
  | ForeignError, ForeignError => true
  | _, _ => false
  end.

(** The outcome of a Python call. *)
Inductive Res (A : Type) : Type :=
| Ok (a : A)
| Raise (e : Exn).
Arguments Ok {A} a.
Arguments Raise {A} e.

Definition is_raise {A} (r : Res A) : bool :=
  match r with Ok _ => false | Raise _ => true end.

(** ** Values exchanged with the toolkit and the serial-port library *)

(** What [esp.read_mac()] may hand back: [None], an [int], a [bytes] or
    [bytearray], or a tuple or list of [int]s. *)
Inductive MacValue : Type :=
| MacNone
| MacInt (n : Z)
| MacBytes (bs : list byte)
| MacInts (l : list Z).

(** A flash-size descriptor: [None], an [int], a [str], or another object,
    for which only the outcome of [int(size)] matters. *)
Inductive SizeDesc : Type :=
| SizeNone
| SizeInt (n : Z)
| SizeStr (s : string)
| SizeObj (as_int : option Z).

(** Values stored in the dictionary of [get_chip_info]. *)
Inductive InfoValue : Type :=
| VNone
| VInt (n : Z)
| VStr (s : string)
| VList (l : list string).

(** What became of a callable attribute looked up with [getattr]/[hasattr]:
    [None] when the attribute is missing (or not callable), otherwise the
    outcome of calling it. *)
Definition Method (A : Type) : Type := option (Res A).

(** The toolkit's loader object, seen through the attributes the code reads. *)
Record Esp : Type := MkEsp {
  CHIP_NAME : option string;
  get_chip_id : Method (option Z);
  esp_chip_id : option Z;                  (* attribute [chip_id] *)
  read_mac : Method MacValue;
  get_chip_description : Method InfoValue;
  get_chip_features : Method InfoValue;
  flash_size : option SizeDesc;
  FLASH_SIZE : option SizeDesc;
  FLASH_SIZE_BYTES : option SizeDesc
}.

(** An entry of [serial.tools.list_ports.comports()]. *)
Record PortInfo : Type := MkPortInfo {
  device : string;
  description : option string;
  manufacturer : option string;
  product : option string;
  vid : option Z
}.

(** A readable binary source handed to the toolkit's [write_flash]. *)
Inductive FlashSource : Type :=
| FromFile (fd : nat)
| FromBytes (data : list byte).

(** The contexts an [ExitStack] has entered: the ports of the connections. *)
Definition ExitStack : Type := list string.

(** ** Events, world and the call monad *)

Inductive Event : Type :=
| EvComports
| EvSetVerbosity
| EvDetectChip (port : string)
| EvRunStub
| EvAttachFlash
| EvGetFlashInfo
| EvFlashId
| EvGetChipId
| EvReadMac
| EvGetChipDescription
| EvGetChipFeatures
| EvWriteFlash (segments : list (Z * FlashSource))
| EvResetChip (mode : string)
| EvFileOpen (path : string)
| EvFileClose (fd : nat)
| EvStackClose (entered : ExitStack)
| EvMonitorStart (port : string)
| EvMonitorStop.

(** The world outside the controller: what has been called so far, in order,
    and the next file handle the operating system will hand out. *)
Record World : Type := MkWorld {
  log : list Event;
  next_fd : nat
}.

(** How the outside answers. *)
Record Env : Type := MkEnv {
  comports : option (list PortInfo);       (* [None]: pyserial cannot be imported *)
  esptool_logger : bool;                   (* [esptool.logger] can be imported *)
  detect_chip : string -> Res Esp;
  run_stub : Esp -> Res Esp;
  attach_flash : Esp -> Res unit;
  _get_flash_info : option (Esp -> Res SizeDesc);  (* [None]: cannot be imported *)
  flash_id : Esp -> Res unit;
  esptool_write_flash : Esp -> list (Z * FlashSource) -> Res unit;
  reset_chip : Esp -> string -> Res unit;
  file_open : string -> Res unit;          (* [open(path, "rb")] *)
  file_close : nat -> Res unit             (* [f.close()] *)
}.

Definition M (A : Type) : Type := World -> Res A * World.

Definition ret {A} (a : A) : M A := fun w => (Ok a, w).

Definition bind {A B} (m : M A) (k : A -> M B) : M B :=
  fun w =>
    match m w with
    | (Ok a, w') => k a w'
    | (Raise e, w') => (Raise e, w')
    end.

Definition raise {A} (e : Exn) : M A := fun w => (Raise e, w).

(** [try: m  except Exception as e: h e] *)
Definition try_except {A} (m : M A) (h : Exn -> M A) : M A :=
  fun w =>
    match m w with
    | (Ok a, w') => (Ok a, w')
    | (Raise e, w') => h e w'
    end.

Definition emit (ev : Event) : M unit :=
  fun w => (Ok tt, {| log := log w ++ [ev]; next_fd := next_fd w |}).

Definition lift {A} (r : Res A) : M A := fun w => (r, w).

Declare Scope py_scope.
Delimit Scope py_scope with py.
Notation "x <- m ;; k" := (bind m (fun x => k))
  (at level 61, m at next level, right associativity) : py_scope.
Notation "m ;; k" := (bind m (fun _ => k))
  (at level 61, right associativity) : py_scope.
Local Open Scope py_scope.

(** A call into the outside: logged, then answered. *)
Definition call {A} (ev : Event) (r : Res A) : M A := emit ev ;; lift r.

(** [try: m  except Exception: pass] *)
Definition best_effort (m : M unit) : M unit := try_except m (fun _ => ret tt).

(** ** espbootmonitor.py *)

(** What an observer's [update] does from the monitor's point of view: it
    returns, it stops the monitor before returning, or it raises. *)
Inductive Reaction : Type :=
| Returns
| StopsMonitor
| Raises (e : Exn).

Module EspBootMonitorObserver.

(** The pair [(connected, disconnected)] handed to [update]. *)
Definition Actions : Type := (option string * option string)%type.

(** [update] is looked up with [getattr(self, "update", None)]. *)
Record t : Type := Mk { update : option (Actions -> Reaction) }.

Definition notifyObservers (self : t) (actions : Actions) : Reaction :=
  match update self with
  | Some func => func actions
  | None => Returns
  end.

Definition on_connect (self : t) (port : string) : Reaction :=
  notifyObservers self (Some port, None).

Definition on_disconnect (self : t) (port : string) : Reaction :=
  notifyObservers self (None, Some port).

End EspBootMonitorObserver.

(** The hooks the monitor invokes on its observer. *)
Inductive Notification : Type :=
| OnConnect (port : string)
| OnDisconnect (port : string).

Module EspBootMonitor.

Record t : Type := Mk {
  _port : string;
  _cls_callback : option EspBootMonitorObserver.t;
  _running : bool;
  _device_present : bool
}.

Definition set_running (self : t) (b : bool) : t :=
  {| _port := _port self; _cls_callback := _cls_callback self;
     _running := b; _device_present := _device_present self |}.

Definition set_device_present (self : t) (b : bool) : t :=
  {| _port := _port self; _cls_callback := _cls_callback self;
     _running := _running self; _device_present := b |}.

(** [__init__] followed by [start()]: the polling thread is running. *)
Definition init (port : string) (cls_callback : option EspBootMonitorObserver.t) : t :=
  set_running
    {| _port := port; _cls_callback := cls_callback;
       _running := false; _device_present := false |} true.

Definition stop (self : t) : t := set_running self false.

(** The state of one pass through the loop body: the monitor, the hooks
    invoked so far, and the exception that ended the thread, if any. *)
Definition Pass : Type := (t * list Notification * option Exn)%type.

Definition react (self : t) (n : Notification) (r : Reaction) : Pass :=
  match r with
  | Returns => (self, [n], None)
  | StopsMonitor => (stop self, [n], None)
  | Raises e => (self, [n], Some e)
  end.

(** [present = self._port in [p.device for p in list_ports.comports()]] *)
Definition present_in (self : t) (ports : list PortInfo) : bool :=
  existsb (String.eqb (_port self)) (map device ports).

(** The loop body of [_run], without the sleep. *)
Definition poll (self : t) (ports : list PortInfo) : Pass :=
  let present := present_in self ports in
  let '(self1, log1, exn1) :=
    if present && negb (_device_present self) then
      let self' := set_device_present self true in
      match _cls_callback self' with
      | Some cb =>
          react self' (OnConnect (_port self'))
            (EspBootMonitorObserver.on_connect cb (_port self'))
      | None => (self', [], None)
      end
    else (self, [], None) in
  match exn1 with
  | Some e => (self1, log1, Some e)
  | None =>
      if negb present && _device_present self1 then
        let self' := set_device_present self1 false in
        match _cls_callback self' with
        | Some cb =>
            let '(self2, log2, exn2) :=
              react self' (OnDisconnect (_port self'))
                (EspBootMonitorObserver.on_disconnect cb (_port self')) in
            (self2, log1 ++ log2, exn2)
        | None => (self', log1, None)
        end
      else (self1, log1, None)
  end.

(** [_run]: one enumeration of the serial ports is consumed per pass; the
    loop ends when [_running] is cleared or the observer raises.  The list
    of enumerations is what the operating system reports at the
    successive polls. *)
Fixpoint _run (self : t) (enumerations : list (list PortInfo)) : Pass :=
  if _running self then
    match enumerations with
    | [] => (self, [], None)
    | ports :: rest =>
        let '(self1, log1, exn1) := poll self ports in
        match exn1 with
        | Some e => (self1, log1, Some e)
        | None =>
            let '(self2, log2, exn2) := _run self1 rest in
            (self2, log1 ++ log2, exn2)
        end
    end
  else (self, [], None).

End EspBootMonitor.

(** ** Python bytes primitives used by the source *)

Module PyBytes.

Definition hex_digit_upper (n : N) : ascii :=
  match n with
  | 0 => "0" | 1 => "1" | 2 => "2" | 3 => "3" | 4 => "4" | 5 => "5"
  | 6 => "6" | 7 => "7" | 8 => "8" | 9 => "9" | 10 => "A" | 11 => "B"
  | 12 => "C" | 13 => "D" | 14 => "E" | _ => "F"
  end%N%char.

(** [f"{b:02X}"] for a byte [b] *)
Definition format_02X (b : byte) : string :=
  let n := Byte.to_N b in
  String (hex_digit_upper (n / 16)) (String (hex_digit_upper (n mod 16)) "").

(** ["".join(f"{b:02X}" for b in bs)] *)
Fixpoint hex_upper (bs : list byte) : string :=
  match bs with
  | [] => ""
  | b :: t => format_02X b ++ hex_upper t
  end.

Definition byte_of_Z (z : Z) : option byte :=
  if (0 <=? z)%Z && (z <? 256)%Z then Byte.of_N (Z.to_N z) else None.

(** Big-endian digits of [n] in base 256, [len] of them. *)
Fixpoint be_digits (len : nat) (n : Z) : list Z :=
  match len with
  | O => []
  | S k => be_digits k (n / 256) ++ [n mod 256]
  end%Z.

Fixpoint bytes_of_ints (l : list Z) : option (list byte) :=
  match l with
  | [] => Some []
  | z :: t =>
      match byte_of_Z z, bytes_of_ints t with
      | Some b, Some bs => Some (b :: bs)
      | _, _ => None
      end
  end.

(** [n.to_bytes(len, "big")]: [OverflowError] for a negative [n] or one
    that does not fit. *)
Definition to_bytes_big (n : Z) (len : nat) : Res (list byte) :=
  if (n <? 0)%Z then
    Raise (MkExn OverflowError "can't convert negative int to unsigned")
  else if (256 ^ Z.of_nat len <=? n)%Z then
    Raise (MkExn OverflowError "int too big to convert")
  else
    match bytes_of_ints (be_digits len n) with
    | Some bs => Ok bs
    | None => Raise (MkExn OverflowError "int too big to convert")
    end.

(** [bytes(seq)] for a tuple or list of [int]s: [ValueError] unless every
    element is in [range(0, 256)]. *)
Definition bytes_of_seq (l : list Z) : Res (list byte) :=
  match bytes_of_ints l with
  | Some bs => Ok bs
  | None => Raise (MkExn ValueError "bytes must be in range(0, 256)")
  end.

Definition hex_val (c : ascii) : option Z :=
  let n := nat_of_ascii c in
  if PyStr.is_digit c then Some (Z.of_nat (n - 48))
  else if (97 <=? n)%nat && (n <=? 102)%nat then Some (Z.of_nat (n - 87))
  else if (65 <=? n)%nat && (n <=? 70)%nat then Some (Z.of_nat (n - 55))
  else None.

(** [bytes.fromhex(s)]: pairs of hexadecimal digits, with ASCII whitespace
    allowed between the pairs; [None] stands for [ValueError]. *)
Fixpoint fromhex_chars (fuel : nat) (l : list ascii) : option (list byte) :=
  match fuel with
  | O => match l with [] => Some [] | _ => None end
  | S fuel' =>
      match l with
      | [] => Some []
      | c :: t =>
          if PyStr.is_space c then fromhex_chars fuel' t
          else
            match t with
            | [] => None
            | c2 :: t2 =>
                match hex_val c, hex_val c2 with
                | Some hi, Some lo =>
                    match byte_of_Z (hi * 16 + lo), fromhex_chars fuel' t2 with
                    | Some b, Some bs => Some (b :: bs)
                    | _, _ => None
                    end
                | _, _ => None
                end
            end
      end
  end.

Definition fromhex (s : string) : option (list byte) :=
  fromhex_chars (String.length s) (list_ascii_of_string s).

End PyBytes.

(** ** espboot.py *)

Definition DEFAULT_CONNECT_ATTEMPTS : nat := 1.

Definition ESP_SERIAL_VIDS : list Z :=
  [ 0x303A   (* Espressif *)
  ; 0x10C4   (* Silicon Labs CP210x *)
  ; 0x1A86   (* WCH CH34x/CH910x *)
  ; 0x0403   (* FTDI *)
  ; 0x067B   (* Prolific *) ]%Z.

Definition ESP_SERIAL_KEYWORDS : list string :=
  ["esp"; "cp210"; "ch340"; "ch910"; "ftdi"; "silicon labs"].

Module EspBoot.

Record t : Type := Mk {
  port : option string;
  _esp : option Esp;
  _stack : option ExitStack;
  _flash_size : option Z;
  _cached_serial_number : option (list byte);
  (* outer [None]: the attribute was never set; [Some None]: it is [None] *)
  _EspBoot__monitor : option (option EspBootMonitor.t)
}.

(** [__init__(self, port, esp, stack)] *)
Definition init (port : option string) (esp : option Esp) (stack : option ExitStack) : t :=
  {| port := port; _esp := esp; _stack := stack; _flash_size := None;
     _cached_serial_number := None; _EspBoot__monitor := None |}.

Definition not_connected : Exn := MkExn EspBootError "Device not connected".

(** *** Port enumeration *)

(** [filter(None, [...])]: drops [None] and the empty string. *)
Definition truthy_strings (l : list (option string)) : list string :=
  flat_map (fun o => match o with
                     | Some s => if String.eqb s "" then [] else [s]
                     | None => []
                     end) l.

Definition desc_of (p : PortInfo) : string :=
  PyStr.lower
    (PyStr.join " " (truthy_strings [description p; manufacturer p; product p])).

Definition vid_known (p : PortInfo) : bool :=
  match vid p with
  | Some v => existsb (Z.eqb v) ESP_SERIAL_VIDS
  | None => false
  end.

Definition keyword_found (p : PortInfo) : bool :=
  existsb (fun k => PyStr.contains k (desc_of p)) ESP_SERIAL_KEYWORDS.

Definition is_preferred (p : PortInfo) : bool := vid_known p || keyword_found p.

(** The [for p in ports] loop, with its two accumulators. *)
Fixpoint sort_ports (ports : list PortInfo) (preferred others : list string)
  : list string * list string :=
  match ports with
  | [] => (preferred, others)
  | p :: rest =>
      if is_preferred p then sort_ports rest (preferred ++ [device p]) others
      else sort_ports rest preferred (others ++ [device p])
  end.

(** What [_list_serial_ports] returns for a given enumeration. *)
Definition order_ports (ports : list PortInfo) : list string :=
  match ports with
  | [] => []
  | _ =>
      let '(preferred, others) := sort_ports ports [] [] in
      preferred ++ others
  end.

Definition _list_serial_ports (env : Env) : M (list string) :=
  match comports env with
  | None =>
      raise (MkExnFrom EspBootError "pyserial is required for auto port detection"
               (MkExn ForeignError "No module named 'serial'"))
  | Some ports => emit EvComports ;; ret (order_ports ports)
  end.

(** The [for port in ports] loop of [_auto_detect_port]. *)
Fixpoint try_ports (env : Env) (ports : list string) : M (string * Esp) :=
  match ports with
  | [] =>
      raise (MkExn EspBootNotFoundError
               "No ESP32 device detected. Pass port explicitly.")
  | port :: rest =>
      try_except
        (esp <- call (EvDetectChip port) (detect_chip env port) ;;
         ret (port, esp))
        (fun _ => try_ports env rest)
  end.

Definition _auto_detect_port (env : Env) : M (string * Esp) :=
  ports <- _list_serial_ports env ;;
  match ports with
  | [] => raise (MkExn EspBootNotFoundError
                   "No serial ports found for ESP32 detection")
  | _ => try_ports env ports
  end.

(** [except EspBootError]; no subclass of it is raised under such a
    handler in this file. *)
Definition is_EspBootError (e : Exn) : bool :=
  ExnClass_eqb (exn_class e) EspBootError.

Definition _is_port_present (env : Env) (port : string) : M bool :=
  try_except
    (ports <- _list_serial_ports env ;;
     ret (existsb (String.eqb port) ports))
    (fun e => if is_EspBootError e then ret false else raise e).

(** *** Flash size *)

Definition _flash_size_to_bytes (size : SizeDesc) : option Z :=
  match size with
  | SizeNone => None
  | SizeInt n => Some n
  | SizeStr size =>
      let s := PyStr.upper (PyStr.strip size) in
      if PyStr.endswith "MB" s then
        option_map (fun n => n * 1024 * 1024)%Z (PyStr.int_of_str (PyStr.drop_last 2 s))
      else if PyStr.endswith "KB" s then
        option_map (fun n => n * 1024)%Z (PyStr.int_of_str (PyStr.drop_last 2 s))
      else if PyStr.endswith "B" s then
        PyStr.int_of_str (PyStr.drop_last 1 s)
      else PyStr.int_of_str s
  | SizeObj as_int => as_int
  end.

(** *** Opening and closing *)

(** [f"{port}"] *)
Definition format_port (port : option string) : string :=
  match port with Some p => p | None => "None" end.

Definition open_failed (port : option string) (e : Exn) : Exn :=
  MkExnFrom EspBootError
    ("Failed to open ESP32 on port " ++ format_port port ++ ": " ++ exn_msg e) e.

Definition wants_auto (port : option string) : bool :=
  match port with
  | None => true
  | Some p => String.eqb p "auto"
  end.

(** [close] is called by the observer that [open] installs, so it comes
    first here. *)
Definition close (self : t) : M t :=
  match _stack self with
  | Some stack =>
      match _EspBoot__monitor self with
      | Some (Some _) => emit EvMonitorStop
      | _ => ret tt
      end ;;
      emit (EvStackClose stack) ;;
      ret {| port := port self; _esp := None; _stack := None;
             _flash_size := _flash_size self;
             _cached_serial_number := _cached_serial_number self;
             _EspBoot__monitor :=
               match _EspBoot__monitor self with
               | Some _ => Some None
               | None => None
               end |}
  | None => ret self
  end.

(** [if disconnected:] on an optional port: [None] and the empty string
    count as false. *)
Definition truthy (o : option string) : bool :=
  match o with
  | Some s => negb (String.eqb s "")
  | None => false
  end.

(** [EspBootObserver.update(actions)].  The observer keeps a reference to
    the controller it was built for, so [update] acts on the state [device]
    that controller has when the hook is invoked: a connect is only logged, a
    disconnect calls [device.close()]. *)
Definition EspBootObserver_update (device : t)
    (actions : EspBootMonitorObserver.Actions) : M t :=
  let '(connected, disconnected) := actions in
  if truthy disconnected then close device else ret device.

(** Whether a run of events holds the [stop()] of the monitor. *)
Definition stops_monitor (evs : list Event) : bool :=
  existsb (fun ev => match ev with EvMonitorStop => true | _ => false end) evs.

(** What the monitor sees of such an [update]: the exception when it raises,
    and otherwise whether [close] stopped the monitor, which is the monitor
    of the controller.  [close] reads nothing of the world, so its events
    are taken from a run on an empty log. *)
Definition reaction_of (run : Res t * World) : Reaction :=
  match run with
  | (Raise e, _) => Raises e
  | (Ok _, w) => if stops_monitor (log w) then StopsMonitor else Returns
  end.

(** The observer of the controller in state [device]. *)
Definition EspBootObserver (device : t) : EspBootMonitorObserver.t :=
  {| EspBootMonitorObserver.update :=
       Some (fun actions : EspBootMonitorObserver.Actions =>
               reaction_of (EspBootObserver_update device actions
                              {| log := []; next_fd := 0 |})) |}.

(** The controller at the end of [open], with the given observer in its
    monitor. *)
Definition opened (port' : string) (esp' : Esp) (size : option Z)
    (observer : option EspBootMonitorObserver.t) : t :=
  {| port := Some port'; _esp := Some esp'; _stack := Some [port'];
     _flash_size := size; _cached_serial_number := None;
     _EspBoot__monitor := Some (Some (EspBootMonitor.init port' observer)) |}.

(** The first half of the guarded block of [open]: connect.  Until it
    succeeds nothing has been entered into the exit stack. *)
Definition open_connect (env : Env) (port : option string) : M (string * Esp) :=
  (if esptool_logger env then emit EvSetVerbosity else ret tt) ;;
  if wants_auto port then _auto_detect_port env
  else
    let p := format_port port in
    esp <- call (EvDetectChip p) (detect_chip env p) ;;
    ret (p, esp).

(** The second half: the stub and the flash, with the connection entered. *)
Definition open_attach (env : Env) (esp : Esp) (run_stub_flasher : bool) : M Esp :=
  esp' <- (if run_stub_flasher then call EvRunStub (run_stub env esp) else ret esp) ;;
  call EvAttachFlash (attach_flash env esp') ;;
  ret esp'.

(** The best-effort caching of the flash size after a successful open. *)
Definition open_flash_size (env : Env) (esp : Esp) : M (option Z) :=
  try_except
    (match _get_flash_info env with
     | Some info =>
         size <- call EvGetFlashInfo (info esp) ;;
         ret (_flash_size_to_bytes size)
     | None => raise (MkExn ForeignError "cannot import name '_get_flash_info'")
     end)
    (fun _ => ret None).

Definition open (env : Env) (port : option string) (run_stub_flasher : bool) : M t :=
  fun w =>
    match open_connect env port w with
    | (Raise e, w1) =>
        (* [stack] is still empty and [port] is still the argument *)
        (emit (EvStackClose []) ;; raise (open_failed port e)) w1
    | (Ok (port', esp), w1) =>
        match open_attach env esp run_stub_flasher w1 with
        | (Raise e, w2) =>
            (emit (EvStackClose [port']) ;; raise (open_failed (Some port') e)) w2
        | (Ok esp', w2) =>
            (size <- open_flash_size env esp' ;;
             emit (EvMonitorStart port') ;;
             (* the observer refers to the controller being returned; the
                reference is cut at the monitor's own callback, which
                [close] never reads *)
             ret (opened port' esp' size
                    (Some (EspBootObserver (opened port' esp' size None))))) w2
        end
    end.

(** [__enter__] and [__exit__] *)
Definition enter (self : t) : M t := ret self.
Definition exit (self : t) : M t := close self.

(** *** The monitor thread of a controller *)

(** The pair handed to [update] by a hook. *)
Definition actions_of (n : Notification) : EspBootMonitorObserver.Actions :=
  match n with
  | OnConnect p => (Some p, None)
  | OnDisconnect p => (None, Some p)
  end.

(** The controller after the hooks of one pass: [update] acts on it once per
    hook invoked. *)
Fixpoint apply_hooks (device : t) (hooks : list Notification) : M t :=
  match hooks with
  | [] => ret device
  | n :: rest =>
      device' <- EspBootObserver_update device (actions_of n) ;;
      apply_hooks device' rest
  end.

Definition observed_by (m : EspBootMonitor.t) (device : t) : EspBootMonitor.t :=
  {| EspBootMonitor._port := EspBootMonitor._port m;
     EspBootMonitor._cls_callback := Some (EspBootObserver device);
     EspBootMonitor._running := EspBootMonitor._running m;
     EspBootMonitor._device_present := EspBootMonitor._device_present m |}.

(** [EspBootMonitor._run] on the monitor [m] of the controller [device], the
    controller being the state the two share: at each pass the observer is
    the controller's in its current state, and the hooks invoked act on the
    controller and on the world. *)
Fixpoint monitor_thread (device : t) (m : EspBootMonitor.t)
    (enumerations : list (list PortInfo)) (w : World)
  : (t * EspBootMonitor.Pass) * World :=
  if EspBootMonitor._running m then
    match enumerations with
    | [] => ((device, (m, [], None)), w)
    | ports :: rest =>
        let '(m1, hooks1, exn1) := EspBootMonitor.poll (observed_by m device) ports in
        let '(outcome, w1) := apply_hooks device hooks1 w in
        let device1 := match outcome with Ok d => d | Raise _ => device end in
        match exn1 with
        | Some e => ((device1, (m1, hooks1, Some e)), w1)
        | None =>
            let '((device2, (m2, hooks2, exn2)), w2) :=
              monitor_thread device1 m1 rest w1 in
            ((device2, (m2, hooks1 ++ hooks2, exn2)), w2)
        end
    end
  else ((device, (m, [], None)), w).

(** *** Identification *)

Definition chip_name (self : t) : M string :=
  match _esp self with
  | None => raise not_connected
  | Some esp =>
      ret (match CHIP_NAME esp with Some n => n | None => "unknown" end)
  end.

Definition chip_id (self : t) : M (option Z) :=
  match _esp self with
  | None => raise not_connected
  | Some esp =>
      match get_chip_id esp with
      | Some outcome =>
          try_except (call EvGetChipId outcome) (fun _ => ret None)
      | None => ret (esp_chip_id esp)
      end
  end.

(** The class attribute [Platform.<name>]. *)
Definition Platform_attr (name : string) : M Platform :=
  match Platform_member name with
  | Some p => ret p
  | None => raise (MkExn AttributeError name)
  end.

Definition _determine_platform (self : t) : M Platform :=
  chip <- chip_name self ;;
  let name := PyStr.lower chip in
  if PyStr.contains "esp32-s3" name then Platform_attr "ESP32S3"
  else if PyStr.contains "esp32-s2" name then Platform_attr "ESP32S2"
  else if PyStr.contains "esp32c3" name then Platform_attr "ESP32C3"
  else if PyStr.contains "esp32" name then Platform_attr "ESP32"
  else Platform_attr "UNKNOWN".

Definition platform (self : t) : M Platform := _determine_platform self.

(** [serial[:12]] *)
Definition first12 (serial : string) : string := substring 0 12 serial.

Definition set_serial_number_str (self : t) (serial : string) : M t :=
  match PyBytes.fromhex (first12 serial) with
  | Some bs =>
      ret {| port := port self; _esp := _esp self; _stack := _stack self;
             _flash_size := _flash_size self;
             _cached_serial_number := Some (rev bs);
             _EspBoot__monitor := _EspBoot__monitor self |}
  | None => raise (MkExn ValueError "non-hexadecimal number found in fromhex() arg")
  end.

(** The live read of the MAC, [None] when it is unavailable or fails. *)
Definition live_mac (esp : Esp) : M MacValue :=
  match read_mac esp with
  | Some outcome => try_except (call EvReadMac outcome) (fun _ => ret MacNone)
  | None => ret MacNone
  end.

(** The fallback when no MAC was read. *)
Definition mac_or_fallback (self : t) (mac : MacValue) : MacValue :=
  match mac with
  | MacNone =>
      match _cached_serial_number self with
      | Some cached => MacBytes cached
      | None => MacBytes (repeat x00 6)
      end
  | _ => mac
  end.

(** The two [isinstance] steps: an [int] becomes six big-endian bytes,
    anything that is not [bytes] goes through [bytes(mac)]. *)
Definition mac_to_bytes (mac : MacValue) : Res (list byte) :=
  match mac with
  | MacInt n => PyBytes.to_bytes_big n 6
  | MacBytes bs => Ok bs
  | MacInts l => PyBytes.bytes_of_seq l
  | MacNone => Raise (MkExn ForeignError "cannot convert 'NoneType' object to bytes")
  end.

(** [b"\x00" * (8 - len(mac_bytes)) + mac_bytes]; a negative count gives
    the empty byte string. *)
Definition pad8 (mac_bytes : list byte) : list byte :=
  repeat x00 (8 - List.length mac_bytes) ++ mac_bytes.

Definition invalid_mac_length : Exn := MkExn EspBootError "Invalid MAC address length".

Definition serial_number_str (self : t) : M string :=
  match _esp self with
  | None => raise not_connected
  | Some esp =>
      mac <- live_mac esp ;;
      mac_bytes <- lift (mac_to_bytes (mac_or_fallback self mac)) ;;
      let mac_bytes := pad8 mac_bytes in
      if negb (List.length mac_bytes =? 8)%nat then raise invalid_mac_length
      else ret (PyBytes.hex_upper (rev mac_bytes))
  end.

(** One best-effort entry of the dictionary of [get_chip_info]. *)
Definition optional_entry (key : string) (ev : Event) (m : Method InfoValue)
    (info : list (string * InfoValue)) : M (list (string * InfoValue)) :=
  match m with
  | Some outcome =>
      try_except (v <- call ev outcome ;; ret (info ++ [(key, v)]))
                 (fun _ => ret info)
  | None => ret info
  end.

Definition get_chip_info (self : t) : M (list (string * InfoValue)) :=
  match _esp self with
  | None => raise not_connected
  | Some esp =>
      name <- chip_name self ;;
      id <- chip_id self ;;
      plat <- platform self ;;
      let info :=
        [ ("chip_name", VStr name)
        ; ("chip_id", match id with Some n => VInt n | None => VNone end)
        ; ("platform", VInt (Platform_value plat))
        ; ("port", match port self with Some p => VStr p | None => VNone end) ] in
      info <- optional_entry "description" EvGetChipDescription
                (get_chip_description esp) info ;;
      optional_entry "features" EvGetChipFeatures (get_chip_features esp) info
  end.

(** *** Flash size, continued *)

Definition size_unknown : Exn :=
  MkExn EspBootError "Unable to determine flash size programmatically".

Definition is_size_none (size : SizeDesc) : bool :=
  match size with SizeNone => true | _ => false end.

(** The descriptor from the toolkit's flash-info routine, [SizeNone] when
    the routine is missing or fails. *)
Definition size_from_info (env : Env) (esp : Esp) : M SizeDesc :=
  match _get_flash_info env with
  | Some info => try_except (call EvGetFlashInfo (info esp)) (fun _ => ret SizeNone)
  | None => ret SizeNone
  end.

(** The [for attr in (...)] loop: the first attribute that exists wins. *)
Definition size_from_attrs (esp : Esp) : SizeDesc :=
  match flash_size esp with
  | Some v => v
  | None =>
      match FLASH_SIZE esp with
      | Some v => v
      | None =>
          match FLASH_SIZE_BYTES esp with
          | Some v => v
          | None => SizeNone
          end
      end
  end.

Definition set_flash_size (self : t) (size : Z) : t :=
  {| port := port self; _esp := _esp self; _stack := _stack self;
     _flash_size := Some size;
     _cached_serial_number := _cached_serial_number self;
     _EspBoot__monitor := _EspBoot__monitor self |}.

Definition get_flash_size (env : Env) (self : t) : M (Z * t) :=
  match _esp self with
  | None => raise not_connected
  | Some esp =>
      match _flash_size self with
      | Some cached => ret (cached, self)
      | None =>
          size <- size_from_info env esp ;;
          let size := if is_size_none size then size_from_attrs esp else size in
          if is_size_none size then
            best_effort (call EvFlashId (flash_id env esp)) ;;
            raise size_unknown
          else
            match _flash_size_to_bytes size with
            | None => raise size_unknown
            | Some n => ret (n, set_flash_size self n)
            end
      end
  end.

Definition memory (env : Env) (self : t) : M (Z * t) :=
  try_except (get_flash_size env self)
    (fun e => if is_EspBootError e then ret (0%Z, self) else raise e).

Definition is_connected (env : Env) (self : t) : M bool :=
  match port self with
  | None => ret false
  | Some p => _is_port_present env p
  end.

(** *** Writing and resetting *)

(** [f = open(path, "rb")]: the operating system hands out the next
    handle when the file can be opened. *)
Definition open_rb (env : Env) (path : string) : M nat :=
  call (EvFileOpen path) (file_open env path) ;;
  fun w => (Ok (next_fd w), {| log := log w; next_fd := S (next_fd w) |}).

(** The [for addr, path in segments] loop.  [opened] is returned together
    with the exception that interrupted the loop, if one did. *)
Fixpoint open_segments (env : Env) (segments : list (Z * string))
    (opened : list (Z * nat)) (w : World) : (list (Z * nat) * option Exn) * World :=
  match segments with
  | [] => ((opened, None), w)
  | (addr, path) :: rest =>
      match open_rb env path w with
      | (Ok f, w') => open_segments env rest (opened ++ [(addr, f)]) w'
      | (Raise e, w') => ((opened, Some e), w')
      end
  end.

(** The [finally] block: every handle in [opened] is closed, failures of
    [close] being ignored. *)
Fixpoint close_opened (env : Env) (opened : list (Z * nat)) : M unit :=
  match opened with
  | [] => ret tt
  | (_, f) :: rest =>
      best_effort (call (EvFileClose f) (file_close env f)) ;;
      close_opened env rest
  end.

Definition as_sources (opened : list (Z * nat)) : list (Z * FlashSource) :=
  map (fun '(addr, f) => (addr, FromFile f)) opened.

Definition write_flash_files (env : Env) (self : t) (segments : list (Z * string)) : M unit :=
  match _esp self with
  | None => raise not_connected
  | Some esp =>
      fun w =>
        let '((opened, interrupted), w1) := open_segments env segments [] w in
        let '(outcome, w2) :=
          match interrupted with
          | Some e => (Raise e, w1)
          | None =>
              call (EvWriteFlash (as_sources opened))
                   (esptool_write_flash env esp (as_sources opened)) w1
          end in
        match close_opened env opened w2 with
        | (Ok _, w3) => (outcome, w3)
        | (Raise e, w3) => (Raise e, w3)
        end
  end.

Definition write_flash (env : Env) (self : t) (addr : Z) (data : list byte) : M unit :=
  match _esp self with
  | None => raise not_connected
  | Some esp =>
      call (EvWriteFlash [(addr, FromBytes data)])
           (esptool_write_flash env esp [(addr, FromBytes data)])
  end.

Definition reset (env : Env) (self : t) (mode : string) : M unit :=
  match _esp self with
  | None => raise not_connected
  | Some esp => best_effort (call (EvResetChip mode) (reset_chip env esp mode))
  end.

Definition reboot (env : Env) (self : t) (bootsel : bool) : M unit :=
  match _esp self with
  | None => raise not_connected
  | Some esp =>
      let mode := if bootsel then "reset" else "hard-reset" in
      best_effort (call (EvResetChip mode) (reset_chip env esp mode))
  end.

End EspBoot.

(** * Vocabulary of the properties *)

(** The outcome [r] of a call started in world [w] is the generic
    [EspBootError] with the message "Device not connected", and the world is
    still [w]: nothing was called, opened or logged. *)
Definition fails_disconnected {A} (w : World) (r : Res A * World) : Prop :=
  r = (Raise (MkExn EspBootError "Device not connected"), w).

(** ** Sample inputs *)

(** A sample answering environment: one serial port, on which a chip with
    the given handle answers. *)
Definition sample_esp (name : string) (mac : Method MacValue) : Esp :=
  {| CHIP_NAME := Some name; get_chip_id := None; esp_chip_id := None;
     read_mac := mac; get_chip_description := None; get_chip_features := None;
     flash_size := None; FLASH_SIZE := None; FLASH_SIZE_BYTES := None |}.

Definition sample_env (ports : option (list PortInfo)) (answer : string -> Res Esp) : Env :=
  {| comports := ports;
     esptool_logger := true;
     detect_chip := answer;
     run_stub := fun esp => Ok esp;
     attach_flash := fun _ => Ok tt;
     _get_flash_info := Some (fun _ => Ok (SizeStr "4MB"));
     flash_id := fun _ => Ok tt;
     esptool_write_flash := fun _ _ => Ok tt;
     reset_chip := fun _ _ => Ok tt;
     file_open := fun _ => Ok tt;
     file_close := fun _ => Ok tt |}.

Definition no_answer (port : string) : Res Esp :=
  Raise (MkExn ForeignError "Failed to connect").

Definition fresh_world : World := {| log := []; next_fd := 3 |}.

(** A controller built directly with no handle: never opened. *)
Definition unopened : EspBoot.t := EspBoot.init (Some "/dev/ttyUSB0") None None.

(** Two enumerated ports: a generic adapter and an Espressif one. *)
Definition port_A : PortInfo :=
  {| device := "A"; description := Some "Generic UART"; manufacturer := None;
     product := None; vid := Some 0x1234%Z |}.

Definition port_B : PortInfo :=
  {| device := "B"; description := Some ""; manufacturer := None;
     product := None; vid := Some 0x303A%Z |}.

(** ** Serial numbers *)

(** An upper-case hexadecimal digit: [0-9A-F]. *)
Definition is_upper_hex (c : ascii) : bool :=
  let n := nat_of_ascii c in
  PyStr.is_digit c || ((65 <=? n)%nat && (n <=? 70)%nat).

Fixpoint all_chars (f : ascii -> bool) (s : string) : bool :=
  match s with
  | EmptyString => true
  | String c t => f c && all_chars f t
  end.

(** What the live read leaves in [mac]: the value [read_mac()] returned,
    [None] when the handle has no [read_mac] or the call raised. *)
Definition mac_read (esp : Esp) : MacValue :=
  match read_mac esp with
  | Some (Ok mac) => mac
  | _ => MacNone
  end.

Definition mac_123456 : list byte := [x01; x02; x03; x04; x05; x06].

(** A controller holding the given handle, as [open] leaves it on
    [/dev/ttyUSB0]. *)
Definition connected_to (esp : Esp) : EspBoot.t :=
  EspBoot.init (Some "/dev/ttyUSB0") (Some esp) (Some ["/dev/ttyUSB0"]).

(** ** Flash size *)

(** The size descriptor [get_flash_size] ends up with before normalising
    it: what the toolkit's flash-info routine returned, or, when that is
    missing, failed or returned [None], the first of the three handle
    attributes that exists. *)
Definition size_reported (env : Env) (esp : Esp) : SizeDesc :=
  let from_info :=
    match _get_flash_info env with
    | Some info => match info esp with Ok size => size | Raise _ => SizeNone end
    | None => SizeNone
    end in
  if EspBoot.is_size_none from_info then EspBoot.size_from_attrs esp else from_info.

(** An environment whose flash-info routine reports the given descriptor. *)
Definition reporting (size : SizeDesc) : Env :=
  {| comports := Some [];
     esptool_logger := true;
     detect_chip := no_answer;
     run_stub := fun esp => Ok esp;
     attach_flash := fun _ => Ok tt;
     _get_flash_info := Some (fun _ => Ok size);
     flash_id := fun _ => Ok tt;
     esptool_write_flash := fun _ _ => Ok tt;
     reset_chip := fun _ _ => Ok tt;
     file_open := fun _ => Ok tt;
     file_close := fun _ => Ok tt |}.

(** ** Files *)

(** The handles closed by a run of events, in order. *)
Definition closed_handles (evs : list Event) : list nat :=
  flat_map (fun ev => match ev with EvFileClose f => [f] | _ => [] end) evs.

(** The leading segments whose file can be opened:
    the loop of [write_flash_files] stops at the first one that cannot. *)
Fixpoint openable (env : Env) (segments : list (Z * string)) : list (Z * string) :=
  match segments with
  | [] => []
  | (addr, path) :: rest =>
      if is_raise (file_open env path) then [] else (addr, path) :: openable env rest
  end.

(** The paths on which [open] is attempted: the openable ones and the first
    that fails. *)
Fixpoint attempted (env : Env) (segments : list (Z * string)) : list string :=
  match segments with
  | [] => []
  | (_, path) :: rest =>
      path :: (if is_raise (file_open env path) then [] else attempted env rest)
  end.

(** The exception of the first file that cannot be opened. *)
Fixpoint first_failure (env : Env) (segments : list (Z * string)) : option Exn :=
  match segments with
  | [] => None
  | (_, path) :: rest =>
      match file_open env path with
      | Raise e => Some e
      | Ok _ => first_failure env rest
      end
  end.

(** The handles given to [n] files opened one after the other from [w]. *)
Definition handles_from (w : World) (n : nat) : list nat := seq (next_fd w) n.

(** An environment in which the named file is missing and the toolkit's
    write fails. *)
Definition failing_env (missing : string) : Env :=
  {| comports := Some [];
     esptool_logger := true;
     detect_chip := no_answer;
     run_stub := fun esp => Ok esp;
     attach_flash := fun _ => Ok tt;
     _get_flash_info := None;
     flash_id := fun _ => Ok tt;
     esptool_write_flash := fun _ _ => Raise (MkExn ForeignError "write failed");
     reset_chip := fun _ _ => Ok tt;
     file_open := fun path =>
       if String.eqb path missing then Raise (MkExn ForeignError "No such file")
       else Ok tt;
     file_close := fun _ => Raise (MkExn ForeignError "close failed") |}.

(** ** Candidate order *)

(** The ports on which the detection loop attempts a connection: the
    candidates up to and including the first that answers. *)
Fixpoint tried (env : Env) (ports : list string) : list string :=
  match ports with
  | [] => []
  | port :: rest =>
      port :: (if is_raise (detect_chip env port) then tried env rest else [])
  end.

(** ** The presence monitor *)

Definition monitor_after (pass : EspBootMonitor.Pass) : EspBootMonitor.t :=
  fst (fst pass).

Definition notifications (pass : EspBootMonitor.Pass) : list Notification :=
  snd (fst pass).

(** The hooks due when the recorded presence is [recorded] and a poll
    observes [present]. *)
Definition due (port : string) (recorded present : bool) : list Notification :=
  if present && negb recorded then [OnConnect port]
  else if negb present && recorded then [OnDisconnect port]
  else [].

(** The hooks due over successive observations. *)
Fixpoint due_over (port : string) (recorded : bool) (observations : list bool)
  : list Notification :=
  match observations with
  | [] => []
  | present :: rest => due port recorded present ++ due_over port present rest
  end.

(** An observer whose [update] only takes note. *)
Definition quiet_observer : EspBootMonitorObserver.t :=
  {| EspBootMonitorObserver.update := Some (fun _ => Returns) |}.

(** An enumeration with the target port of the samples, and one without. *)
Definition with_target : list PortInfo :=
  [ {| device := "/dev/ttyUSB0"; description := Some "USB JTAG/serial debug unit";
       manufacturer := Some "Espressif"; product := None; vid := Some 0x303A%Z |} ].

Definition without_target : list PortInfo := [port_A].

(** ** Presence of the port *)

(** The port is among the devices of the live enumeration. *)
Definition port_enumerated (env : Env) (port : option string) : bool :=
  match port, comports env with
  | Some p, Some ports => existsb (String.eqb p) (map device ports)
  | _, _ => false
  end.

Definition target_esp : Esp := sample_esp "ESP32-S3 (revision 2)" None.

(** The target port is plugged in and a chip answers on it. *)
Definition plugged_env : Env := sample_env (Some with_target) (fun _ => Ok target_esp).

(** ** Opening *)

(** The size [open] caches: the normalised answer of the toolkit's
    flash-info routine, nothing when the routine is missing or fails. *)
Definition size_at_open (env : Env) (esp : Esp) : option Z :=
  match _get_flash_info env with
  | Some info =>
      match info esp with
      | Ok size => EspBoot._flash_size_to_bytes size
      | Raise _ => None
      end
  | None => None
  end.

(** The handle the controller keeps: the stub's when the stub is loaded. *)
Definition handle_kept (env : Env) (esp : Esp) (run_stub_flasher : bool) : Res Esp :=
  if run_stub_flasher then run_stub env esp else Ok esp.

(** The toolkit calls of a successful [open] on an explicit port. *)
Definition open_events (env : Env) (p : string) (run_stub_flasher : bool) : list Event :=
  (if esptool_logger env then [EvSetVerbosity] else [])
  ++ [EvDetectChip p]
  ++ (if run_stub_flasher then [EvRunStub] else [])
  ++ [EvAttachFlash]
  ++ (match _get_flash_info env with Some _ => [EvGetFlashInfo] | None => [] end)
  ++ [EvMonitorStart p].

(** The calls [close] makes on a controller. *)
Definition close_events (self : EspBoot.t) : list Event :=
  match EspBoot._stack self with
  | Some stack =>
      match EspBoot._EspBoot__monitor self with
      | Some (Some _) => [EvMonitorStop; EvStackClose stack]
      | _ => [EvStackClose stack]
      end
  | None => []
  end.

(** A chip answers on ["B"] only. *)
Definition answers_on_B (port : string) : Res Esp :=
  if String.eqb port "B" then Ok (sample_esp "ESP32-S3" None)
  else Raise (MkExn ForeignError "Failed to connect").

Definition port_C : PortInfo :=
  {| device := "C"; description := Some "CP2102 USB to UART Bridge Controller";
     manufacturer := Some "Silicon Labs"; product := None; vid := Some 0x10C4%Z |}.

(** An environment in which the chip connects and the flash cannot be
    attached. *)
Definition attach_fails_env : Env :=
  {| comports := Some with_target;
     esptool_logger := true;
     detect_chip := fun _ => Ok target_esp;
     run_stub := fun esp => Ok esp;
     attach_flash := fun _ => Raise (MkExn ForeignError "flash not responding");
     _get_flash_info := None;
     flash_id := fun _ => Ok tt;
     esptool_write_flash := fun _ _ => Ok tt;
     reset_chip := fun _ _ => Ok tt;
     file_open := fun _ => Ok tt;
     file_close := fun _ => Ok tt |}.

(** The world after some more events. *)
Definition logged (w : World) (evs : list Event) : World :=
  {| log := log w ++ evs; next_fd := next_fd w |}.

(** The calls of the second half of [open]: the stub, when asked for, and
    the flash, unless the stub failed. *)
Definition attach_events (env : Env) (esp : Esp) (run_stub_flasher : bool) : list Event :=
  (if run_stub_flasher then [EvRunStub] else [])
  ++ (if is_raise (handle_kept env esp run_stub_flasher) then [] else [EvAttachFlash]).

(** The outcome of the second half of [open]. *)
Definition attach_outcome (env : Env) (esp : Esp) (run_stub_flasher : bool) : Res Esp :=
  match handle_kept env esp run_stub_flasher with
  | Ok esp' =>
      match attach_flash env esp' with
      | Ok _ => Ok esp'
      | Raise e => Raise e
      end
  | Raise e => Raise e
  end.

Definition verbosity_events (env : Env) : list Event :=
  if esptool_logger env then [EvSetVerbosity] else [].

(** ** Flash size, continued *)

(** The toolkit calls [get_flash_size] makes when nothing is cached: the
    flash-info routine when it exists, and the flash identification only
    when no descriptor was found at all. *)
Definition flash_size_events (env : Env) (esp : Esp) : list Event :=
  (match _get_flash_info env with Some _ => [EvGetFlashInfo] | None => [] end)
  ++ (if EspBoot.is_size_none (size_reported env esp) then [EvFlashId] else []).

(** An environment whose toolkit knows nothing about the flash and fails
    every reset. *)
Definition unhelpful_env : Env :=
  {| comports := None;
     esptool_logger := false;
     detect_chip := no_answer;
     run_stub := fun esp => Ok esp;
     attach_flash := fun _ => Ok tt;
     _get_flash_info := Some (fun _ => Raise (MkExn ForeignError "no flash info"));
     flash_id := fun _ => Raise (MkExn ForeignError "no flash id");
     esptool_write_flash := fun _ _ => Ok tt;
     reset_chip := fun _ _ => Raise (MkExn ForeignError "device went away");
     file_open := fun _ => Ok tt;
     file_close := fun _ => Ok tt |}.

(** A handle that only carries a size attribute. *)
Definition esp_with_size_attr (size : SizeDesc) : Esp :=
  {| CHIP_NAME := Some "ESP32-S3"; get_chip_id := None; esp_chip_id := None;
     read_mac := None; get_chip_description := None; get_chip_features := None;
     flash_size := None; FLASH_SIZE := Some size; FLASH_SIZE_BYTES := None |}.

(** ** Serial numbers, continued *)

(** A handle on which the MAC cannot be read. *)
Definition mute_esp : Esp := sample_esp "ESP32-S3" (Some (Raise (MkExn ForeignError "timeout"))).

(** A handle whose [read_mac] returns the given value. *)
Definition esp_with_mac (mac : MacValue) : Esp := sample_esp "ESP32-S3" (Some (Ok mac)).

(** ** Decimal text *)

Definition digit_char (d : nat) : ascii := ascii_of_nat (48 + d).

(** The text of a run of decimal digits, most significant first. *)
Fixpoint digit_string (ds : list nat) : string :=
  match ds with
  | [] => ""
  | d :: rest => String (digit_char d) (digit_string rest)
  end.

(** The number a run of decimal digits denotes, continuing from [acc]. *)
Fixpoint digits_value (acc : Z) (ds : list nat) : Z :=
  match ds with
  | [] => acc
  | d :: rest => digits_value (acc * 10 + Z.of_nat d) rest
  end.

Definition not_space (c : ascii) : bool := negb (PyStr.is_space c).

(** ** The monitor of a controller *)

(** The hooks due over successive observations when the observer stops the
    monitor at the first disconnect. *)
Fixpoint due_until_gone (port : string) (recorded : bool) (observations : list bool)
  : list Notification :=
  match observations with
  | [] => []
  | present :: rest =>
      if negb present && recorded then [OnDisconnect port]
      else due port recorded present ++ due_until_gone port present rest
  end.

(** ** Chip information *)

(** What [chip_id] returns on a handle. *)
Definition chip_id_value (esp : Esp) : option Z :=
  match get_chip_id esp with
  | Some (Ok id) => id
  | Some (Raise _) => None
  | None => esp_chip_id esp
  end.

(** The entry an optional getter contributes. *)
Definition optional_value (key : string) (m : Method InfoValue) : list (string * InfoValue) :=
  match m with
  | Some (Ok v) => [(key, v)]
  | _ => []
  end.

Definition called (ev : Event) {A} (m : Method A) : list Event :=
  match m with
  | Some _ => [ev]
  | None => []
  end.

(** A handle with an identifier, a description, and a features getter that
    fails. *)
Definition described_esp : Esp :=
  {| CHIP_NAME := Some "ESP32-S3 (revision 2)";
     get_chip_id := Some (Raise (MkExn ForeignError "not supported"));
     esp_chip_id := Some 9%Z;
     read_mac := None;
     get_chip_description := Some (Ok (VStr "ESP32-S3 (QFN56)"));
     get_chip_features := Some (Raise (MkExn ForeignError "timeout"));
     flash_size := None; FLASH_SIZE := None; FLASH_SIZE_BYTES := None |}.

(** What [chip_name] returns on a handle. *)
Definition name_of (esp : Esp) : string :=
  match CHIP_NAME esp with
  | Some n => n
  | None => "unknown"
  end.

(** Connect and disconnect hooks for [port] take turns, the first being a
    connect exactly when [connect_next] is set. *)
Fixpoint alternates (port : string) (connect_next : bool) (l : list Notification) : bool :=
  match l with
  | [] => true
  | OnConnect p :: rest =>
      connect_next && String.eqb p port && alternates port false rest
  | OnDisconnect p :: rest =>
      negb connect_next && String.eqb p port && alternates port true rest
  end.

(** An observer whose [update] always raises. *)
Definition failing_observer : EspBootMonitorObserver.t :=
  {| EspBootMonitorObserver.update :=
       Some (fun _ => Raises (MkExn ForeignError "observer failed")) |}.

(** An environment without pyserial. *)
Definition no_pyserial_env : Env := sample_env None (fun _ => Ok target_esp).

(** An environment in which chips answer as [answer] says and the stub never
    starts. *)
Definition stub_fails_env (ports : option (list PortInfo)) (answer : string -> Res Esp) : Env :=
  {| comports := ports;
     esptool_logger := true;
     detect_chip := answer;
     run_stub := fun _ => Raise (MkExn ForeignError "stub did not start");
     attach_flash := fun _ => Ok tt;
     _get_flash_info := Some (fun _ => Ok (SizeStr "4MB"));
     flash_id := fun _ => Ok tt;
     esptool_write_flash := fun _ _ => Ok tt;
     reset_chip := fun _ _ => Ok tt;
     file_open := fun _ => Ok tt;
     file_close := fun _ => Ok tt |}.

(** ** The monitor thread of a controller *)

Definition thread_controller (run : (EspBoot.t * EspBootMonitor.Pass) * World) : EspBoot.t :=
  fst (fst run).

Definition thread_pass (run : (EspBoot.t * EspBootMonitor.Pass) * World) : EspBootMonitor.Pass :=
  snd (fst run).

Definition thread_world (run : (EspBoot.t * EspBootMonitor.Pass) * World) : World :=
  snd run.

(** A running monitor on [port] with the given callback and recorded
    presence. *)
Definition polling (port : string) (cb : option EspBootMonitorObserver.t)
    (recorded : bool) : EspBootMonitor.t :=
  {| EspBootMonitor._port := port;
     EspBootMonitor._cls_callback := cb;
     EspBootMonitor._running := true;
     EspBootMonitor._device_present := recorded |}.

(** The controller [open] returns on the plugged target port. *)
Definition opened_sample : EspBoot.t :=
  EspBoot.opened "/dev/ttyUSB0" target_esp (Some 4194304%Z)
    (Some (EspBoot.EspBootObserver
             (EspBoot.opened "/dev/ttyUSB0" target_esp (Some 4194304%Z) None))).

Definition watched_sample : EspBootMonitor.t :=
  EspBootMonitor.init "/dev/ttyUSB0"
    (Some (EspBoot.EspBootObserver
             (EspBoot.opened "/dev/ttyUSB0" target_esp (Some 4194304%Z) None))).

(** ** The claimed criterion, field by field *)

(** A port matches when its vendor id is a known one or when one of its
    description, manufacturer and product contains one of the keywords,
    letter case ignored. *)
Definition field_has_keyword (field : option string) : bool :=
  match field with
  | Some text =>
      existsb (fun k => PyStr.contains k (PyStr.lower text))
        ["esp"; "cp210"; "ch340"; "ch910"; "ftdi"; "silicon labs"]
  | None => false
  end.

Definition matches_by_field (p : PortInfo) : bool :=
  match vid p with
  | Some v => existsb (Z.eqb v) [0x303A; 0x10C4; 0x1A86; 0x0403; 0x067B]%Z
  | None => false
  end
  || existsb field_has_keyword [description p; manufacturer p; product p].

(** [a] comes somewhere before [b] in [l]. *)
Definition comes_before (a b : string) (l : list string) : Prop :=
  exists x y z, l = x ++ a :: y ++ b :: z.

(** The ordering as the claim words it. *)
Definition matching_ports_first (ports : list PortInfo) : Prop :=
  forall p q,
    In p ports -> In q ports ->
    matches_by_field p = true -> matches_by_field q = false ->
    comes_before (device p) (device q) (EspBoot.order_ports ports).

(** A port whose description ends and whose manufacturer begins a keyword. *)
Definition port_S : PortInfo :=
  {| device := "S"; description := Some "Silicon"; manufacturer := Some "Labs";
     product := None; vid := Some 0x1234%Z |}.

(** A port known by its description only, in capitals. *)
Definition port_K : PortInfo :=
  {| device := "K"; description := None; manufacturer := None;
     product := Some "USB-SERIAL CH340"; vid := None |}.

(** * Properties *)

(** ** Shared facts about the call monad *)

Lemma emit_run (ev : Event) (w : World) :
  emit ev w = (Ok tt, {| log := log w ++ [ev]; next_fd := next_fd w |}).
Proof. reflexivity. Qed.

Lemma call_run {A} (ev : Event) (r : Res A) (w : World) :
  call ev r w = (r, {| log := log w ++ [ev]; next_fd := next_fd w |}).
Proof. unfold call, bind, emit, lift. reflexivity. Qed.

Lemma best_effort_run (ev : Event) (r : Res unit) (w : World) :
  best_effort (call ev r) w = (Ok tt, {| log := log w ++ [ev]; next_fd := next_fd w |}).
Proof.
  unfold best_effort, try_except. rewrite call_run.
  destruct r as [[]|e]; reflexivity.
Qed.

Lemma world_eta (w : World) : {| log := log w; next_fd := next_fd w |} = w.
Proof. destruct w; reflexivity. Qed.

Lemma world_app_nil (w : World) : {| log := log w ++ []; next_fd := next_fd w |} = w.
Proof. rewrite app_nil_r. apply world_eta. Qed.

(** ** A controller without a device handle *)

Section Disconnected.

Variable env : Env.
Variable self : EspBoot.t.
Hypothesis handle_absent : EspBoot._esp self = None.

Lemma chip_name_disconnected w : EspBoot.chip_name self w = (Raise EspBoot.not_connected, w).
Proof. unfold EspBoot.chip_name. rewrite handle_absent. reflexivity. Qed.

Lemma chip_id_disconnected w : EspBoot.chip_id self w = (Raise EspBoot.not_connected, w).
Proof. unfold EspBoot.chip_id. rewrite handle_absent. reflexivity. Qed.

Lemma serial_number_str_disconnected w :
  EspBoot.serial_number_str self w = (Raise EspBoot.not_connected, w).
Proof. unfold EspBoot.serial_number_str. rewrite handle_absent. reflexivity. Qed.

Lemma get_chip_info_disconnected w :
  EspBoot.get_chip_info self w = (Raise EspBoot.not_connected, w).
Proof. unfold EspBoot.get_chip_info. rewrite handle_absent. reflexivity. Qed.

Lemma get_flash_size_disconnected w :
  EspBoot.get_flash_size env self w = (Raise EspBoot.not_connected, w).
Proof. unfold EspBoot.get_flash_size. rewrite handle_absent. reflexivity. Qed.

Lemma write_flash_disconnected addr data w :
  EspBoot.write_flash env self addr data w = (Raise EspBoot.not_connected, w).
Proof. unfold EspBoot.write_flash. rewrite handle_absent. reflexivity. Qed.

Lemma write_flash_files_disconnected segments w :
  EspBoot.write_flash_files env self segments w = (Raise EspBoot.not_connected, w).
Proof. unfold EspBoot.write_flash_files. rewrite handle_absent. reflexivity. Qed.

Lemma reset_disconnected mode w :
  EspBoot.reset env self mode w = (Raise EspBoot.not_connected, w).
Proof. unfold EspBoot.reset. rewrite handle_absent. reflexivity. Qed.

Lemma reboot_disconnected bootsel w :
  EspBoot.reboot env self bootsel w = (Raise EspBoot.not_connected, w).
Proof. unfold EspBoot.reboot. rewrite handle_absent. reflexivity. Qed.

End Disconnected.

(** [close] on a controller that holds an exit stack clears the handle. *)
Lemma close_clears_handle (self : EspBoot.t) (w : World) :
  EspBoot._stack self <> None ->
  exists self' w',
    EspBoot.close self w = (Ok self', w') /\
    EspBoot._esp self' = None /\ EspBoot._stack self' = None.
Proof.
  intros Hs. unfold EspBoot.close.
  destruct (EspBoot._stack self) as [stack|]; [|congruence].
  destruct (EspBoot._EspBoot__monitor self) as [[m|]|];
    cbv [bind emit ret]; eexists; eexists; (split; [reflexivity|split; reflexivity]).
Qed.

(** C1, as worded, fails: on a controller without a handle [chip_name] does
    not fail with the invalid-state error kind and the message
    "device not connected". *)
Lemma chip_name_unopened_not_invalid_state :
  EspBoot._esp unopened = None /\
  ~ (exists e w',
       EspBoot.chip_name unopened fresh_world = (Raise e, w') /\
       exn_class e = EspBootInvalidStateError /\
       exn_msg e = "device not connected").
Proof.
  split; [reflexivity|].
  intros (e & w' & Hrun & Hcls & _).
  vm_compute in Hrun. inversion Hrun; subst e. discriminate Hcls.
Qed.

(** C1 (amended): on every controller whose device handle is absent, each of
    [chip_name], [chip_id], [serial_number_str], [get_chip_info],
    [get_flash_size], [write_flash], [write_flash_files], [reset] and
    [reboot] fails with the generic [EspBootError] carrying the message
    "Device not connected", and the world is left as it was: no underlying
    call was attempted. *)
Theorem disconnected_operations_fail :
  forall (env : Env) (self : EspBoot.t),
    EspBoot._esp self = None ->
    forall (w : World),
      fails_disconnected w (EspBoot.chip_name self w) /\
      fails_disconnected w (EspBoot.chip_id self w) /\
      fails_disconnected w (EspBoot.serial_number_str self w) /\
      fails_disconnected w (EspBoot.get_chip_info self w) /\
      fails_disconnected w (EspBoot.get_flash_size env self w) /\
      (forall addr data,
          fails_disconnected w (EspBoot.write_flash env self addr data w)) /\
      (forall segments,
          fails_disconnected w (EspBoot.write_flash_files env self segments w)) /\
      (forall mode, fails_disconnected w (EspBoot.reset env self mode w)) /\
      (forall bootsel, fails_disconnected w (EspBoot.reboot env self bootsel w)).
Proof.
  intros env self H w. unfold fails_disconnected.
  repeat split; intros;
    eauto using chip_name_disconnected, chip_id_disconnected,
      serial_number_str_disconnected, get_chip_info_disconnected,
      get_flash_size_disconnected, write_flash_disconnected,
      write_flash_files_disconnected, reset_disconnected, reboot_disconnected.
Qed.

Lemma disconnected_operations_fail_witness :
  EspBoot._esp unopened = None /\
  EspBoot.chip_name unopened fresh_world
    = (Raise (MkExn EspBootError "Device not connected"), fresh_world).
Proof.
  split; [reflexivity|].
  apply (disconnected_operations_fail (sample_env None no_answer) unopened
           eq_refl fresh_world).
Defined.

(** ** Auto-detection *)

Section AutoDetect.

Variable env : Env.

(** When every candidate refuses, the loop attempts each one once, in
    order, and then gives up. *)
Lemma try_ports_all_refuse (ports : list string) :
  (forall p, In p ports -> is_raise (detect_chip env p) = true) ->
  forall w,
    EspBoot.try_ports env ports w
    = (Raise (MkExn EspBootNotFoundError
               "No ESP32 device detected. Pass port explicitly."),
       {| log := log w ++ map EvDetectChip ports; next_fd := next_fd w |}).
Proof.
  induction ports as [|p rest IH]; intros Hall w.
  - simpl. unfold raise. now rewrite world_app_nil.
  - simpl. unfold try_except, bind at 1. rewrite call_run.
    specialize (Hall p (or_introl eq_refl)) as Hp.
    destruct (detect_chip env p) as [esp|e]; [discriminate|].
    rewrite IH by (intros q Hq; apply Hall; now right).
    simpl. now rewrite <- app_assoc.
Qed.

Lemma list_serial_ports_run (ports : list PortInfo) (w : World) :
  comports env = Some ports ->
  EspBoot._list_serial_ports env w
  = (Ok (EspBoot.order_ports ports),
     {| log := log w ++ [EvComports]; next_fd := next_fd w |}).
Proof. intros H. unfold EspBoot._list_serial_ports. now rewrite H. Qed.

(** [_auto_detect_port] itself ends in the not-found error. *)
Lemma auto_detect_not_found (ports : list PortInfo) (w : World) :
  comports env = Some ports ->
  (forall p, In p (EspBoot.order_ports ports) -> is_raise (detect_chip env p) = true) ->
  exists e,
    EspBoot._auto_detect_port env w
    = (Raise e,
       {| log := log w ++ EvComports :: map EvDetectChip (EspBoot.order_ports ports);
          next_fd := next_fd w |}) /\
    exn_class e = EspBootNotFoundError.
Proof.
  intros Hports Hall. unfold EspBoot._auto_detect_port, bind.
  rewrite (list_serial_ports_run ports w Hports).
  destruct (EspBoot.order_ports ports) as [|p rest] eqn:E.
  - eexists. split; [reflexivity|reflexivity].
  - rewrite try_ports_all_refuse by exact Hall.
    exists (MkExn EspBootNotFoundError
              "No ESP32 device detected. Pass port explicitly.").
    split; [|reflexivity].
    simpl. now rewrite <- app_assoc.
Qed.

End AutoDetect.

(** C2, as worded, fails: with no serial port at all, [open(port=None)] does
    not fail with the not-found error kind. *)
Lemma open_no_ports_not_NotFoundError :
  comports (sample_env (Some []) no_answer) = Some [] /\
  ~ (exists e w',
       EspBoot.open (sample_env (Some []) no_answer) None true fresh_world
       = (Raise e, w') /\
       exn_class e = EspBootNotFoundError).
Proof.
  split; [reflexivity|].
  intros (e & w' & Hrun & Hcls).
  vm_compute in Hrun. inversion Hrun; subst e. discriminate Hcls.
Qed.

(** C2 (amended): for [open(port=None)] and [open(port="auto")], when the
    enumeration yields no port, or yields ports on every one of which the
    connection attempt fails, the call fails with the generic [EspBootError]
    raised from the not-found error of the auto-detection; the connection
    attempts made are exactly one per candidate, in candidate order, and
    the (empty) exit stack is closed before the error leaves [open]. *)
Theorem open_auto_wraps_not_found :
  forall (env : Env) (port : option string) (run_stub_flasher : bool)
         (ports : list PortInfo) (w : World),
    EspBoot.wants_auto port = true ->
    comports env = Some ports ->
    (forall p, In p (EspBoot.order_ports ports) -> is_raise (detect_chip env p) = true) ->
    exists e cause w',
      EspBoot.open env port run_stub_flasher w = (Raise e, w') /\
      exn_class e = EspBootError /\
      exn_cause e = Some cause /\
      exn_class cause = EspBootNotFoundError /\
      log w' = log w
               ++ (if esptool_logger env then [EvSetVerbosity] else [])
               ++ [EvComports]
               ++ map EvDetectChip (EspBoot.order_ports ports)
               ++ [EvStackClose []].
Proof.
  intros env port flag ports w Hauto Hports Hall.
  unfold EspBoot.open, EspBoot.open_connect.
  rewrite Hauto. unfold bind at 1.
  destruct (esptool_logger env); cbv [emit ret].
  - match goal with
    | |- context [EspBoot._auto_detect_port env ?w1] =>
        destruct (auto_detect_not_found env ports w1 Hports Hall) as (c & Hrun & Hc);
        rewrite Hrun
    end.
    exists (EspBoot.open_failed port c), c. eexists.
    split; [reflexivity|]. repeat split; try assumption.
    simpl. rewrite <- !app_assoc. reflexivity.
  - match goal with
    | |- context [EspBoot._auto_detect_port env ?w1] =>
        destruct (auto_detect_not_found env ports w1 Hports Hall) as (c & Hrun & Hc);
        rewrite Hrun
    end.
    exists (EspBoot.open_failed port c), c. eexists.
    split; [reflexivity|]. repeat split; try assumption.
    simpl. rewrite <- !app_assoc. reflexivity.
Qed.

Lemma open_auto_wraps_not_found_witness :
  exists e cause w',
    EspBoot.open (sample_env (Some [port_A; port_B]) no_answer) None true fresh_world
    = (Raise e, w') /\
    exn_class e = EspBootError /\
    exn_cause e = Some cause /\
    exn_class cause = EspBootNotFoundError /\
    log w' = [EvSetVerbosity; EvComports; EvDetectChip "B"; EvDetectChip "A";
              EvStackClose []].
Proof.
  apply (open_auto_wraps_not_found (sample_env (Some [port_A; port_B]) no_answer)
           None true [port_A; port_B] fresh_world).
  - reflexivity.
  - reflexivity.
  - intros p _. reflexivity.
Defined.

(** ** Platform classification *)

Lemma startswith_app_l (a b s : string) :
  PyStr.startswith (a ++ b) s = true -> PyStr.startswith a s = true.
Proof.
  revert s. induction a as [|c a IH]; intros s H; [reflexivity|].
  destruct s as [|d s]; simpl in *; [discriminate|].
  apply andb_true_iff in H as [Hc Hs].
  rewrite Hc. simpl. now apply IH.
Qed.

Lemma contains_app_l (a b s : string) :
  PyStr.contains (a ++ b) s = true -> PyStr.contains a s = true.
Proof.
  induction s as [|d s IH]; simpl; intros H.
  - rewrite orb_false_r in *. now apply startswith_app_l with b.
  - apply orb_true_iff in H as [H|H].
    + now rewrite (startswith_app_l a b _ H).
    + rewrite (IH H). apply orb_true_r.
Qed.

Section Classification.

Variable self : EspBoot.t.
Variable esp : Esp.
Variable name : string.
Hypothesis connected : EspBoot._esp self = Some esp.
Hypothesis named : CHIP_NAME esp = Some name.

Lemma chip_name_connected w : EspBoot.chip_name self w = (Ok name, w).
Proof. unfold EspBoot.chip_name. now rewrite connected, named. Qed.

Lemma platform_unfold w :
  EspBoot.platform self w =
  (let lowered := PyStr.lower name in
   if PyStr.contains "esp32-s3" lowered then EspBoot.Platform_attr "ESP32S3"
   else if PyStr.contains "esp32-s2" lowered then EspBoot.Platform_attr "ESP32S2"
   else if PyStr.contains "esp32c3" lowered then EspBoot.Platform_attr "ESP32C3"
   else if PyStr.contains "esp32" lowered then EspBoot.Platform_attr "ESP32"
   else EspBoot.Platform_attr "UNKNOWN") w.
Proof.
  unfold EspBoot.platform, EspBoot._determine_platform, bind.
  now rewrite chip_name_connected.
Qed.

(** The first test wins whatever else the name contains. *)
Lemma platform_s3 w :
  PyStr.contains "esp32-s3" (PyStr.lower name) = true ->
  EspBoot.platform self w = (Ok ESP32S3, w).
Proof. intros H. rewrite platform_unfold. cbv zeta. now rewrite H. Qed.

Lemma platform_s2 w :
  PyStr.contains "esp32-s3" (PyStr.lower name) = false ->
  PyStr.contains "esp32-s2" (PyStr.lower name) = true ->
  EspBoot.platform self w = (Ok ESP32S2, w).
Proof. intros H3 H2. rewrite platform_unfold. cbv zeta. now rewrite H3, H2. Qed.

Lemma platform_c3 w :
  PyStr.contains "esp32-s3" (PyStr.lower name) = false ->
  PyStr.contains "esp32-s2" (PyStr.lower name) = false ->
  PyStr.contains "esp32c3" (PyStr.lower name) = true ->
  EspBoot.platform self w = (Ok ESP32C3, w).
Proof.
  intros H3 H2 HC. rewrite platform_unfold. cbv zeta. now rewrite H3, H2, HC.
Qed.

(** A name without "esp32" in any letter case is [UNKNOWN]. *)
Lemma platform_unknown w :
  PyStr.contains "esp32" (PyStr.lower name) = false ->
  EspBoot.platform self w = (Ok UNKNOWN, w).
Proof.
  intros H. rewrite platform_unfold. cbv zeta.
  assert (forall b, PyStr.contains ("esp32" ++ b) (PyStr.lower name) = false) as Hn.
  { intros b. destruct (PyStr.contains ("esp32" ++ b) (PyStr.lower name)) eqn:E;
      [|reflexivity].
    apply contains_app_l in E. congruence. }
  pose proof (Hn "-s3") as H3. pose proof (Hn "-s2") as H2.
  pose proof (Hn "c3") as HC.
  change ("esp32" ++ "-s3")%string with "esp32-s3" in H3.
  change ("esp32" ++ "-s2")%string with "esp32-s2" in H2.
  change ("esp32" ++ "c3")%string with "esp32c3" in HC.
  now rewrite H3, H2, HC, H.
Qed.

(** The fourth branch reads [Platform.ESP32], a member the enumeration
    does not declare. *)
Lemma platform_bare_esp32 w :
  PyStr.contains "esp32-s3" (PyStr.lower name) = false ->
  PyStr.contains "esp32-s2" (PyStr.lower name) = false ->
  PyStr.contains "esp32c3" (PyStr.lower name) = false ->
  PyStr.contains "esp32" (PyStr.lower name) = true ->
  EspBoot.platform self w = (Raise (MkExn AttributeError "ESP32"), w).
Proof.
  intros H3 H2 HC H. rewrite platform_unfold. cbv zeta.
  now rewrite H3, H2, HC, H.
Qed.

End Classification.

(** C3, where the claim holds: the S3 name, and the S2 name in any letter
    case. *)
Lemma platform_named_examples (self : EspBoot.t) (esp : Esp) (name : string) (w : World) :
  EspBoot._esp self = Some esp ->
  CHIP_NAME esp = Some name ->
  (name = "ESP32-S3 (revision 2)" -> EspBoot.platform self w = (Ok ESP32S3, w)) /\
  (PyStr.lower name = "esp32-s2-xyz" -> EspBoot.platform self w = (Ok ESP32S2, w)).
Proof.
  intros Hc Hn. split; intros H.
  - apply (platform_s3 self esp name Hc Hn). subst name. reflexivity.
  - apply (platform_s2 self esp name Hc Hn); rewrite H; reflexivity.
Qed.

(** C3, where the code departs from the claim: for the chip names "ESP32"
    and "ESP32-C3" the [platform] property does not return a [Platform]
    member.  Neither lower-cased name contains "esp32c3", both contain
    "esp32", and that branch reads the undeclared member [Platform.ESP32]:
    the property raises [AttributeError]. *)
Theorem platform_esp32_attribute_error :
  forall (self : EspBoot.t) (esp : Esp) (name : string) (w : World),
    EspBoot._esp self = Some esp ->
    CHIP_NAME esp = Some name ->
    name = "ESP32" \/ name = "ESP32-C3" ->
    Platform_member "ESP32" = None /\
    exists e,
      EspBoot.platform self w = (Raise e, w) /\
      exn_class e = AttributeError.
Proof.
  intros self esp name w Hc Hn Hname.
  split; [reflexivity|].
  exists (MkExn AttributeError "ESP32"). split; [|reflexivity].
  apply (platform_bare_esp32 self esp name Hc Hn);
    destruct Hname; subst name; reflexivity.
Qed.

Lemma platform_esp32_attribute_error_witness :
  exists e,
    EspBoot.platform
      (EspBoot.init (Some "/dev/ttyUSB0") (Some (sample_esp "ESP32-C3" None))
         (Some ["/dev/ttyUSB0"]))
      fresh_world = (Raise e, fresh_world) /\
    exn_class e = AttributeError.
Proof.
  apply (platform_esp32_attribute_error
           (EspBoot.init (Some "/dev/ttyUSB0") (Some (sample_esp "ESP32-C3" None))
              (Some ["/dev/ttyUSB0"]))
           (sample_esp "ESP32-C3" None) "ESP32-C3" fresh_world eq_refl eq_refl).
  right. reflexivity.
Defined.

(** ** The serial number string *)

Lemma format_02X_shape (b : byte) :
  String.length (PyBytes.format_02X b) = 2 /\
  all_chars is_upper_hex (PyBytes.format_02X b) = true.
Proof. destruct b; split; reflexivity. Qed.

Lemma all_chars_app (f : ascii -> bool) (a b : string) :
  all_chars f (a ++ b) = all_chars f a && all_chars f b.
Proof.
  induction a as [|c a IH]; simpl; [reflexivity|].
  now rewrite IH, andb_assoc.
Qed.

Lemma string_length_app (a b : string) :
  String.length (a ++ b) = String.length a + String.length b.
Proof. induction a as [|c a IH]; simpl; [reflexivity|now rewrite IH]. Qed.

Lemma hex_upper_shape (bs : list byte) :
  String.length (PyBytes.hex_upper bs) = 2 * List.length bs /\
  all_chars is_upper_hex (PyBytes.hex_upper bs) = true.
Proof.
  induction bs as [|b bs [IHl IHc]]; [split; reflexivity|].
  destruct (format_02X_shape b) as [Hl Hc].
  cbn [PyBytes.hex_upper]. split.
  - rewrite string_length_app, Hl, IHl. cbn [List.length]. lia.
  - now rewrite all_chars_app, Hc, IHc.
Qed.

Lemma pad8_length (bs : list byte) :
  List.length (EspBoot.pad8 bs) = Nat.max 8 (List.length bs).
Proof.
  unfold EspBoot.pad8. rewrite length_app, repeat_length. lia.
Qed.

Lemma live_mac_run (esp : Esp) (w : World) :
  exists w', EspBoot.live_mac esp w = (Ok (mac_read esp), w') /\
             next_fd w' = next_fd w.
Proof.
  unfold EspBoot.live_mac, mac_read.
  destruct (read_mac esp) as [[mac|e]|].
  - unfold try_except. rewrite call_run. eexists; split; reflexivity.
  - unfold try_except. rewrite call_run. eexists; split; reflexivity.
  - exists w; split; reflexivity.
Qed.

(** [serial_number_str] on an open controller, in terms of the bytes the
    MAC value normalises to. *)
Lemma serial_number_str_run (self : EspBoot.t) (esp : Esp) (w : World) :
  EspBoot._esp self = Some esp ->
  fst (EspBoot.serial_number_str self w) =
  match EspBoot.mac_to_bytes (EspBoot.mac_or_fallback self (mac_read esp)) with
  | Ok mac_bytes =>
      if (List.length (EspBoot.pad8 mac_bytes) =? 8)%nat
      then Ok (PyBytes.hex_upper (rev (EspBoot.pad8 mac_bytes)))
      else Raise (MkExn EspBootError "Invalid MAC address length")
  | Raise e => Raise e
  end.
Proof.
  intros Hc. unfold EspBoot.serial_number_str. rewrite Hc.
  destruct (live_mac_run esp w) as (w' & Hrun & _).
  unfold bind at 1. rewrite Hrun.
  unfold bind, lift.
  destruct (EspBoot.mac_to_bytes _) as [mac_bytes|e]; [|reflexivity].
  destruct (List.length (EspBoot.pad8 mac_bytes) =? 8)%nat; reflexivity.
Qed.



(** C5, as worded, fails: a MAC read as an [int] that does not fit in six
    bytes cannot be normalised to bytes at all, let alone to eight, and the
    property does not raise the invalid-length error for it: [to_bytes]
    raises [OverflowError] first. *)
Lemma serial_number_str_unconvertible_mac :
  EspBoot._esp (connected_to (sample_esp "ESP32-S3" (Some (Ok (MacInt (2 ^ 64))))))
  = Some (sample_esp "ESP32-S3" (Some (Ok (MacInt (2 ^ 64))))) /\
  mac_read (sample_esp "ESP32-S3" (Some (Ok (MacInt (2 ^ 64))))) = MacInt (2 ^ 64) /\
  (forall bs, EspBoot.mac_to_bytes (MacInt (2 ^ 64)) <> Ok bs) /\
  fst (EspBoot.serial_number_str
         (connected_to (sample_esp "ESP32-S3" (Some (Ok (MacInt (2 ^ 64))))))
         fresh_world)
  <> Raise (MkExn EspBootError "Invalid MAC address length") /\
  exists e,
    fst (EspBoot.serial_number_str
           (connected_to (sample_esp "ESP32-S3" (Some (Ok (MacInt (2 ^ 64))))))
           fresh_world) = Raise e /\
    exn_class e = OverflowError.
Proof.
  split; [reflexivity|]. split; [reflexivity|].
  split; [intros bs H; vm_compute in H; discriminate|].
  split.
  - intros H. vm_compute in H. discriminate.
  - eexists. split; [vm_compute; reflexivity|reflexivity].
Qed.

(** C5 (amended): when the MAC value (from the live read, the cached serial
    number or the six zero bytes) converts to bytes and those bytes are not
    eight bytes long after the zero-padding, which is the case exactly when
    they are longer than eight, the property raises the error
    "Invalid MAC address length" and returns no string. *)
Theorem serial_number_str_invalid_length :
  forall (self : EspBoot.t) (esp : Esp) (w : World) (mac_bytes : list byte),
    EspBoot._esp self = Some esp ->
    EspBoot.mac_to_bytes (EspBoot.mac_or_fallback self (mac_read esp)) = Ok mac_bytes ->
    List.length (EspBoot.pad8 mac_bytes) <> 8 ->
    8 < List.length mac_bytes /\
    fst (EspBoot.serial_number_str self w)
    = Raise (MkExn EspBootError "Invalid MAC address length").
Proof.
  intros self esp w mac_bytes Hc Hconv Hlen. split.
  - rewrite pad8_length in Hlen. lia.
  - rewrite (serial_number_str_run self esp w Hc), Hconv.
    destruct (Nat.eqb_spec (List.length (EspBoot.pad8 mac_bytes)) 8); [contradiction|].
    reflexivity.
Qed.

(** Bytes longer than eight are never padded into shape. *)
Lemma pad8_too_long (bs : list byte) :
  8 < List.length bs -> List.length (EspBoot.pad8 bs) <> 8.
Proof. rewrite pad8_length. lia. Qed.

Lemma serial_number_str_invalid_length_witness :
  fst (EspBoot.serial_number_str
         (connected_to
            (sample_esp "ESP32-S3" (Some (Ok (MacBytes (mac_123456 ++ [x07; x08; x09]))))))
         fresh_world)
  = Raise (MkExn EspBootError "Invalid MAC address length").
Proof.
  apply (serial_number_str_invalid_length
           (connected_to
              (sample_esp "ESP32-S3" (Some (Ok (MacBytes (mac_123456 ++ [x07; x08; x09]))))))
           (sample_esp "ESP32-S3" (Some (Ok (MacBytes (mac_123456 ++ [x07; x08; x09])))))
           fresh_world (mac_123456 ++ [x07; x08; x09]) eq_refl eq_refl).
  vm_compute. lia.
Defined.

(** ** Flash size *)

Lemma size_from_info_run (env : Env) (esp : Esp) (w : World) :
  exists w',
    EspBoot.size_from_info env esp w
    = (Ok match _get_flash_info env with
          | Some info => match info esp with Ok size => size | Raise _ => SizeNone end
          | None => SizeNone
          end, w').
Proof.
  unfold EspBoot.size_from_info.
  destruct (_get_flash_info env) as [info|]; [|exists w; reflexivity].
  unfold try_except. rewrite call_run.
  destruct (info esp); eexists; reflexivity.
Qed.

Lemma flash_size_none_unparsed (size : SizeDesc) :
  EspBoot.is_size_none size = true -> EspBoot._flash_size_to_bytes size = None.
Proof. destruct size; simpl; intros H; [reflexivity|discriminate..]. Qed.

(** [get_flash_size] on an open controller with nothing cached. *)
Lemma get_flash_size_run (env : Env) (self : EspBoot.t) (esp : Esp) (w : World) :
  EspBoot._esp self = Some esp ->
  EspBoot._flash_size self = None ->
  fst (EspBoot.get_flash_size env self w) =
  match EspBoot._flash_size_to_bytes (size_reported env esp) with
  | Some n => Ok (n, EspBoot.set_flash_size self n)
  | None => Raise (MkExn EspBootError "Unable to determine flash size programmatically")
  end.
Proof.
  intros Hc Hcache. unfold EspBoot.get_flash_size. rewrite Hc, Hcache.
  destruct (size_from_info_run env esp w) as (w' & Hrun).
  unfold bind at 1. rewrite Hrun. unfold size_reported.
  set (from_info := match _get_flash_info env with
                    | Some info => _ | None => _ end).
  set (size := if EspBoot.is_size_none from_info then _ else _).
  destruct (EspBoot.is_size_none size) eqn:Enone.
  - rewrite (flash_size_none_unparsed size Enone).
    unfold bind. rewrite best_effort_run. reflexivity.
  - destruct (EspBoot._flash_size_to_bytes size); reflexivity.
Qed.

(** A cached size is returned as it is. *)
Lemma get_flash_size_cached (env : Env) (self : EspBoot.t) (esp : Esp) (n : Z) (w : World) :
  EspBoot._esp self = Some esp ->
  EspBoot._flash_size self = Some n ->
  EspBoot.get_flash_size env self w = (Ok (n, self), w).
Proof.
  intros Hc Hcache. unfold EspBoot.get_flash_size. now rewrite Hc, Hcache.
Qed.

(** Strings that are no size are rejected by the normalisation. *)
Lemma flash_size_unparseable_examples :
  map (fun s => EspBoot._flash_size_to_bytes (SizeStr s))
      ["unknown"; ""; "MB"; "B"; "4GB"; "4.5MB"; "0x400000"; "1__0"]
  = [None; None; None; None; None; None; None; None].
Proof. vm_compute. reflexivity. Qed.

(** C6: the normalisation maps "4MB" to 4194304, "512KB" to 524288, "1024B"
    to 1024 and "2097152" to 2097152, and [get_flash_size], on an open
    controller with no cached size, returns the normalised descriptor when
    there is one and otherwise, the descriptor being unparseable or
    absent, raises the generic error "Unable to determine flash size
    programmatically". *)
Theorem flash_size_normalisation :
  forall (env : Env) (self : EspBoot.t) (esp : Esp) (w : World),
    EspBoot._esp self = Some esp ->
    EspBoot._flash_size self = None ->
    (EspBoot._flash_size_to_bytes (SizeStr "4MB") = Some (4 * (1024 * 1024))%Z /\
     EspBoot._flash_size_to_bytes (SizeStr "4MB") = Some 4194304%Z /\
     EspBoot._flash_size_to_bytes (SizeStr "512KB") = Some 524288%Z /\
     EspBoot._flash_size_to_bytes (SizeStr "1024B") = Some 1024%Z /\
     EspBoot._flash_size_to_bytes (SizeStr "2097152") = Some 2097152%Z) /\
    (forall n,
       EspBoot._flash_size_to_bytes (size_reported env esp) = Some n ->
       fst (EspBoot.get_flash_size env self w) = Ok (n, EspBoot.set_flash_size self n)) /\
    (EspBoot._flash_size_to_bytes (size_reported env esp) = None ->
     fst (EspBoot.get_flash_size env self w)
     = Raise (MkExn EspBootError "Unable to determine flash size programmatically")).
Proof.
  intros env self esp w Hc Hcache.
  pose proof (get_flash_size_run env self esp w Hc Hcache) as Hrun.
  split; [repeat split; vm_compute; reflexivity|].
  split.
  - intros n Hn. now rewrite Hrun, Hn.
  - intros Hn. now rewrite Hrun, Hn.
Qed.

(** An absent descriptor is one the normalisation rejects. *)
Lemma get_flash_size_absent (env : Env) (self : EspBoot.t) (esp : Esp) (w : World) :
  EspBoot._esp self = Some esp ->
  EspBoot._flash_size self = None ->
  size_reported env esp = SizeNone ->
  fst (EspBoot.get_flash_size env self w)
  = Raise (MkExn EspBootError "Unable to determine flash size programmatically").
Proof.
  intros Hc Hcache Hn. now rewrite (get_flash_size_run env self esp w Hc Hcache), Hn.
Qed.

Lemma flash_size_normalisation_witness :
  fst (EspBoot.get_flash_size (reporting (SizeStr "4MB"))
         (connected_to (sample_esp "ESP32-S3" None)) fresh_world)
  = Ok (4194304%Z,
        EspBoot.set_flash_size (connected_to (sample_esp "ESP32-S3" None)) 4194304) /\
  fst (EspBoot.get_flash_size (reporting (SizeStr "unknown"))
         (connected_to (sample_esp "ESP32-S3" None)) fresh_world)
  = Raise (MkExn EspBootError "Unable to determine flash size programmatically").
Proof.
  split.
  - apply (flash_size_normalisation (reporting (SizeStr "4MB"))
             (connected_to (sample_esp "ESP32-S3" None)) (sample_esp "ESP32-S3" None)
             fresh_world eq_refl eq_refl).
    vm_compute. reflexivity.
  - apply (flash_size_normalisation (reporting (SizeStr "unknown"))
             (connected_to (sample_esp "ESP32-S3" None)) (sample_esp "ESP32-S3" None)
             fresh_world eq_refl eq_refl).
    vm_compute. reflexivity.
Defined.

(** ** Writing files *)

Section WriteFiles.

Variable env : Env.

Lemma open_rb_run (path : string) (w : World) :
  EspBoot.open_rb env path w =
  match file_open env path with
  | Ok _ => (Ok (next_fd w),
             {| log := log w ++ [EvFileOpen path]; next_fd := S (next_fd w) |})
  | Raise e => (Raise e,
                {| log := log w ++ [EvFileOpen path]; next_fd := next_fd w |})
  end.
Proof.
  unfold EspBoot.open_rb, bind. rewrite call_run.
  destruct (file_open env path) as [[]|e]; reflexivity.
Qed.

(** The opening loop: every openable segment receives the next handle. *)
Lemma open_segments_run (segments : list (Z * string)) :
  forall opened w,
    EspBoot.open_segments env segments opened w =
    ((opened ++ combine (map fst (openable env segments))
                        (handles_from w (List.length (openable env segments))),
      first_failure env segments),
     {| log := log w ++ map EvFileOpen (attempted env segments);
        next_fd := next_fd w + List.length (openable env segments) |}).
Proof.
  unfold handles_from.
  induction segments as [|[addr path] rest IH]; intros opened w.
  - simpl. now rewrite !app_nil_r, Nat.add_0_r, world_eta.
  - cbn [EspBoot.open_segments openable attempted first_failure].
    rewrite open_rb_run.
    destruct (file_open env path) as [[]|e]; cbn [is_raise].
    + rewrite IH. cbn [log next_fd List.length map fst combine seq].
      rewrite <- !app_assoc. cbn [app].
      now rewrite Nat.add_succ_r.
    + cbn [List.length map combine seq]. now rewrite app_nil_r, Nat.add_0_r.
Qed.

(** The cleanup: one [close] per handle, whatever [close] answers. *)
Lemma close_opened_run (opened : list (Z * nat)) :
  forall w,
    EspBoot.close_opened env opened w =
    (Ok tt, {| log := log w ++ map EvFileClose (map snd opened);
               next_fd := next_fd w |}).
Proof.
  induction opened as [|[addr f] rest IH]; intros w.
  - simpl. unfold ret. now rewrite world_app_nil.
  - cbn [EspBoot.close_opened]. unfold bind. rewrite best_effort_run, IH.
    cbn [log next_fd map snd]. now rewrite <- app_assoc.
Qed.

Lemma closed_handles_app (a b : list Event) :
  closed_handles (a ++ b) = closed_handles a ++ closed_handles b.
Proof. unfold closed_handles. apply flat_map_app. Qed.

Lemma closed_handles_opens (paths : list string) :
  closed_handles (map EvFileOpen paths) = [].
Proof. induction paths; simpl; auto. Qed.

Lemma closed_handles_closes (fs : list nat) :
  closed_handles (map EvFileClose fs) = fs.
Proof. induction fs as [|f fs IH]; simpl; [reflexivity|]. now f_equal. Qed.

Lemma snd_combine_handles {A} (l : list A) (n : nat) :
  map snd (combine l (seq n (List.length l))) = seq n (List.length l).
Proof.
  revert n. induction l as [|a l IH]; intros n; simpl; [reflexivity|].
  now rewrite IH.
Qed.

End WriteFiles.

(** C7: on an open controller, for every list of segments, the handles
    closed during [write_flash_files] are exactly the handles it was given
    by the files it managed to open, each closed once, after the opening
    loop and the toolkit's write; this holds when the write succeeds, when
    it raises, and when a file cannot be opened (the write is then not
    attempted and the error of that file is what the call raises). *)
Theorem write_flash_files_closes_opened :
  forall (env : Env) (self : EspBoot.t) (esp : Esp)
         (segments : list (Z * string)) (w : World),
    EspBoot._esp self = Some esp ->
    let run := EspBoot.write_flash_files env self segments w in
    let opened := handles_from w (List.length (openable env segments)) in
    let sources := map (fun '(addr, f) => (addr, FromFile f))
                       (combine (map fst (openable env segments)) opened) in
    exists evs,
      log (snd run) = log w ++ evs /\
      closed_handles evs = opened /\
      next_fd (snd run) = next_fd w + List.length opened /\
      match first_failure env segments with
      | Some e =>
          fst run = Raise e /\
          evs = map EvFileOpen (attempted env segments) ++ map EvFileClose opened
      | None =>
          fst run = esptool_write_flash env esp sources /\
          evs = map EvFileOpen (attempted env segments)
                ++ [EvWriteFlash sources] ++ map EvFileClose opened
      end.
Proof.
  intros env self esp segments w Hc run opened sources.
  subst run. unfold EspBoot.write_flash_files. rewrite Hc.
  rewrite open_segments_run. cbn [app].
  fold opened. unfold EspBoot.as_sources. fold sources.
  assert (Hsnd : map snd (combine (map fst (openable env segments)) opened) = opened).
  { subst opened. unfold handles_from.
    rewrite <- (length_map fst (openable env segments)).
    apply snd_combine_handles. }
  assert (Hlen : List.length opened = List.length (openable env segments)).
  { subst opened. unfold handles_from. apply length_seq. }
  destruct (first_failure env segments) as [e|].
  - rewrite close_opened_run. cbn [fst snd log next_fd]. rewrite Hsnd.
    exists (map EvFileOpen (attempted env segments) ++ map EvFileClose opened).
    rewrite closed_handles_app, closed_handles_opens, closed_handles_closes.
    rewrite <- app_assoc, Hlen. repeat split.
  - rewrite call_run, close_opened_run. cbn [fst snd log next_fd]. rewrite Hsnd.
    exists (map EvFileOpen (attempted env segments)
            ++ [EvWriteFlash sources] ++ map EvFileClose opened).
    rewrite !closed_handles_app, closed_handles_opens, closed_handles_closes.
    rewrite <- !app_assoc, Hlen. repeat split.
Qed.

Lemma write_flash_files_closes_opened_witness :
  exists evs,
    log (snd (EspBoot.write_flash_files (failing_env "c.bin")
                (connected_to (sample_esp "ESP32-S3" None))
                [(0%Z, "a.bin"); (4096%Z, "b.bin"); (8192%Z, "c.bin"); (65536%Z, "d.bin")]
                fresh_world))
    = log fresh_world ++ evs /\
    closed_handles evs = [3; 4].
Proof.
  destruct (write_flash_files_closes_opened (failing_env "c.bin")
              (connected_to (sample_esp "ESP32-S3" None)) (sample_esp "ESP32-S3" None)
              [(0%Z, "a.bin"); (4096%Z, "b.bin"); (8192%Z, "c.bin"); (65536%Z, "d.bin")]
              fresh_world eq_refl) as (evs & Hlog & Hclosed & _).
  exists evs. split; [exact Hlog | exact Hclosed].
Defined.

(** ** The order of the candidates *)

Lemma sort_ports_run (ports : list PortInfo) :
  forall preferred others,
    EspBoot.sort_ports ports preferred others =
    (preferred ++ map device (filter EspBoot.is_preferred ports),
     others ++ map device (filter (fun p => negb (EspBoot.is_preferred p)) ports)).
Proof.
  induction ports as [|p rest IH]; intros preferred others; simpl.
  - now rewrite !app_nil_r.
  - destruct (EspBoot.is_preferred p); rewrite IH; simpl;
      now rewrite <- ?app_assoc.
Qed.

Lemma order_ports_split (ports : list PortInfo) :
  EspBoot.order_ports ports =
  map device (filter EspBoot.is_preferred ports)
  ++ map device (filter (fun p => negb (EspBoot.is_preferred p)) ports).
Proof.
  unfold EspBoot.order_ports. destruct ports as [|p rest]; [reflexivity|].
  now rewrite sort_ports_run.
Qed.

Lemma is_preferred_iff (p : PortInfo) :
  EspBoot.is_preferred p = true <->
  (exists v, vid p = Some v /\ In v ESP_SERIAL_VIDS) \/
  (exists k, In k ESP_SERIAL_KEYWORDS /\ PyStr.contains k (EspBoot.desc_of p) = true).
Proof.
  unfold EspBoot.is_preferred, EspBoot.vid_known, EspBoot.keyword_found.
  rewrite orb_true_iff, existsb_exists. split.
  - intros [H|H].
    + left. destruct (vid p) as [v|]; [|discriminate].
      apply existsb_exists in H as (x & Hx & Heq).
      apply Z.eqb_eq in Heq. subst x. now exists v.
    + right. exact H.
  - intros [(v & Hv & Hin)|H].
    + left. rewrite Hv. apply existsb_exists. exists v. split; [exact Hin|].
      apply Z.eqb_refl.
    + right. exact H.
Qed.

(** The attempts of the detection loop follow the candidate order. *)
Lemma try_ports_log (env : Env) (ports : list string) :
  forall w, log (snd (EspBoot.try_ports env ports w))
            = log w ++ map EvDetectChip (tried env ports).
Proof.
  induction ports as [|p rest IH]; intros w.
  - simpl. now rewrite app_nil_r.
  - cbn [EspBoot.try_ports tried]. unfold try_except, bind at 1.
    rewrite call_run.
    destruct (detect_chip env p) as [esp|e]; cbn [is_raise].
    + reflexivity.
    + rewrite IH. cbn [log map]. now rewrite <- app_assoc.
Qed.

(** *** A keyword inside one of the text fields *)

Lemma lower_app (a b : string) :
  PyStr.lower (a ++ b) = (PyStr.lower a ++ PyStr.lower b)%string.
Proof.
  unfold PyStr.lower. induction a as [|c a IH]; simpl; [reflexivity|].
  now rewrite IH.
Qed.

Lemma startswith_app_r (k a b : string) :
  PyStr.startswith k a = true -> PyStr.startswith k (a ++ b) = true.
Proof.
  revert a. induction k as [|c k IH]; intros a H; [reflexivity|].
  destruct a as [|d a]; simpl in *; [discriminate|].
  apply andb_true_iff in H as [Hc Hk]. rewrite Hc. simpl. now apply IH.
Qed.

Lemma contains_in_left (k a b : string) :
  k <> "" -> PyStr.contains k a = true -> PyStr.contains k (a ++ b) = true.
Proof.
  intros Hk. induction a as [|d a IH]; intros H.
  - destruct k; [congruence|discriminate].
  - cbn [PyStr.contains] in H. apply orb_true_iff in H as [H|H].
    + change (String d a ++ b)%string with (String d (a ++ b)).
      cbn [PyStr.contains].
      change (String d (a ++ b)) with (String d a ++ b)%string.
      now rewrite (startswith_app_r _ _ b H).
    + change (String d a ++ b)%string with (String d (a ++ b)).
      cbn [PyStr.contains]. rewrite (IH H). apply orb_true_r.
Qed.

Lemma contains_in_right (k a b : string) :
  PyStr.contains k b = true -> PyStr.contains k (a ++ b) = true.
Proof.
  intros H. induction a as [|d a IH]; [exact H|].
  change (String d a ++ b)%string with (String d (a ++ b)).
  cbn [PyStr.contains]. rewrite IH. apply orb_true_r.
Qed.

Lemma contains_in_join (k sep f : string) (parts : list string) :
  k <> "" -> In f parts -> PyStr.contains k f = true ->
  PyStr.contains k (PyStr.join sep parts) = true.
Proof.
  intros Hk Hin Hf. induction parts as [|x rest IH]; [contradiction|].
  destruct rest as [|y rest'].
  - destruct Hin as [->|[]]. exact Hf.
  - change (PyStr.join sep (x :: y :: rest'))
      with (x ++ sep ++ PyStr.join sep (y :: rest'))%string.
    destruct Hin as [->|Hin].
    + now apply contains_in_left.
    + apply contains_in_right, contains_in_right. now apply IH.
Qed.

Lemma lower_join (sep : string) (parts : list string) :
  PyStr.lower (PyStr.join sep parts)
  = PyStr.join (PyStr.lower sep) (map PyStr.lower parts).
Proof.
  induction parts as [|x rest IH]; [reflexivity|].
  destruct rest as [|y rest']; [reflexivity|].
  change (PyStr.join sep (x :: y :: rest'))
    with (x ++ sep ++ PyStr.join sep (y :: rest'))%string.
  rewrite !lower_app, IH. reflexivity.
Qed.

(** A port one of whose three text fields contains a keyword, in any
    letter case, is among the preferred ones. *)
Lemma field_keyword_preferred (p : PortInfo) (k field : string) :
  In k ESP_SERIAL_KEYWORDS ->
  In (Some field) [description p; manufacturer p; product p] ->
  PyStr.contains k (PyStr.lower field) = true ->
  EspBoot.is_preferred p = true.
Proof.
  intros Hk Hfield Hcontains.
  assert (Hne : k <> "").
  { simpl in Hk. intuition (subst; discriminate). }
  apply is_preferred_iff. right. exists k. split; [exact Hk|].
  unfold EspBoot.desc_of. rewrite lower_join.
  apply contains_in_join with (f := PyStr.lower field); [exact Hne| |exact Hcontains].
  apply in_map. unfold EspBoot.truthy_strings.
  apply in_flat_map. exists (Some field). split; [exact Hfield|].
  destruct (String.eqb_spec field "") as [->|_]; [|now left].
  exfalso. destruct k; [congruence|discriminate].
Qed.

Lemma filter_partition {A} (f : A -> bool) (l : list A) :
  Permutation (filter f l ++ filter (fun x => negb (f x)) l) l.
Proof.
  induction l as [|x l IH]; [constructor|].
  cbn [filter]. destruct (f x); cbn [negb app].
  - now constructor.
  - symmetry. apply Permutation_cons_app. now symmetry.
Qed.

(** C8, as worded, fails: the keywords are looked for in the three text
    fields joined by spaces, so a port none of whose fields contains a
    keyword ("Silicon" and "Labs" in two fields), and whose vendor id is
    unknown, is kept ahead of a port with a known vendor id. *)
Lemma cross_field_keyword_breaks_order :
  matches_by_field port_B = true /\
  matches_by_field port_S = false /\
  EspBoot.order_ports [port_S; port_B] = ["S"; "B"] /\
  ~ matching_ports_first [port_S; port_B].
Proof.
  split; [reflexivity|]. split; [reflexivity|]. split; [reflexivity|].
  intros H.
  destruct (H port_B port_S) as (x & y & z & Hsplit);
    [right; left; reflexivity|left; reflexivity|reflexivity|reflexivity|].
  change (EspBoot.order_ports [port_S; port_B]) with ["S"; "B"] in Hsplit.
  cbn [device port_B port_S] in Hsplit.
  destruct x as [|x0 [|x1 x]]; cbn in Hsplit.
  - inversion Hsplit.
  - inversion Hsplit as [[H0 H1]]. destruct y; cbn in H1; discriminate.
  - inversion Hsplit as [[H0 H1 H2]]. destruct x; discriminate.
Qed.

(** C8 (amended): whatever the enumeration, the candidate list is a
    rearrangement of the ports into a first and a second part, every port of
    the first part having a vendor id among the five known ones or one of the
    six keywords in the lower-cased text of its description, manufacturer and
    product joined by single spaces (missing and empty fields left out), and
    no port of the second part having either; a port with a keyword inside
    one of its three fields, in any letter case, is always in the first part;
    the detection loop attempts the candidates in that order; and the
    enumeration [A; B] of the example gives [B; A], as does a port known only
    by a keyword in capitals. *)
Theorem preferred_ports_first :
  forall (ports : list PortInfo),
    let joined p :=
      PyStr.lower
        (PyStr.join " " (EspBoot.truthy_strings [description p; manufacturer p; product p])) in
    let preferred p :=
      (exists v, vid p = Some v /\ In v [0x303A; 0x10C4; 0x1A86; 0x0403; 0x067B]%Z) \/
      (exists k, In k ["esp"; "cp210"; "ch340"; "ch910"; "ftdi"; "silicon labs"] /\
                 PyStr.contains k (joined p) = true) in
    (exists first second,
        EspBoot.order_ports ports = map device first ++ map device second /\
        Permutation (first ++ second) ports /\
        Forall preferred first /\
        Forall (fun p => ~ preferred p) second /\
        (* each part keeps the order of the enumeration *)
        first = filter EspBoot.is_preferred ports /\
        second = filter (fun p => negb (EspBoot.is_preferred p)) ports) /\
    (forall p k field,
        In k ["esp"; "cp210"; "ch340"; "ch910"; "ftdi"; "silicon labs"] ->
        In (Some field) [description p; manufacturer p; product p] ->
        PyStr.contains k (PyStr.lower field) = true ->
        preferred p) /\
    (forall env w,
        log (snd (EspBoot.try_ports env (EspBoot.order_ports ports) w))
        = log w ++ map EvDetectChip (tried env (EspBoot.order_ports ports))) /\
    EspBoot.order_ports [port_A; port_B] = ["B"; "A"] /\
    EspBoot.order_ports [port_A; port_K] = ["K"; "A"].
Proof.
  intros ports joined preferred.
  assert (Hiff : forall p, EspBoot.is_preferred p = true <-> preferred p).
  { intros p. exact (is_preferred_iff p). }
  split; [|split; [|split; [|split]]].
  - exists (filter EspBoot.is_preferred ports),
           (filter (fun p => negb (EspBoot.is_preferred p)) ports).
    split; [apply order_ports_split|].
    split; [apply filter_partition|].
    split; [|split; [|split; reflexivity]];
      apply Forall_forall; intros p Hp; apply filter_In in Hp as [_ Hp].
    + now apply Hiff.
    + intros Hpref. apply Hiff in Hpref. rewrite Hpref in Hp. discriminate.
  - intros p k field Hk Hfield Hcontains. apply Hiff.
    exact (field_keyword_preferred p k field Hk Hfield Hcontains).
  - intros env w. apply try_ports_log.
  - reflexivity.
  - reflexivity.
Qed.

Lemma preferred_ports_first_witness :
  EspBoot.order_ports [port_A; port_B] = ["B"; "A"] /\
  EspBoot.order_ports [port_A; port_K] = ["K"; "A"].
Proof.
  destruct (preferred_ports_first [port_A; port_B]) as (_ & _ & _ & HB & HK).
  split; [exact HB|exact HK].
Defined.

(** ** The presence monitor *)

Section Monitor.

Import EspBootMonitor.

(** One pass of the loop, for any observer: the flag follows the
    observation and the hook due, if any, is invoked once. *)
Lemma poll_spec (m : t) (cb : EspBootMonitorObserver.t) (ports : list PortInfo) :
  _cls_callback m = Some cb ->
  _device_present (monitor_after (poll m ports)) = present_in m ports /\
  notifications (poll m ports)
  = due (_port m) (_device_present m) (present_in m ports) /\
  _port (monitor_after (poll m ports)) = _port m /\
  _cls_callback (monitor_after (poll m ports)) = _cls_callback m.
Proof.
  destruct m as [port cbo running recorded]. cbn [_cls_callback].
  intros ->. unfold poll, due, present_in, monitor_after, notifications.
  cbn [_port _device_present _cls_callback set_device_present].
  destruct (existsb (String.eqb port) (map device ports)), recorded;
    cbn [andb negb _port _device_present _cls_callback set_device_present];
    try (destruct (EspBootMonitorObserver.on_connect cb port));
    try (destruct (EspBootMonitorObserver.on_disconnect cb port));
    cbn; repeat split.
Qed.

Lemma last_nonempty {A} (x : A) (l : list A) (d d' : A) :
  last (x :: l) d = last (x :: l) d'.
Proof.
  revert x. induction l as [|y l IH]; intros x; [reflexivity|].
  cbn [last] in *. apply IH.
Qed.

(** With an observer that neither stops the monitor nor raises, a pass
    leaves the loop running. *)
Lemma poll_quiet (m : t) (cb : EspBootMonitorObserver.t) (ports : list PortInfo) :
  _cls_callback m = Some cb ->
  (forall actions, EspBootMonitorObserver.notifyObservers cb actions = Returns) ->
  snd (poll m ports) = None /\
  _running (monitor_after (poll m ports)) = _running m.
Proof.
  destruct m as [port cbo running recorded]. cbn [_cls_callback].
  intros -> Hquiet. unfold poll, present_in, monitor_after.
  cbn [_port _device_present _cls_callback set_device_present].
  unfold EspBootMonitorObserver.on_connect, EspBootMonitorObserver.on_disconnect.
  destruct (existsb (String.eqb port) (map device ports)), recorded;
    cbn [andb negb _port _device_present _cls_callback set_device_present];
    rewrite ?Hquiet; cbn; split; reflexivity.
Qed.

(** The whole loop under such an observer: the hooks invoked are those due
    over the successive observations. *)
Lemma run_quiet (cb : EspBootMonitorObserver.t) (enumerations : list (list PortInfo)) :
  (forall actions, EspBootMonitorObserver.notifyObservers cb actions = Returns) ->
  forall m,
    _cls_callback m = Some cb ->
    _running m = true ->
    notifications (_run m enumerations)
    = due_over (_port m) (_device_present m) (map (present_in m) enumerations) /\
    _device_present (monitor_after (_run m enumerations))
    = last (map (present_in m) enumerations) (_device_present m).
Proof.
  intros Hquiet.
  induction enumerations as [|ports rest IH]; intros m Hcb Hrun.
  - destruct m as [port cbo running recorded]. cbn in *. subst running.
    split; reflexivity.
  - destruct (poll_spec m cb ports Hcb) as (Hflag & Hnote & Hport & Hcb').
    destruct (poll_quiet m cb ports Hcb Hquiet) as (Hexn & Hrun').
    cbn [_run]. rewrite Hrun.
    destruct (poll m ports) as [[m1 log1] exn1] eqn:Epoll.
    unfold monitor_after, notifications in *. cbn [fst snd] in *.
    subst exn1.
    assert (Hsame : forall ps, present_in m1 ps = present_in m ps).
    { intros ps. unfold present_in. now rewrite Hport. }
    destruct (IH m1) as (IHn & IHf); [congruence|congruence|].
    destruct (_run m1 rest) as [[m2 log2] exn2] eqn:Erun.
    cbn [fst snd] in *. split.
    + cbn [map due_over]. rewrite Hnote, IHn, Hport, Hflag.
      f_equal. f_equal. apply map_ext. exact Hsame.
    + rewrite IHf, Hflag.
      rewrite (map_ext _ _ Hsame).
      cbn [map]. destruct (map (present_in m) rest) eqn:Erest; [reflexivity|].
      cbn [last]. apply last_nonempty.
Qed.

Lemma due_over_steady (port : string) (state : bool) (n : nat) :
  due_over port state (repeat state n) = [].
Proof.
  induction n as [|n IH]; [reflexivity|].
  cbn [repeat due_over]. rewrite IH. destruct state; reflexivity.
Qed.

Lemma due_over_app (port : string) (recorded : bool) (a b : list bool) :
  due_over port recorded (a ++ b)
  = due_over port recorded a ++ due_over port (last a recorded) b.
Proof.
  revert recorded. induction a as [|x a IH]; intros recorded; [reflexivity|].
  cbn [app due_over]. rewrite IH, <- app_assoc. f_equal. f_equal.
  destruct a; [reflexivity|]. cbn [last]. f_equal. apply last_nonempty.
Qed.

Lemma last_repeat_S {A} (x d : A) (n : nat) : last (repeat x (S n)) d = x.
Proof. induction n as [|n IH]; [reflexivity|]. exact IH. Qed.

(** Absent, then present for a while, then absent again: one connect, then
    one disconnect, and nothing else. *)
Lemma due_over_appear_vanish (port : string) (a b c : nat) :
  due_over port false (repeat false a ++ repeat true (S b) ++ repeat false (S c))
  = [OnConnect port; OnDisconnect port].
Proof.
  rewrite due_over_app, due_over_steady.
  assert (last (repeat false a) false = false) as ->.
  { destruct a; [reflexivity|apply last_repeat_S]. }
  rewrite due_over_app, last_repeat_S.
  cbn [repeat due_over]. rewrite !due_over_steady. reflexivity.
Qed.

End Monitor.

(** C9: for a monitor with an observer, every poll leaves the recorded flag
    equal to the presence it observed, invokes the connect hook once when the
    port is present and was recorded absent, the disconnect hook once when it
    is absent and was recorded present, and no hook when the presence is
    the recorded one.  Over a run of polls under an observer that lets the
    loop go on, starting with the port recorded absent, the hooks invoked are
    those due at the changes of presence; in particular, absent, then
    present, then absent again gives one connect followed by one disconnect,
    however many polls each phase lasts. *)
Theorem monitor_notifies_on_change :
  forall (m : EspBootMonitor.t) (cb : EspBootMonitorObserver.t),
    EspBootMonitor._cls_callback m = Some cb ->
    let port := EspBootMonitor._port m in
    let recorded := EspBootMonitor._device_present m in
    (forall ports,
        let present := EspBootMonitor.present_in m ports in
        let pass := EspBootMonitor.poll m ports in
        EspBootMonitor._device_present (monitor_after pass) = present /\
        (recorded = false -> present = true -> notifications pass = [OnConnect port]) /\
        (recorded = true -> present = false -> notifications pass = [OnDisconnect port]) /\
        (present = recorded -> notifications pass = [])) /\
    ((forall actions, EspBootMonitorObserver.notifyObservers cb actions = Returns) ->
     EspBootMonitor._running m = true ->
     recorded = false ->
     forall enumerations,
       let observed := map (EspBootMonitor.present_in m) enumerations in
       let pass := EspBootMonitor._run m enumerations in
       notifications pass = due_over port false observed /\
       EspBootMonitor._device_present (monitor_after pass) = last observed false /\
       (forall a b c,
           observed = repeat false a ++ repeat true (S b) ++ repeat false (S c) ->
           notifications pass = [OnConnect port; OnDisconnect port])).
Proof.
  intros m cb Hcb port recorded. split.
  - intros ports present pass.
    destruct (poll_spec m cb ports Hcb) as (Hflag & Hnote & _).
    fold present pass recorded port in Hflag, Hnote.
    split; [exact Hflag|]. rewrite Hnote. unfold due.
    repeat split.
    + intros -> ->. reflexivity.
    + intros -> ->. reflexivity.
    + intros ->. destruct recorded; reflexivity.
  - intros Hquiet Hrun Hrec enumerations observed pass.
    destruct (run_quiet cb enumerations Hquiet m Hcb Hrun) as (Hnote & Hflag).
    fold observed pass recorded port in Hnote, Hflag.
    rewrite Hrec in Hnote, Hflag.
    split; [exact Hnote|]. split; [exact Hflag|].
    intros a b c Hobs. rewrite Hnote, Hobs. apply due_over_appear_vanish.
Qed.

Lemma monitor_notifies_on_change_witness :
  notifications
    (EspBootMonitor._run
       (EspBootMonitor.init "/dev/ttyUSB0" (Some quiet_observer))
       [without_target; with_target; with_target; without_target; without_target])
  = [OnConnect "/dev/ttyUSB0"; OnDisconnect "/dev/ttyUSB0"].
Proof.
  apply (monitor_notifies_on_change
           (EspBootMonitor.init "/dev/ttyUSB0" (Some quiet_observer))
           quiet_observer eq_refl)
    with (a := 1) (b := 1) (c := 1).
  - reflexivity.
  - reflexivity.
  - reflexivity.
  - reflexivity.
Defined.

(** ** Closing and the presence check *)

Lemma existsb_filter_split {A} (f g : A -> bool) (l : list A) :
  existsb f (filter g l) || existsb f (filter (fun x => negb (g x)) l) = existsb f l.
Proof.
  induction l as [|x l IH]; [reflexivity|].
  cbn [filter existsb]. destruct (g x); cbn [negb existsb]; rewrite <- IH.
  - now rewrite orb_assoc.
  - rewrite !orb_assoc. f_equal. apply orb_comm.
Qed.

Lemma existsb_over_map {A B} (f : B -> bool) (g : A -> B) (l : list A) :
  existsb f (map g l) = existsb (fun x => f (g x)) l.
Proof. induction l as [|x l IH]; [reflexivity|]. cbn. now rewrite IH. Qed.

(** Reordering the candidates does not change which devices are listed. *)
Lemma order_ports_same_devices (p : string) (ports : list PortInfo) :
  existsb (String.eqb p) (EspBoot.order_ports ports)
  = existsb (String.eqb p) (map device ports).
Proof.
  rewrite order_ports_split, existsb_app.
  rewrite !existsb_over_map.
  apply (existsb_filter_split (fun x => String.eqb p (device x)) EspBoot.is_preferred).
Qed.

(** [is_connected] looks at the port and the enumeration only. *)
Lemma is_connected_run (env : Env) (self : EspBoot.t) (w : World) :
  fst (EspBoot.is_connected env self w) = Ok (port_enumerated env (EspBoot.port self)).
Proof.
  unfold EspBoot.is_connected, port_enumerated.
  destruct (EspBoot.port self) as [p|]; [|reflexivity].
  unfold EspBoot._is_port_present, try_except, bind, EspBoot._list_serial_ports.
  destruct (comports env) as [ports|]; [|reflexivity].
  cbn. now rewrite order_ports_same_devices.
Qed.

Lemma close_run (self : EspBoot.t) (w : World) :
  exists closed w',
    EspBoot.close self w = (Ok closed, w') /\
    EspBoot.port closed = EspBoot.port self /\
    (EspBoot._stack self <> None ->
     EspBoot._esp closed = None /\ EspBoot._stack closed = None).
Proof.
  unfold EspBoot.close.
  destruct (EspBoot._stack self) as [stack|] eqn:Es.
  - destruct (EspBoot._EspBoot__monitor self) as [[m|]|];
      cbv [bind emit ret]; eexists; eexists;
      (split; [reflexivity|split; [reflexivity|intros _; split; reflexivity]]).
  - exists self, w. split; [reflexivity|]. split; [reflexivity|].
    intros H. congruence.
Qed.

(** C10: [close] leaves the port attribute as it was, clearing the handle
    and the exit stack of a controller that held one, and [is_connected] on
    the closed controller does not raise and is no constant: it answers
    whether the port is among the devices of the live enumeration, exactly
    as before the close.  There is a controller that was closed, has no
    handle, and for which [is_connected] returns [True]. *)
Theorem close_keeps_port :
  (forall (env : Env) (self : EspBoot.t) (w : World),
      exists closed w',
        EspBoot.close self w = (Ok closed, w') /\
        EspBoot.port closed = EspBoot.port self /\
        (EspBoot._stack self <> None ->
         EspBoot._esp closed = None /\ EspBoot._stack closed = None) /\
        forall w'',
          fst (EspBoot.is_connected env closed w'')
          = Ok (port_enumerated env (EspBoot.port self)) /\
          fst (EspBoot.is_connected env closed w'')
          = fst (EspBoot.is_connected env self w'')) /\
  (exists closed w',
      EspBoot.close (connected_to target_esp) fresh_world = (Ok closed, w') /\
      EspBoot._esp closed = None /\
      fst (EspBoot.is_connected plugged_env closed w') = Ok true).
Proof.
  split.
  - intros env self w.
    destruct (close_run self w) as (closed & w' & Hrun & Hport & Hclear).
    exists closed, w'. split; [exact Hrun|]. split; [exact Hport|].
    split; [exact Hclear|].
    intros w''. rewrite !is_connected_run, Hport. split; reflexivity.
  - eexists. eexists. split; [reflexivity|]. split; reflexivity.
Qed.

Lemma close_keeps_port_witness :
  exists closed w',
    EspBoot.close (connected_to target_esp) fresh_world = (Ok closed, w') /\
    EspBoot.port closed = Some "/dev/ttyUSB0" /\
    EspBoot._esp closed = None /\
    fst (EspBoot.is_connected plugged_env closed w') = Ok true.
Proof.
  destruct (proj1 close_keeps_port plugged_env (connected_to target_esp) fresh_world)
    as (closed & w' & Hrun & Hport & Hclear & Hconn).
  exists closed, w'. split; [exact Hrun|]. split; [exact Hport|].
  split.
  - apply Hclear. discriminate.
  - rewrite (proj1 (Hconn w')). reflexivity.
Defined.

(** * Further properties of the controller *)

(** ** Closing *)

(** [close] twice is [close] once: the second call finds no exit stack,
    calls nothing and leaves the controller as the first call left it. *)
Theorem close_idempotent :
  forall (self closed : EspBoot.t) (w w' : World),
    EspBoot.close self w = (Ok closed, w') ->
    EspBoot.close closed w' = (Ok closed, w').
Proof.
  intros self closed w w'. unfold EspBoot.close at 1.
  destruct (EspBoot._stack self) as [stack|] eqn:Es.
  - destruct (EspBoot._EspBoot__monitor self) as [[m|]|];
      cbv [bind emit ret]; intros H; inversion H; subst; reflexivity.
  - cbv [ret]. intros H; inversion H; subst.
    unfold EspBoot.close. now rewrite Es.
Qed.

Lemma close_idempotent_witness :
  exists closed w',
    EspBoot.close (connected_to target_esp) fresh_world = (Ok closed, w') /\
    EspBoot.close closed w' = (Ok closed, w').
Proof.
  eexists. eexists. split; [reflexivity|].
  apply (close_idempotent (connected_to target_esp) _ fresh_world _ eq_refl).
Defined.

(** [close] stops the monitor, when there is one, before it releases the
    connections of the exit stack, and calls nothing else; it clears the
    handle, the stack and the monitor and keeps the port, the cached flash
    size and the cached serial number. *)
Theorem close_releases :
  forall (self : EspBoot.t) (w : World),
    EspBoot._stack self <> None ->
    exists closed w',
      EspBoot.close self w = (Ok closed, w') /\
      log w' = log w ++ close_events self /\
      next_fd w' = next_fd w /\
      EspBoot._esp closed = None /\
      EspBoot._stack closed = None /\
      (EspBoot._EspBoot__monitor self <> None ->
       EspBoot._EspBoot__monitor closed = Some None) /\
      EspBoot.port closed = EspBoot.port self /\
      EspBoot._flash_size closed = EspBoot._flash_size self /\
      EspBoot._cached_serial_number closed = EspBoot._cached_serial_number self.
Proof.
  intros self w Hs. unfold EspBoot.close, close_events.
  destruct (EspBoot._stack self) as [stack|]; [|congruence].
  destruct (EspBoot._EspBoot__monitor self) as [[m|]|];
    cbv [bind emit ret]; eexists; eexists;
    (split; [reflexivity|]); cbn [log next_fd];
    rewrite <- ?app_assoc; repeat split; try reflexivity; congruence.
Qed.

Lemma close_releases_witness :
  exists closed w',
    EspBoot.close (connected_to target_esp) fresh_world = (Ok closed, w') /\
    log w' = [EvStackClose ["/dev/ttyUSB0"]] /\
    EspBoot._esp closed = None.
Proof.
  destruct (close_releases (connected_to target_esp) fresh_world)
    as (closed & w' & Hrun & Hlog & _ & Hesp & _); [discriminate|].
  exists closed, w'. repeat split; assumption.
Defined.

(** ** Opening *)

Lemma logged_nil (w : World) : logged w [] = w.
Proof. unfold logged. apply world_app_nil. Qed.

Lemma logged_logged (w : World) (a b : list Event) :
  logged (logged w a) b = logged w (a ++ b).
Proof. unfold logged. cbn [log next_fd]. now rewrite app_assoc. Qed.

Lemma call_logged {A} (ev : Event) (r : Res A) (w : World) :
  call ev r w = (r, logged w [ev]).
Proof. apply call_run. Qed.

Lemma open_attach_run (env : Env) (esp : Esp) (flag : bool) (w : World) :
  EspBoot.open_attach env esp flag w
  = (attach_outcome env esp flag, logged w (attach_events env esp flag)).
Proof.
  unfold EspBoot.open_attach, attach_outcome, attach_events, handle_kept.
  destruct flag.
  - unfold bind at 1. rewrite call_logged.
    destruct (run_stub env esp) as [esp'|e]; cbn [is_raise]; [|reflexivity].
    unfold bind. rewrite call_logged, logged_logged.
    destruct (attach_flash env esp') as [[]|e]; reflexivity.
  - unfold bind, ret. rewrite call_logged. cbn [is_raise app].
    destruct (attach_flash env esp) as [[]|e]; reflexivity.
Qed.

Lemma open_connect_explicit (env : Env) (p : string) (w : World) :
  EspBoot.wants_auto (Some p) = false ->
  EspBoot.open_connect env (Some p) w
  = (match detect_chip env p with Ok esp => Ok (p, esp) | Raise e => Raise e end,
     logged w (verbosity_events env ++ [EvDetectChip p])).
Proof.
  intros Hauto. unfold EspBoot.open_connect, verbosity_events. rewrite Hauto.
  cbn [EspBoot.format_port].
  destruct (esptool_logger env); unfold bind, emit, ret; rewrite call_logged;
    destruct (detect_chip env p); unfold logged; cbn [log next_fd app];
    rewrite <- ?app_assoc; reflexivity.
Qed.

Lemma open_flash_size_run (env : Env) (esp : Esp) (w : World) :
  EspBoot.open_flash_size env esp w
  = (Ok (size_at_open env esp),
     logged w (match _get_flash_info env with
               | Some _ => [EvGetFlashInfo]
               | None => []
               end)).
Proof.
  unfold EspBoot.open_flash_size, size_at_open, try_except.
  destruct (_get_flash_info env) as [info|].
  - unfold bind. rewrite call_logged. destruct (info esp); reflexivity.
  - unfold raise, ret. now rewrite logged_nil.
Qed.

(** [open] on an explicit port, when the chip connects, the stub loads (if
    asked for) and the flash attaches: the controller holds the port, the
    handle the toolkit ended with, an exit stack with that one connection,
    the flash size when the toolkit could tell it, and a running monitor on
    the port that records the device as absent; the toolkit was called in the
    order connect, stub, attach, flash info, and the ports were never
    enumerated. *)
Theorem open_explicit_port :
  forall (env : Env) (p : string) (run_stub_flasher : bool) (esp esp' : Esp) (w : World),
    EspBoot.wants_auto (Some p) = false ->
    detect_chip env p = Ok esp ->
    handle_kept env esp run_stub_flasher = Ok esp' ->
    attach_flash env esp' = Ok tt ->
    EspBoot.open env (Some p) run_stub_flasher w
    = (Ok {| EspBoot.port := Some p;
             EspBoot._esp := Some esp';
             EspBoot._stack := Some [p];
             EspBoot._flash_size := size_at_open env esp';
             EspBoot._cached_serial_number := None;
             EspBoot._EspBoot__monitor :=
               Some (Some {| EspBootMonitor._port := p;
                             EspBootMonitor._cls_callback :=
                               Some (EspBoot.EspBootObserver
                                       (EspBoot.opened p esp' (size_at_open env esp') None));
                             EspBootMonitor._running := true;
                             EspBootMonitor._device_present := false |}) |},
       logged w (open_events env p run_stub_flasher)).
Proof.
  intros env p flag esp esp' w Hauto Hdetect Hkept Hattach.
  unfold EspBoot.open. rewrite (open_connect_explicit env p w Hauto), Hdetect.
  rewrite open_attach_run. unfold attach_outcome, attach_events.
  rewrite Hkept, Hattach. cbn [is_raise].
  unfold bind. rewrite open_flash_size_run. unfold emit, ret.
  f_equal. unfold logged, open_events, verbosity_events. cbn [log next_fd].
  f_equal. rewrite <- !app_assoc. reflexivity.
Qed.

Lemma open_explicit_port_witness :
  exists self,
    EspBoot.open plugged_env (Some "/dev/ttyUSB0") true fresh_world
    = (Ok self,
       logged fresh_world
         [EvSetVerbosity; EvDetectChip "/dev/ttyUSB0"; EvRunStub; EvAttachFlash;
          EvGetFlashInfo; EvMonitorStart "/dev/ttyUSB0"]) /\
    EspBoot._flash_size self = Some 4194304%Z.
Proof.
  eexists. split.
  - apply (open_explicit_port plugged_env "/dev/ttyUSB0" true target_esp target_esp
             fresh_world); reflexivity.
  - reflexivity.
Defined.

(** [open] on an explicit port that fails, whether the connection, the stub
    or the flash refuses: the error is the generic one, its message names the
    port and carries the message of the cause, the cause is attached, the
    exit stack is closed with the connection entered so far (none when the
    connection itself failed), and no monitor is started. *)
Theorem open_explicit_port_failure :
  forall (env : Env) (p : string) (run_stub_flasher : bool) (w : World),
    EspBoot.wants_auto (Some p) = false ->
    (forall e,
        detect_chip env p = Raise e ->
        EspBoot.open env (Some p) run_stub_flasher w
        = (Raise (MkExnFrom EspBootError
                    ("Failed to open ESP32 on port " ++ p ++ ": " ++ exn_msg e) e),
           logged w (verbosity_events env ++ [EvDetectChip p; EvStackClose []]))) /\
    (forall esp e,
        detect_chip env p = Ok esp ->
        attach_outcome env esp run_stub_flasher = Raise e ->
        EspBoot.open env (Some p) run_stub_flasher w
        = (Raise (MkExnFrom EspBootError
                    ("Failed to open ESP32 on port " ++ p ++ ": " ++ exn_msg e) e),
           logged w (verbosity_events env ++ [EvDetectChip p]
                     ++ attach_events env esp run_stub_flasher
                     ++ [EvStackClose [p]]))).
Proof.
  intros env p flag w Hauto. split.
  - intros e Hdetect.
    unfold EspBoot.open. rewrite (open_connect_explicit env p w Hauto), Hdetect.
    unfold bind, emit, raise, EspBoot.open_failed. cbn [EspBoot.format_port].
    f_equal. unfold logged. cbn [log next_fd]. now rewrite <- !app_assoc.
  - intros esp e Hdetect Hattach.
    unfold EspBoot.open. rewrite (open_connect_explicit env p w Hauto), Hdetect.
    rewrite open_attach_run, Hattach.
    unfold bind, emit, raise, EspBoot.open_failed. cbn [EspBoot.format_port].
    f_equal. unfold logged. cbn [log next_fd]. now rewrite <- !app_assoc.
Qed.

Lemma open_explicit_port_failure_witness :
  EspBoot.open attach_fails_env (Some "/dev/ttyUSB0") true fresh_world
  = (Raise (MkExnFrom EspBootError
              "Failed to open ESP32 on port /dev/ttyUSB0: flash not responding"
              (MkExn ForeignError "flash not responding")),
     logged fresh_world
       [EvSetVerbosity; EvDetectChip "/dev/ttyUSB0"; EvRunStub; EvAttachFlash;
        EvStackClose ["/dev/ttyUSB0"]]).
Proof.
  exact (proj2 (open_explicit_port_failure attach_fails_env "/dev/ttyUSB0" true
                  fresh_world eq_refl)
           target_esp (MkExn ForeignError "flash not responding") eq_refl eq_refl).
Defined.

(** ** Auto-detection, continued *)

(** The detection loop stops at the first candidate that answers. *)
Lemma try_ports_first_answering (env : Env) (pre : list string) :
  forall (p : string) (post : list string) (esp : Esp) (w : World),
    (forall q, In q pre -> is_raise (detect_chip env q) = true) ->
    detect_chip env p = Ok esp ->
    EspBoot.try_ports env (pre ++ p :: post) w
    = (Ok (p, esp), logged w (map EvDetectChip (pre ++ [p]))).
Proof.
  induction pre as [|q pre IH]; intros p post esp w Hpre Hp.
  - cbn [app EspBoot.try_ports map]. unfold try_except, bind.
    rewrite call_logged, Hp. reflexivity.
  - cbn [app EspBoot.try_ports map]. unfold try_except, bind at 1.
    rewrite call_logged.
    pose proof (Hpre q (or_introl eq_refl)) as Hq.
    destruct (detect_chip env q) as [x|e]; [discriminate|].
    rewrite (IH p post esp _ (fun r Hr => Hpre r (or_intror Hr)) Hp).
    now rewrite logged_logged.
Qed.

(** The connection half of [open] in auto-detection, when some candidate
    answers: it settles on the first candidate that does. *)
Lemma open_connect_auto (env : Env) (port : option string) (ports : list PortInfo)
    (pre post : list string) (p : string) (esp : Esp) (w : World) :
  EspBoot.wants_auto port = true ->
  comports env = Some ports ->
  EspBoot.order_ports ports = pre ++ p :: post ->
  (forall q, In q pre -> is_raise (detect_chip env q) = true) ->
  detect_chip env p = Ok esp ->
  EspBoot.open_connect env port w
  = (Ok (p, esp),
     logged w (verbosity_events env ++ [EvComports] ++ map EvDetectChip (pre ++ [p]))).
Proof.
  intros Hauto Hports Hsplit Hpre Hp.
  unfold EspBoot.open_connect, verbosity_events. rewrite Hauto.
  unfold EspBoot._auto_detect_port.
  assert (Hdetect : forall w0,
    (ports0 <- EspBoot._list_serial_ports env ;;
     match ports0 with
     | [] => raise (MkExn EspBootNotFoundError
                      "No serial ports found for ESP32 detection")
     | _ => EspBoot.try_ports env ports0
     end) w0
    = (Ok (p, esp), logged w0 ([EvComports] ++ map EvDetectChip (pre ++ [p])))).
  { intros w0. unfold bind. rewrite (list_serial_ports_run env ports w0 Hports).
    rewrite Hsplit.
    destruct (pre ++ p :: post) as [|x l] eqn:E;
      [destruct pre; discriminate|].
    rewrite <- E.
    rewrite (try_ports_first_answering env pre p post esp _ Hpre Hp).
    fold (logged w0 [EvComports]). now rewrite logged_logged. }
  destruct (esptool_logger env); unfold bind at 1; unfold emit, ret.
  - fold (logged w [EvSetVerbosity]). rewrite Hdetect.
    now rewrite logged_logged.
  - now rewrite Hdetect.
Qed.

(** [open] without a port (or with "auto"), when some candidate answers:
    it settles on the first candidate, in candidate order, that does; every
    candidate before it was attempted once and none after it is attempted,
    whatever follows.  If the stub (when asked for) and the flash then
    succeed on it, the controller is bound to that port and its monitor
    watches it.  If one of them fails, [open] raises the generic error
    naming that port, after closing the connection, and the remaining
    candidates are not tried. *)
Theorem open_auto_first_answering :
  forall (env : Env) (port : option string) (run_stub_flasher : bool)
         (ports : list PortInfo) (pre post : list string) (p : string)
         (esp : Esp) (w : World),
    EspBoot.wants_auto port = true ->
    comports env = Some ports ->
    EspBoot.order_ports ports = pre ++ p :: post ->
    (forall q, In q pre -> is_raise (detect_chip env q) = true) ->
    detect_chip env p = Ok esp ->
    let attempts :=
      verbosity_events env
      ++ [EvComports]
      ++ map EvDetectChip (pre ++ [p])
      ++ attach_events env esp run_stub_flasher in
    (forall esp',
        attach_outcome env esp run_stub_flasher = Ok esp' ->
        EspBoot.open env port run_stub_flasher w
        = (Ok {| EspBoot.port := Some p;
                 EspBoot._esp := Some esp';
                 EspBoot._stack := Some [p];
                 EspBoot._flash_size := size_at_open env esp';
                 EspBoot._cached_serial_number := None;
                 EspBoot._EspBoot__monitor :=
                   Some (Some {| EspBootMonitor._port := p;
                                 EspBootMonitor._cls_callback :=
                                   Some (EspBoot.EspBootObserver
                                           (EspBoot.opened p esp'
                                              (size_at_open env esp') None));
                                 EspBootMonitor._running := true;
                                 EspBootMonitor._device_present := false |}) |},
           logged w (attempts
                     ++ (match _get_flash_info env with
                         | Some _ => [EvGetFlashInfo]
                         | None => []
                         end)
                     ++ [EvMonitorStart p]))) /\
    (forall e,
        attach_outcome env esp run_stub_flasher = Raise e ->
        EspBoot.open env port run_stub_flasher w
        = (Raise (MkExnFrom EspBootError
                    ("Failed to open ESP32 on port " ++ p ++ ": " ++ exn_msg e) e),
           logged w (attempts ++ [EvStackClose [p]]))).
Proof.
  intros env port flag ports pre post p esp w Hauto Hports Hsplit Hpre Hp attempts.
  pose proof (open_connect_auto env port ports pre post p esp w
                Hauto Hports Hsplit Hpre Hp) as Hconnect.
  subst attempts. split.
  - intros esp' Hattach.
    unfold EspBoot.open. rewrite Hconnect, open_attach_run, Hattach.
    unfold bind. rewrite open_flash_size_run. unfold emit, ret.
    f_equal. unfold logged. cbn [log next_fd]. f_equal.
    rewrite <- !app_assoc. reflexivity.
  - intros e Hattach.
    unfold EspBoot.open. rewrite Hconnect, open_attach_run, Hattach.
    unfold bind, emit, raise, EspBoot.open_failed. cbn [EspBoot.format_port].
    f_equal. unfold logged. cbn [log next_fd]. f_equal.
    rewrite <- !app_assoc. reflexivity.
Qed.

Lemma open_auto_first_answering_witness :
  (exists self,
      EspBoot.open (sample_env (Some [port_A; port_C; port_B]) answers_on_B)
        None true fresh_world
      = (Ok self,
         logged fresh_world
           [EvSetVerbosity; EvComports; EvDetectChip "C"; EvDetectChip "B";
            EvRunStub; EvAttachFlash; EvGetFlashInfo; EvMonitorStart "B"]) /\
      EspBoot.port self = Some "B") /\
  EspBoot.open (stub_fails_env (Some [port_A; port_C; port_B]) answers_on_B)
    None true fresh_world
  = (Raise (MkExnFrom EspBootError "Failed to open ESP32 on port B: stub did not start"
              (MkExn ForeignError "stub did not start")),
     logged fresh_world
       [EvSetVerbosity; EvComports; EvDetectChip "C"; EvDetectChip "B";
        EvRunStub; EvStackClose ["B"]]).
Proof.
  assert (Hpre : forall (env : Env) q,
             detect_chip env = answers_on_B ->
             In q ["C"] -> is_raise (detect_chip env q) = true).
  { intros env q Henv [<-|[]]. rewrite Henv. reflexivity. }
  split.
  - eexists. split.
    + apply (proj1 (open_auto_first_answering
               (sample_env (Some [port_A; port_C; port_B]) answers_on_B) None true
               [port_A; port_C; port_B] ["C"] ["A"] "B"
               (sample_esp "ESP32-S3" None) fresh_world
               eq_refl eq_refl eq_refl
               (fun q => Hpre (sample_env (Some [port_A; port_C; port_B]) answers_on_B)
                              q eq_refl)
               eq_refl)
               (sample_esp "ESP32-S3" None) eq_refl).
    + reflexivity.
  - apply (proj2 (open_auto_first_answering
             (stub_fails_env (Some [port_A; port_C; port_B]) answers_on_B) None true
             [port_A; port_C; port_B] ["C"] ["A"] "B"
             (sample_esp "ESP32-S3" None) fresh_world
             eq_refl eq_refl eq_refl
             (fun q => Hpre (stub_fails_env (Some [port_A; port_C; port_B]) answers_on_B)
                            q eq_refl)
             eq_refl)
             (MkExn ForeignError "stub did not start") eq_refl).
Defined.

(** ** The candidate list as a rearrangement *)

Lemma filter_partition_permutation {A} (f : A -> bool) (l : list A) :
  Permutation (filter f l ++ filter (fun x => negb (f x)) l) l.
Proof.
  induction l as [|x l IH]; [constructor|].
  cbn [filter]. destruct (f x); cbn [negb app].
  - now constructor.
  - symmetry. apply Permutation_cons_app. now symmetry.
Qed.

(** The candidate list is a rearrangement of the enumerated devices: no
    port is dropped and none is listed more often than it was enumerated. *)
Theorem order_ports_permutation :
  forall (ports : list PortInfo),
    Permutation (EspBoot.order_ports ports) (map device ports) /\
    List.length (EspBoot.order_ports ports) = List.length ports.
Proof.
  intros ports.
  assert (H : Permutation (EspBoot.order_ports ports) (map device ports)).
  { rewrite order_ports_split, <- map_app.
    apply Permutation_map, filter_partition_permutation. }
  split; [exact H|].
  rewrite (Permutation_length H). apply length_map.
Qed.

(** ** Resetting *)

(** On an open controller [reset] and [reboot] never raise, whatever the
    toolkit's reset does: they make exactly one reset call and return.
    [reboot] asks for the mode "reset" when [bootsel] is set and for
    "hard-reset" otherwise, and is [reset] with that mode. *)
Theorem reset_reboot_best_effort :
  forall (env : Env) (self : EspBoot.t) (esp : Esp) (w : World),
    EspBoot._esp self = Some esp ->
    (forall mode,
        EspBoot.reset env self mode w = (Ok tt, logged w [EvResetChip mode])) /\
    EspBoot.reboot env self true w = (Ok tt, logged w [EvResetChip "reset"]) /\
    EspBoot.reboot env self false w = (Ok tt, logged w [EvResetChip "hard-reset"]) /\
    (forall bootsel,
        EspBoot.reboot env self bootsel w
        = EspBoot.reset env self (if bootsel then "reset" else "hard-reset") w).
Proof.
  intros env self esp w Hc.
  unfold EspBoot.reset, EspBoot.reboot. rewrite Hc.
  repeat split; intros; rewrite ?best_effort_run; reflexivity.
Qed.

Lemma reset_reboot_best_effort_witness :
  EspBoot.reboot unhelpful_env (connected_to target_esp) true fresh_world
  = (Ok tt, logged fresh_world [EvResetChip "reset"]).
Proof.
  apply (reset_reboot_best_effort unhelpful_env (connected_to target_esp) target_esp
           fresh_world eq_refl).
Defined.

(** ** Flash size, continued *)

Lemma size_from_info_logged (env : Env) (esp : Esp) (w : World) :
  EspBoot.size_from_info env esp w
  = (Ok match _get_flash_info env with
        | Some info => match info esp with Ok size => size | Raise _ => SizeNone end
        | None => SizeNone
        end,
     logged w match _get_flash_info env with
              | Some _ => [EvGetFlashInfo]
              | None => []
              end).
Proof.
  unfold EspBoot.size_from_info.
  destruct (_get_flash_info env) as [info|].
  - unfold try_except. rewrite call_logged. destruct (info esp); reflexivity.
  - unfold ret. now rewrite logged_nil.
Qed.

(** [get_flash_size] on an open controller with nothing cached, with the
    calls it makes. *)
Lemma get_flash_size_full (env : Env) (self : EspBoot.t) (esp : Esp) (w : World) :
  EspBoot._esp self = Some esp ->
  EspBoot._flash_size self = None ->
  EspBoot.get_flash_size env self w
  = (match EspBoot._flash_size_to_bytes (size_reported env esp) with
     | Some n => Ok (n, EspBoot.set_flash_size self n)
     | None => Raise EspBoot.size_unknown
     end,
     logged w (flash_size_events env esp)).
Proof.
  intros Hc Hcache. unfold EspBoot.get_flash_size. rewrite Hc, Hcache.
  unfold bind at 1. rewrite size_from_info_logged.
  unfold flash_size_events, size_reported.
  set (from_info := match _get_flash_info env with
                    | Some info => _ | None => _ end).
  set (size := if EspBoot.is_size_none from_info then _ else _).
  destruct (EspBoot.is_size_none size) eqn:Enone.
  - rewrite (flash_size_none_unparsed size Enone).
    unfold bind. rewrite best_effort_run. unfold raise.
    fold (logged (logged w match _get_flash_info env with
                           | Some _ => [EvGetFlashInfo] | None => [] end) [EvFlashId]).
    now rewrite logged_logged.
  - rewrite app_nil_r.
    destruct (EspBoot._flash_size_to_bytes size); reflexivity.
Qed.

(** The flash identification is a last resort of [get_flash_size]: it is
    called only when neither the flash-info routine nor an attribute of the
    handle gave a descriptor, after them, and whether it succeeds or raises
    the call ends in the "unable to determine" error; when a descriptor was
    found, parseable or not, it is not called. *)
Theorem flash_id_last_resort :
  forall (env : Env) (self : EspBoot.t) (esp : Esp) (w : World),
    EspBoot._esp self = Some esp ->
    EspBoot._flash_size self = None ->
    log (snd (EspBoot.get_flash_size env self w))
    = log w
      ++ (match _get_flash_info env with Some _ => [EvGetFlashInfo] | None => [] end)
      ++ (if EspBoot.is_size_none (size_reported env esp) then [EvFlashId] else []) /\
    (EspBoot.is_size_none (size_reported env esp) = true ->
     fst (EspBoot.get_flash_size env self w)
     = Raise (MkExn EspBootError "Unable to determine flash size programmatically")).
Proof.
  intros env self esp w Hc Hcache.
  rewrite (get_flash_size_full env self esp w Hc Hcache). split.
  - reflexivity.
  - intros Hnone. cbn [fst]. now rewrite (flash_size_none_unparsed _ Hnone).
Qed.

Lemma flash_id_last_resort_witness :
  log (snd (EspBoot.get_flash_size unhelpful_env (connected_to target_esp) fresh_world))
  = [EvGetFlashInfo; EvFlashId] /\
  log (snd (EspBoot.get_flash_size unhelpful_env
              (connected_to (esp_with_size_attr (SizeStr "8MB"))) fresh_world))
  = [EvGetFlashInfo].
Proof.
  split.
  - apply (flash_id_last_resort unhelpful_env (connected_to target_esp) target_esp
             fresh_world eq_refl eq_refl).
  - apply (flash_id_last_resort unhelpful_env
             (connected_to (esp_with_size_attr (SizeStr "8MB")))
             (esp_with_size_attr (SizeStr "8MB")) fresh_world eq_refl eq_refl).
Defined.

(** Once [get_flash_size] has returned a size, every later call on the
    controller it left returns the same size and calls nothing: the toolkit
    is asked at most once. *)
Theorem get_flash_size_cached_after :
  forall (env : Env) (self self' : EspBoot.t) (n : Z) (w w' : World),
    EspBoot.get_flash_size env self w = (Ok (n, self'), w') ->
    EspBoot._flash_size self' = Some n /\
    forall env' w'', EspBoot.get_flash_size env' self' w'' = (Ok (n, self'), w'').
Proof.
  intros env self self' n w w' Hrun.
  assert (Hstate : exists esp, EspBoot._esp self' = Some esp /\
                               EspBoot._flash_size self' = Some n).
  { destruct (EspBoot._esp self) as [esp|] eqn:Hc.
    - destruct (EspBoot._flash_size self) as [cached|] eqn:Hcache.
      + rewrite (get_flash_size_cached env self esp cached w Hc Hcache) in Hrun.
        inversion Hrun; subst. now exists esp.
      + rewrite (get_flash_size_full env self esp w Hc Hcache) in Hrun.
        destruct (EspBoot._flash_size_to_bytes _) as [m|]; [|discriminate].
        inversion Hrun; subst. exists esp. split; [exact Hc|reflexivity].
    - rewrite get_flash_size_disconnected in Hrun by exact Hc. discriminate. }
  destruct Hstate as (esp & Hc' & Hcache'). split; [exact Hcache'|].
  intros env' w''. now apply get_flash_size_cached with esp.
Qed.

Lemma get_flash_size_cached_after_witness :
  exists self',
    EspBoot.get_flash_size (reporting (SizeStr "4MB")) (connected_to target_esp) fresh_world
    = (Ok (4194304%Z, self'), logged fresh_world [EvGetFlashInfo]) /\
    EspBoot.get_flash_size unhelpful_env self' fresh_world
    = (Ok (4194304%Z, self'), fresh_world).
Proof.
  eexists. split; [reflexivity|].
  apply (get_flash_size_cached_after (reporting (SizeStr "4MB"))
           (connected_to target_esp) _ 4194304 fresh_world _ eq_refl).
Defined.

(** Whatever [get_flash_size] raises is the generic [EspBootError]. *)
Lemma get_flash_size_raises_generic (env : Env) (self : EspBoot.t) (w w' : World) (e : Exn) :
  EspBoot.get_flash_size env self w = (Raise e, w') ->
  exn_class e = EspBootError.
Proof.
  intros Hrun.
  destruct (EspBoot._esp self) as [esp|] eqn:Hc.
  - destruct (EspBoot._flash_size self) as [cached|] eqn:Hcache.
    + rewrite (get_flash_size_cached env self esp cached w Hc Hcache) in Hrun.
      discriminate.
    + rewrite (get_flash_size_full env self esp w Hc Hcache) in Hrun.
      destruct (EspBoot._flash_size_to_bytes _); [discriminate|].
      inversion Hrun; reflexivity.
  - rewrite get_flash_size_disconnected in Hrun by exact Hc.
    inversion Hrun; reflexivity.
Qed.

(** [memory] never raises: it is the size [get_flash_size] returns, with the
    controller that call leaves, and 0 with the controller unchanged when
    [get_flash_size] raises; on a controller without a handle it is 0 and
    nothing is called. *)
Theorem memory_never_raises :
  forall (env : Env) (self : EspBoot.t) (w : World),
    EspBoot.memory env self w
    = (match fst (EspBoot.get_flash_size env self w) with
       | Ok (n, self') => Ok (n, self')
       | Raise _ => Ok (0%Z, self)
       end,
       snd (EspBoot.get_flash_size env self w)) /\
    (EspBoot._esp self = None -> EspBoot.memory env self w = (Ok (0%Z, self), w)).
Proof.
  intros env self w.
  assert (Hgen :
    EspBoot.memory env self w
    = (match fst (EspBoot.get_flash_size env self w) with
       | Ok (n, self') => Ok (n, self')
       | Raise _ => Ok (0%Z, self)
       end,
       snd (EspBoot.get_flash_size env self w))).
  { unfold EspBoot.memory, try_except.
    destruct (EspBoot.get_flash_size env self w) as [[[n self']|e] w'] eqn:Hrun;
      cbn [fst snd]; [reflexivity|].
    unfold EspBoot.is_EspBootError.
    rewrite (get_flash_size_raises_generic env self w w' e Hrun). reflexivity. }
  split; [exact Hgen|].
  intros Hc. rewrite Hgen, get_flash_size_disconnected by exact Hc. reflexivity.
Qed.

Lemma memory_never_raises_witness :
  EspBoot.memory unhelpful_env unopened fresh_world = (Ok (0%Z, unopened), fresh_world).
Proof.
  apply (memory_never_raises unhelpful_env unopened fresh_world). reflexivity.
Defined.

(** ** Serial numbers, continued *)

Lemma hex_upper_app (a b : list byte) :
  PyBytes.hex_upper (a ++ b) = (PyBytes.hex_upper a ++ PyBytes.hex_upper b)%string.
Proof.
  induction a as [|x a IH]; [reflexivity|].
  cbn [app PyBytes.hex_upper]. rewrite IH.
  unfold PyBytes.format_02X. reflexivity.
Qed.

Lemma substring_prefix (x y : string) :
  substring 0 (String.length x) (x ++ y) = x.
Proof.
  induction x as [|c x IH]; [destruct y; reflexivity|].
  cbn [String.length String.append substring]. now rewrite IH.
Qed.

(** One rendered byte is read back by [fromhex]. *)
Lemma fromhex_format_02X (b : byte) (rest : list ascii) (fuel : nat) :
  PyBytes.fromhex_chars (S fuel)
    (list_ascii_of_string (PyBytes.format_02X b) ++ rest)
  = match PyBytes.fromhex_chars fuel rest with
    | Some bs => Some (b :: bs)
    | None => None
    end.
Proof. destruct b; reflexivity. Qed.

Lemma list_ascii_of_string_app (a b : string) :
  list_ascii_of_string (a ++ b) = list_ascii_of_string a ++ list_ascii_of_string b.
Proof. induction a as [|c a IH]; [reflexivity|]. cbn. now rewrite IH. Qed.

Lemma fromhex_chars_hex_upper (bs : list byte) :
  forall fuel, List.length bs <= fuel ->
    PyBytes.fromhex_chars fuel (list_ascii_of_string (PyBytes.hex_upper bs)) = Some bs.
Proof.
  induction bs as [|b bs IH]; intros fuel Hfuel.
  - destruct fuel; reflexivity.
  - destruct fuel as [|fuel]; [cbn in Hfuel; lia|].
    cbn [PyBytes.hex_upper]. rewrite list_ascii_of_string_app, fromhex_format_02X.
    rewrite IH by (cbn in Hfuel; lia). reflexivity.
Qed.

(** [bytes.fromhex] undoes the upper-case rendering. *)
Lemma fromhex_hex_upper (bs : list byte) :
  PyBytes.fromhex (PyBytes.hex_upper bs) = Some bs.
Proof.
  unfold PyBytes.fromhex. apply fromhex_chars_hex_upper.
  rewrite (proj1 (hex_upper_shape bs)). lia.
Qed.

Lemma pad8_six (mac : list byte) :
  List.length mac = 6 -> EspBoot.pad8 mac = [x00; x00] ++ mac.
Proof. intros H. unfold EspBoot.pad8. now rewrite H. Qed.

(** The string rendered for a six-byte MAC: its bytes in reverse, then
    "0000". *)
Lemma serial_of_six (mac : list byte) :
  List.length mac = 6 ->
  PyBytes.hex_upper (rev (EspBoot.pad8 mac))
  = (PyBytes.hex_upper (rev mac) ++ "0000")%string.
Proof.
  intros H. rewrite (pad8_six mac H), rev_app_distr, hex_upper_app. reflexivity.
Qed.

(** Round trip of the serial number: the string [serial_number_str] renders
    for a six-byte MAC, given to [set_serial_number_str] on a controller
    whose live read is unavailable, caches exactly that MAC (only the first
    twelve characters are read), and [serial_number_str] then returns the
    same string again. *)
Theorem serial_number_roundtrip :
  forall (self : EspBoot.t) (esp : Esp) (mac : list byte) (w w1 : World),
    EspBoot._esp self = Some esp ->
    mac_read esp = MacNone ->
    List.length mac = 6 ->
    let serial := PyBytes.hex_upper (rev (EspBoot.pad8 mac)) in
    exists self',
      EspBoot.set_serial_number_str self serial w = (Ok self', w) /\
      EspBoot._cached_serial_number self' = Some mac /\
      fst (EspBoot.serial_number_str self' w1) = Ok serial.
Proof.
  intros self esp mac w w1 Hc Hmute Hlen serial.
  assert (Hfirst : EspBoot.first12 serial = PyBytes.hex_upper (rev mac)).
  { subst serial. rewrite (serial_of_six mac Hlen). unfold EspBoot.first12.
    replace 12 with (String.length (PyBytes.hex_upper (rev mac))).
    - apply substring_prefix.
    - rewrite (proj1 (hex_upper_shape (rev mac))), length_rev, Hlen. reflexivity. }
  unfold EspBoot.set_serial_number_str.
  rewrite Hfirst, fromhex_hex_upper, rev_involutive.
  eexists. split; [reflexivity|]. split; [reflexivity|].
  rewrite (serial_number_str_run _ esp w1) by exact Hc.
  rewrite Hmute. cbn [EspBoot.mac_or_fallback EspBoot._cached_serial_number
                      EspBoot.mac_to_bytes].
  rewrite pad8_length, Hlen. reflexivity.
Qed.

Lemma serial_number_roundtrip_witness :
  exists self',
    EspBoot.set_serial_number_str (connected_to mute_esp) "0605040302010000" fresh_world
    = (Ok self', fresh_world) /\
    EspBoot._cached_serial_number self' = Some mac_123456 /\
    fst (EspBoot.serial_number_str self' fresh_world) = Ok "0605040302010000".
Proof.
  apply (serial_number_roundtrip (connected_to mute_esp) mute_esp mac_123456
           fresh_world fresh_world eq_refl eq_refl eq_refl).
Defined.

(** When the live MAC cannot be had (the handle has no [read_mac], the call
    raises, or it returns [None]) the serial number comes from the cached
    bytes if [set_serial_number_str] left some, and is sixteen zeros
    otherwise; a live value always takes precedence over the cache. *)
Theorem serial_number_fallback :
  forall (self : EspBoot.t) (esp : Esp) (w : World),
    EspBoot._esp self = Some esp ->
    (mac_read esp = MacNone ->
     EspBoot._cached_serial_number self = None ->
     fst (EspBoot.serial_number_str self w) = Ok "0000000000000000") /\
    (forall cached,
        mac_read esp = MacNone ->
        EspBoot._cached_serial_number self = Some cached ->
        List.length cached <= 8 ->
        fst (EspBoot.serial_number_str self w)
        = Ok (PyBytes.hex_upper (rev (EspBoot.pad8 cached)))) /\
    (forall live,
        mac_read esp = MacBytes live ->
        List.length live <= 8 ->
        fst (EspBoot.serial_number_str self w)
        = Ok (PyBytes.hex_upper (rev (EspBoot.pad8 live)))).
Proof.
  intros self esp w Hc.
  pose proof (serial_number_str_run self esp w Hc) as Hrun.
  split; [|split].
  - intros Hmute Hcache. rewrite Hrun, Hmute.
    unfold EspBoot.mac_or_fallback. rewrite Hcache. reflexivity.
  - intros cached Hmute Hcache Hlen. rewrite Hrun, Hmute.
    unfold EspBoot.mac_or_fallback. rewrite Hcache.
    cbn [EspBoot.mac_to_bytes]. rewrite pad8_length.
    replace (Nat.max 8 (List.length cached)) with 8 by lia. reflexivity.
  - intros live Hlive Hlen. rewrite Hrun, Hlive.
    cbn [EspBoot.mac_or_fallback EspBoot.mac_to_bytes]. rewrite pad8_length.
    replace (Nat.max 8 (List.length live)) with 8 by lia. reflexivity.
Qed.

Lemma serial_number_fallback_witness :
  fst (EspBoot.serial_number_str (connected_to mute_esp) fresh_world)
  = Ok "0000000000000000".
Proof.
  apply (serial_number_fallback (connected_to mute_esp) mute_esp fresh_world eq_refl);
    reflexivity.
Defined.

(** *** MAC values that are not bytes *)

Lemma byte_of_Z_in_range (z : Z) :
  (0 <= z < 256)%Z -> exists b, PyBytes.byte_of_Z z = Some b.
Proof.
  intros Hz. unfold PyBytes.byte_of_Z.
  replace ((0 <=? z)%Z && (z <? 256)%Z) with true
    by (symmetry; apply andb_true_iff; split; [apply Z.leb_le|apply Z.ltb_lt]; lia).
  destruct (Byte.of_N (Z.to_N z)) as [b|] eqn:E; [now exists b|].
  apply Byte.of_N_None_iff in E. lia.
Qed.

Lemma byte_of_Z_out_of_range (z : Z) :
  (z < 0 \/ 256 <= z)%Z -> PyBytes.byte_of_Z z = None.
Proof.
  intros Hz. unfold PyBytes.byte_of_Z.
  replace ((0 <=? z)%Z && (z <? 256)%Z) with false; [reflexivity|].
  symmetry. apply andb_false_iff.
  destruct Hz; [left; apply Z.leb_gt|right; apply Z.ltb_ge]; lia.
Qed.

Lemma bytes_of_ints_app (a b : list Z) :
  PyBytes.bytes_of_ints (a ++ b)
  = match PyBytes.bytes_of_ints a, PyBytes.bytes_of_ints b with
    | Some x, Some y => Some (x ++ y)
    | _, _ => None
    end.
Proof.
  induction a as [|z a IH]; cbn [app PyBytes.bytes_of_ints].
  - destruct (PyBytes.bytes_of_ints b); reflexivity.
  - rewrite IH. destruct (PyBytes.byte_of_Z z); [|reflexivity].
    destruct (PyBytes.bytes_of_ints a); [|reflexivity].
    destruct (PyBytes.bytes_of_ints b); reflexivity.
Qed.

Lemma be_digits_bytes (len : nat) :
  forall n, exists bs,
    PyBytes.bytes_of_ints (PyBytes.be_digits len n) = Some bs /\
    List.length bs = len.
Proof.
  induction len as [|len IH]; intros n.
  - exists []. split; reflexivity.
  - cbn [PyBytes.be_digits]. rewrite bytes_of_ints_app.
    destruct (IH (n / 256)%Z) as (bs & Hbs & Hlen). rewrite Hbs.
    destruct (byte_of_Z_in_range (n mod 256)) as (b & Hb);
      [apply Z.mod_pos_bound; lia|].
    cbn [PyBytes.bytes_of_ints]. rewrite Hb.
    exists (bs ++ [b]). split; [reflexivity|].
    rewrite length_app, Hlen. cbn. lia.
Qed.

Lemma bytes_of_ints_bad (l : list Z) (z : Z) :
  In z l -> (z < 0 \/ 256 <= z)%Z -> PyBytes.bytes_of_ints l = None.
Proof.
  induction l as [|x l IH]; intros Hin Hz; [contradiction|].
  cbn [PyBytes.bytes_of_ints]. destruct Hin as [->|Hin].
  - now rewrite (byte_of_Z_out_of_range z Hz).
  - rewrite (IH Hin Hz). destruct (PyBytes.byte_of_Z x); reflexivity.
Qed.

(** A MAC read as an [int] gives a serial number exactly when it is a
    non-negative number below 2^48: the string is then its six big-endian
    bytes rendered in reverse, followed by "0000".  A
    negative or larger [int] leaves the property as [OverflowError], and a
    tuple or list with an element outside 0..255 as [ValueError]: neither is
    turned into an [EspBootError]. *)
Theorem serial_number_of_numbers :
  forall (self : EspBoot.t) (esp : Esp) (w : World),
    EspBoot._esp self = Some esp ->
    (forall n,
        mac_read esp = MacInt n ->
        (0 <= n < 2 ^ 48)%Z ->
        exists six,
          PyBytes.bytes_of_ints (PyBytes.be_digits 6 n) = Some six /\
          List.length six = 6 /\
          fst (EspBoot.serial_number_str self w)
          = Ok (PyBytes.hex_upper (rev six) ++ "0000")%string) /\
    (forall n,
        mac_read esp = MacInt n ->
        (n < 0 \/ 2 ^ 48 <= n)%Z ->
        exists e,
          fst (EspBoot.serial_number_str self w) = Raise e /\
          exn_class e = OverflowError) /\
    (forall l z,
        mac_read esp = MacInts l ->
        In z l ->
        (z < 0 \/ 256 <= z)%Z ->
        exists e,
          fst (EspBoot.serial_number_str self w) = Raise e /\
          exn_class e = ValueError).
Proof.
  intros self esp w Hc.
  pose proof (serial_number_str_run self esp w Hc) as Hrun.
  split; [|split].
  - intros n Hmac Hn. rewrite Hrun, Hmac.
    cbn [EspBoot.mac_or_fallback EspBoot.mac_to_bytes].
    unfold PyBytes.to_bytes_big.
    replace (n <? 0)%Z with false by (symmetry; apply Z.ltb_ge; lia).
    replace (256 ^ Z.of_nat 6 <=? n)%Z with false
      by (symmetry; apply Z.leb_gt; change (256 ^ Z.of_nat 6)%Z with (2 ^ 48)%Z; lia).
    destruct (be_digits_bytes 6 n) as (six & Hsix & Hlen). rewrite Hsix.
    exists six. split; [reflexivity|]. split; [exact Hlen|].
    rewrite pad8_length, Hlen. cbn [Nat.max Nat.eqb].
    now rewrite (serial_of_six six Hlen).
  - intros n Hmac Hn. rewrite Hrun, Hmac.
    cbn [EspBoot.mac_or_fallback EspBoot.mac_to_bytes].
    unfold PyBytes.to_bytes_big.
    destruct (Z.ltb_spec n 0); [eexists; split; reflexivity|].
    replace (256 ^ Z.of_nat 6 <=? n)%Z with true
      by (symmetry; apply Z.leb_le; change (256 ^ Z.of_nat 6)%Z with (2 ^ 48)%Z; lia).
    eexists; split; reflexivity.
  - intros l z Hmac Hin Hz. rewrite Hrun, Hmac.
    cbn [EspBoot.mac_or_fallback EspBoot.mac_to_bytes].
    unfold PyBytes.bytes_of_seq. rewrite (bytes_of_ints_bad l z Hin Hz).
    eexists; split; reflexivity.
Qed.

Lemma serial_number_of_numbers_witness :
  (exists six,
      PyBytes.bytes_of_ints (PyBytes.be_digits 6 0x010203040506) = Some six /\
      List.length six = 6 /\
      fst (EspBoot.serial_number_str
             (connected_to (esp_with_mac (MacInt 0x010203040506))) fresh_world)
      = Ok (PyBytes.hex_upper (rev six) ++ "0000")%string) /\
  (exists e,
      fst (EspBoot.serial_number_str
             (connected_to (esp_with_mac (MacInt (2 ^ 48)))) fresh_world) = Raise e /\
      exn_class e = OverflowError).
Proof.
  split.
  - apply (proj1 (serial_number_of_numbers
             (connected_to (esp_with_mac (MacInt 0x010203040506)))
             (esp_with_mac (MacInt 0x010203040506)) fresh_world eq_refl)
             0x010203040506%Z eq_refl).
    lia.
  - apply (proj1 (proj2 (serial_number_of_numbers
             (connected_to (esp_with_mac (MacInt (2 ^ 48))))
             (esp_with_mac (MacInt (2 ^ 48))) fresh_world eq_refl))
             (2 ^ 48)%Z eq_refl).
    right. lia.
Defined.

(** ** The size normalisation as a rule *)

Lemma digit_char_facts (d : nat) :
  d < 10 ->
  PyStr.is_digit (digit_char d) = true /\
  PyStr.digit_val (digit_char d) = Z.of_nat d /\
  not_space (digit_char d) = true /\
  PyStr.upper_char (digit_char d) = digit_char d /\
  Ascii.eqb (digit_char d) "-" = false /\
  Ascii.eqb (digit_char d) "+" = false.
Proof.
  intros H.
  do 10 (destruct d as [|d]; [repeat split; reflexivity|]).
  lia.
Qed.

Lemma digit_string_all (f : ascii -> bool) (ds : list nat) :
  (forall d, d < 10 -> f (digit_char d) = true) ->
  Forall (fun d => d < 10) ds ->
  all_chars f (digit_string ds) = true.
Proof.
  intros Hf Hds. induction Hds as [|d ds Hd _ IH]; [reflexivity|].
  cbn [digit_string all_chars]. now rewrite (Hf d Hd), IH.
Qed.

Lemma string_app_assoc (a b c : string) : ((a ++ b) ++ c = a ++ (b ++ c))%string.
Proof. induction a as [|x a IH]; [reflexivity|]. cbn. now rewrite IH. Qed.

Lemma string_app_last_inj (a b : string) (c d : ascii) :
  (a ++ String c "" = b ++ String d "")%string -> a = b /\ c = d.
Proof.
  revert b. induction a as [|x a IH]; intros [|y b] H; cbn in H.
  - inversion H. now split.
  - inversion H as [[Hx Hb]]. destruct b; discriminate.
  - inversion H as [[Hx Ha]]. destruct a; discriminate.
  - inversion H as [[Hx Hab]]. destruct (IH b Hab) as [-> ->]. now split.
Qed.

Lemma substring_all (s : string) : substring 0 (String.length s) s = s.
Proof. induction s as [|c s IH]; [reflexivity|]. cbn. now rewrite IH. Qed.

Lemma substring_split (s : string) :
  forall n, n <= String.length s ->
    s = (substring 0 n s ++ substring n (String.length s - n) s)%string.
Proof.
  induction s as [|c s IH]; intros n Hn.
  - cbn in Hn. assert (n = 0) as -> by lia. reflexivity.
  - destruct n as [|n].
    + cbn [substring String.append]. rewrite Nat.sub_0_r.
      cbn [String.length]. cbn [substring]. now rewrite substring_all.
    + cbn [String.length substring String.append Nat.sub].
      cbn in Hn. rewrite <- IH by lia. reflexivity.
Qed.

Lemma substring_skip (x y : string) (m : nat) :
  substring (String.length x) m (x ++ y) = substring 0 m y.
Proof.
  induction x as [|c x IH]; [reflexivity|].
  cbn [String.length String.append substring]. exact IH.
Qed.

(** [endswith] is "is a suffix of". *)
Lemma endswith_iff (suf s : string) :
  PyStr.endswith suf s = true <-> exists x, s = (x ++ suf)%string.
Proof.
  unfold PyStr.endswith. rewrite andb_true_iff, Nat.leb_le, String.eqb_eq. split.
  - intros [Hlen Hsub].
    exists (substring 0 (String.length s - String.length suf) s).
    rewrite (substring_split s (String.length s - String.length suf)) at 1 by lia.
    f_equal. rewrite <- Hsub at 3. f_equal. lia.
  - intros [x ->]. rewrite string_length_app. split; [lia|].
    replace (String.length x + String.length suf - String.length suf)
      with (String.length x) by lia.
    rewrite substring_skip. apply substring_all.
Qed.

Lemma endswith_app (x suf : string) : PyStr.endswith suf (x ++ suf) = true.
Proof. apply endswith_iff. now exists x. Qed.

Lemma drop_last_app (x suf : string) :
  PyStr.drop_last (String.length suf) (x ++ suf) = x.
Proof.
  unfold PyStr.drop_last. rewrite string_length_app.
  replace (String.length x + String.length suf - String.length suf)
    with (String.length x) by lia.
  apply substring_prefix.
Qed.

Lemma not_endswith (suf s : string) :
  (forall x, s <> (x ++ suf)%string) -> PyStr.endswith suf s = false.
Proof.
  intros H. destruct (PyStr.endswith suf s) eqn:E; [|reflexivity].
  apply endswith_iff in E as [x Hx]. now destruct (H x).
Qed.

Lemma strip_no_space (s : string) :
  all_chars not_space s = true -> PyStr.strip s = s.
Proof.
  intros H. unfold PyStr.strip.
  assert (Hl : Forall (fun c => PyStr.is_space c = false) (list_ascii_of_string s)).
  { induction s as [|c s IH]; [constructor|].
    cbn in H. apply andb_true_iff in H as [Hc Hs].
    constructor; [|now apply IH].
    unfold not_space in Hc. now apply negb_true_iff in Hc. }
  assert (Hid : forall l, Forall (fun c => PyStr.is_space c = false) l ->
                          PyStr.lstrip_chars l = l).
  { intros l Hf. destruct Hf as [|c l Hc _]; [reflexivity|].
    cbn. now rewrite Hc. }
  rewrite (Hid _ Hl), (Hid _ (Forall_rev Hl)), rev_involutive.
  apply string_of_list_ascii_of_string.
Qed.

Lemma upper_app (a b : string) :
  PyStr.upper (a ++ b) = (PyStr.upper a ++ PyStr.upper b)%string.
Proof.
  unfold PyStr.upper. induction a as [|c a IH]; [reflexivity|].
  cbn. now rewrite IH.
Qed.

Lemma upper_digits (ds : list nat) :
  Forall (fun d => d < 10) ds -> PyStr.upper (digit_string ds) = digit_string ds.
Proof.
  intros H. induction H as [|d ds Hd _ IH]; [reflexivity|].
  unfold PyStr.upper in *. cbn [digit_string PyStr.map_chars].
  rewrite IH. f_equal. apply (digit_char_facts d Hd).
Qed.

Lemma digits_val_digits (ds : list nat) :
  Forall (fun d => d < 10) ds ->
  forall acc after_digit,
    ds <> [] \/ after_digit = true ->
    PyStr.digits_val acc after_digit (list_ascii_of_string (digit_string ds))
    = Some (digits_value acc ds).
Proof.
  intros H. induction H as [|d ds Hd _ IH]; intros acc b Hb.
  - destruct Hb as [Hb| ->]; [congruence|reflexivity].
  - cbn [digit_string list_ascii_of_string PyStr.digits_val digits_value].
    destruct (digit_char_facts d Hd) as (Hdig & Hval & _).
    rewrite Hdig, Hval. apply IH. now right.
Qed.

(** [int] reads a run of digits as the number it denotes. *)
Lemma int_of_digits (ds : list nat) :
  ds <> [] -> Forall (fun d => d < 10) ds ->
  PyStr.int_of_str (digit_string ds) = Some (digits_value 0 ds).
Proof.
  intros Hne Hds. unfold PyStr.int_of_str.
  rewrite strip_no_space
    by (apply digit_string_all; [intros d Hd; apply (digit_char_facts d Hd)|exact Hds]).
  pose proof (digits_val_digits ds Hds 0%Z false (or_introl Hne)) as Hval.
  destruct ds as [|d ds]; [congruence|].
  cbn [digit_string list_ascii_of_string] in *.
  inversion Hds as [|? ? Hd _]; subst.
  destruct (digit_char_facts d Hd) as (_ & _ & _ & _ & Hminus & Hplus).
  now rewrite Hminus, Hplus.
Qed.

Lemma digits_no_letter (ds : list nat) (x : string) (c : ascii) (rest : string) :
  Forall (fun d => d < 10) ds ->
  PyStr.is_digit c = false ->
  digit_string ds <> (x ++ String c rest)%string.
Proof.
  intros Hds Hc Heq.
  pose proof (digit_string_all PyStr.is_digit ds
                (fun d Hd => proj1 (digit_char_facts d Hd)) Hds) as Hall.
  rewrite Heq, all_chars_app in Hall. cbn [all_chars] in Hall.
  rewrite Hc in Hall. cbn in Hall. now rewrite andb_false_r in Hall.
Qed.

Section SizeRule.

Variable ds : list nat.
Hypothesis some_digit : ds <> [].
Hypothesis digits : Forall (fun d => d < 10) ds.

Lemma prepared (u : string) :
  all_chars not_space u = true ->
  PyStr.upper (PyStr.strip (digit_string ds ++ u))
  = (digit_string ds ++ PyStr.upper u)%string.
Proof.
  intros Hu. rewrite strip_no_space.
  - now rewrite upper_app, upper_digits.
  - rewrite all_chars_app, Hu, andb_true_r.
    apply digit_string_all; [|exact digits].
    intros d Hd. apply (digit_char_facts d Hd).
Qed.

Lemma digits_then_B_not (c : ascii) :
  PyStr.is_digit c = false ->
  PyStr.endswith (String c "B") (digit_string ds ++ "B") = false.
Proof.
  intros Hc. apply not_endswith. intros x Heq.
  change (String c "B") with (String c "" ++ "B")%string in Heq.
  rewrite <- string_app_assoc in Heq.
  apply string_app_last_inj in Heq as [Heq _].
  exact (digits_no_letter ds x c "" digits Hc Heq).
Qed.

Lemma digits_alone_not (c : ascii) (rest : string) :
  PyStr.is_digit c = false ->
  PyStr.endswith (String c rest) (digit_string ds) = false.
Proof.
  intros Hc. apply not_endswith. intros x Heq.
  exact (digits_no_letter ds x c rest digits Hc Heq).
Qed.

Lemma digits_then_KB_not_MB :
  PyStr.endswith "MB" (digit_string ds ++ "KB") = false.
Proof.
  apply not_endswith. intros x Heq.
  change "KB" with ("K" ++ "B")%string in Heq.
  change "MB" with ("M" ++ "B")%string in Heq.
  rewrite <- !string_app_assoc in Heq.
  apply string_app_last_inj in Heq as [Heq _].
  apply string_app_last_inj in Heq as [_ Heq]. discriminate.
Qed.

Lemma size_MB :
  EspBoot._flash_size_to_bytes (SizeStr (digit_string ds ++ "MB"))
  = Some (digits_value 0 ds * 1024 * 1024)%Z.
Proof.
  cbn [EspBoot._flash_size_to_bytes]. rewrite (prepared "MB" eq_refl).
  change (PyStr.upper "MB") with "MB".
  rewrite endswith_app.
  pose proof (drop_last_app (digit_string ds) "MB") as Hdrop.
  cbn [String.length] in Hdrop.
  rewrite Hdrop, int_of_digits by assumption.
  reflexivity.
Qed.

Lemma size_KB :
  EspBoot._flash_size_to_bytes (SizeStr (digit_string ds ++ "KB"))
  = Some (digits_value 0 ds * 1024)%Z.
Proof.
  cbn [EspBoot._flash_size_to_bytes]. rewrite (prepared "KB" eq_refl).
  change (PyStr.upper "KB") with "KB".
  rewrite digits_then_KB_not_MB, endswith_app.
  pose proof (drop_last_app (digit_string ds) "KB") as Hdrop.
  cbn [String.length] in Hdrop.
  rewrite Hdrop, int_of_digits by assumption.
  reflexivity.
Qed.

Lemma size_B :
  EspBoot._flash_size_to_bytes (SizeStr (digit_string ds ++ "B"))
  = Some (digits_value 0 ds).
Proof.
  cbn [EspBoot._flash_size_to_bytes]. rewrite (prepared "B" eq_refl).
  change (PyStr.upper "B") with "B".
  rewrite (digits_then_B_not "M" eq_refl), (digits_then_B_not "K" eq_refl).
  rewrite endswith_app.
  pose proof (drop_last_app (digit_string ds) "B") as Hdrop.
  cbn [String.length] in Hdrop.
  rewrite Hdrop, int_of_digits by assumption.
  reflexivity.
Qed.

Lemma size_bare :
  EspBoot._flash_size_to_bytes (SizeStr (digit_string ds))
  = Some (digits_value 0 ds).
Proof.
  cbn [EspBoot._flash_size_to_bytes].
  assert (Hprep : PyStr.upper (PyStr.strip (digit_string ds)) = digit_string ds).
  { rewrite strip_no_space; [now apply upper_digits|].
    apply digit_string_all; [|exact digits].
    intros d Hd. apply (digit_char_facts d Hd). }
  rewrite Hprep.
  rewrite (digits_alone_not "M" "B" eq_refl), (digits_alone_not "K" "B" eq_refl),
    (digits_alone_not "B" "" eq_refl).
  now apply int_of_digits.
Qed.

(** The letter case of the unit does not matter. *)
Lemma size_unit_case (u v : string) :
  all_chars not_space u = true ->
  all_chars not_space v = true ->
  PyStr.upper u = PyStr.upper v ->
  EspBoot._flash_size_to_bytes (SizeStr (digit_string ds ++ u))
  = EspBoot._flash_size_to_bytes (SizeStr (digit_string ds ++ v)).
Proof.
  intros Hu Hv Huv. cbn [EspBoot._flash_size_to_bytes].
  now rewrite (prepared u Hu), (prepared v Hv), Huv.
Qed.

End SizeRule.

(** The size normalisation as a rule: a non-empty run of decimal digits
    followed by "MB", "KB" or "B", in any letter case, or by nothing, is the
    number the digits denote times 1024 * 1024, 1024, 1 and 1. *)
Theorem flash_size_units :
  forall (ds : list nat),
    ds <> [] ->
    Forall (fun d => d < 10) ds ->
    let text := digit_string ds in
    let n := digits_value 0 ds in
    (forall u, In u ["MB"; "Mb"; "mB"; "mb"] ->
               EspBoot._flash_size_to_bytes (SizeStr (text ++ u))
               = Some (n * 1024 * 1024)%Z) /\
    (forall u, In u ["KB"; "Kb"; "kB"; "kb"] ->
               EspBoot._flash_size_to_bytes (SizeStr (text ++ u)) = Some (n * 1024)%Z) /\
    (forall u, In u ["B"; "b"] ->
               EspBoot._flash_size_to_bytes (SizeStr (text ++ u)) = Some n) /\
    EspBoot._flash_size_to_bytes (SizeStr text) = Some n.
Proof.
  intros ds Hne Hds text n. subst text n.
  split; [|split; [|split]].
  - intros u Hu. rewrite <- (size_MB ds Hne Hds).
    apply (size_unit_case ds Hds);
      cbn in Hu; intuition (subst; reflexivity).
  - intros u Hu. rewrite <- (size_KB ds Hne Hds).
    apply (size_unit_case ds Hds);
      cbn in Hu; intuition (subst; reflexivity).
  - intros u Hu. rewrite <- (size_B ds Hne Hds).
    apply (size_unit_case ds Hds);
      cbn in Hu; intuition (subst; reflexivity).
  - apply (size_bare ds Hne Hds).
Qed.

Lemma flash_size_units_witness :
  EspBoot._flash_size_to_bytes (SizeStr "16mb") = Some (16 * 1024 * 1024)%Z.
Proof.
  apply (flash_size_units [1; 6]).
  - discriminate.
  - repeat constructor.
  - cbn. auto.
Defined.

(** ** The monitor thread of a controller *)

(** [close] reads nothing of the world: its result and the events it adds
    are the same in every world. *)
Lemma close_reads_no_world (self : EspBoot.t) (w w0 : World) :
  EspBoot.close self w
  = (fst (EspBoot.close self w0), logged w (close_events self)).
Proof.
  unfold EspBoot.close, close_events.
  destruct (EspBoot._stack self) as [stack|].
  - destruct (EspBoot._EspBoot__monitor self) as [[m|]|];
      cbv [bind emit ret fst]; f_equal; unfold logged; cbn [log next_fd];
      now rewrite <- ?app_assoc.
  - cbv [ret fst]. now rewrite logged_nil.
Qed.

(** The observer follows the controller's state: once the controller is
    closed its disconnect hook finds nothing to do. *)
Lemma observer_of_closed_controller (closed : EspBoot.t) (port : string) :
  EspBoot._stack closed = None ->
  EspBootMonitorObserver.on_disconnect (EspBoot.EspBootObserver closed) port = Returns.
Proof.
  intros Hs.
  unfold EspBootMonitorObserver.on_disconnect, EspBootMonitorObserver.notifyObservers,
    EspBoot.EspBootObserver.
  cbn [EspBootMonitorObserver.update EspBoot.EspBootObserver_update].
  destruct (EspBoot.truthy (Some port)); [|reflexivity].
  unfold EspBoot.close. rewrite Hs. reflexivity.
Qed.

Section ControllerThread.

Variable ctl : EspBoot.t.
Variable stack : ExitStack.
Variable watched : EspBootMonitor.t.
Variable port : string.
Hypothesis holds_stack : EspBoot._stack ctl = Some stack.
Hypothesis holds_monitor : EspBoot._EspBoot__monitor ctl = Some (Some watched).
Hypothesis port_named : port <> "".

Lemma truthy_port : EspBoot.truthy (Some port) = true.
Proof.
  unfold EspBoot.truthy. destruct (String.eqb_spec port ""); [contradiction|reflexivity].
Qed.

(** [close] on this controller: the monitor is stopped, then the stack is
    closed. *)
Lemma close_open_controller (w : World) :
  exists closed,
    EspBoot.close ctl w = (Ok closed, logged w [EvMonitorStop; EvStackClose stack]) /\
    EspBoot._esp closed = None /\
    EspBoot._stack closed = None.
Proof.
  unfold EspBoot.close. rewrite holds_stack, holds_monitor.
  cbv [bind emit ret]. eexists.
  split; [f_equal; unfold logged; cbn [log next_fd]; now rewrite <- app_assoc|].
  split; reflexivity.
Qed.

(** The disconnect hook of the controller's observer runs [close], which
    stops the monitor; the connect hook leaves everything as it is. *)
Lemma observer_reactions :
  EspBootMonitorObserver.on_disconnect (EspBoot.EspBootObserver ctl) port
  = StopsMonitor /\
  EspBootMonitorObserver.on_connect (EspBoot.EspBootObserver ctl) port = Returns.
Proof.
  unfold EspBootMonitorObserver.on_disconnect, EspBootMonitorObserver.on_connect,
    EspBootMonitorObserver.notifyObservers, EspBoot.EspBootObserver.
  cbn [EspBootMonitorObserver.update EspBoot.EspBootObserver_update].
  rewrite truthy_port. split; [|reflexivity].
  destruct (close_open_controller {| log := []; next_fd := 0 |}) as (closed & Hrun & _).
  rewrite Hrun. reflexivity.
Qed.

Lemma poll_controller (cb : option EspBootMonitorObserver.t) (recorded : bool)
    (ports : list PortInfo) :
  let m := polling port cb recorded in
  let present := EspBootMonitor.present_in m ports in
  EspBootMonitor.poll (EspBoot.observed_by m ctl) ports
  = ({| EspBootMonitor._port := port;
        EspBootMonitor._cls_callback := Some (EspBoot.EspBootObserver ctl);
        EspBootMonitor._running := negb (negb present && recorded);
        EspBootMonitor._device_present := present |},
     due port recorded present, None).
Proof.
  cbn zeta. destruct observer_reactions as (Hgone & Hcome).
  unfold EspBootMonitor.poll, due, EspBootMonitor.present_in, EspBoot.observed_by, polling.
  cbn [EspBootMonitor._port EspBootMonitor._device_present
       EspBootMonitor._cls_callback EspBootMonitor._running
       EspBootMonitor.set_device_present].
  destruct (existsb (String.eqb port) (map device ports)), recorded;
    cbn [andb negb EspBootMonitor._port EspBootMonitor._device_present
         EspBootMonitor._cls_callback EspBootMonitor.set_device_present];
    rewrite ?Hgone, ?Hcome; reflexivity.
Qed.

Lemma apply_hooks_due (recorded present : bool) (w : World) :
  EspBoot.apply_hooks ctl (due port recorded present) w
  = if negb present && recorded then EspBoot.close ctl w else (Ok ctl, w).
Proof.
  destruct (close_open_controller w) as (closed & Hrun & _).
  pose proof truthy_port as Htruthy.
  unfold due. destruct present, recorded;
    cbn [andb negb EspBoot.apply_hooks EspBoot.actions_of
         EspBoot.EspBootObserver_update];
    unfold bind; rewrite ?Htruthy, ?Hrun; reflexivity.
Qed.

Lemma thread_run (enumerations : list (list PortInfo)) :
  forall (cb : option EspBootMonitorObserver.t) (recorded : bool) (w : World),
    let m := polling port cb recorded in
    let run := EspBoot.monitor_thread ctl m enumerations w in
    notifications (thread_pass run)
    = due_until_gone port recorded (map (EspBootMonitor.present_in m) enumerations) /\
    (In (OnDisconnect port) (notifications (thread_pass run)) ->
     EspBootMonitor._running (monitor_after (thread_pass run)) = false /\
     EspBoot.close ctl w = (Ok (thread_controller run), thread_world run)) /\
    (~ In (OnDisconnect port) (notifications (thread_pass run)) ->
     thread_controller run = ctl /\ thread_world run = w).
Proof.
  induction enumerations as [|ports rest IH]; intros cb recorded w; cbn zeta.
  - cbn. split; [reflexivity|]. split; [intros []|]. intros _. split; reflexivity.
  - cbn [EspBoot.monitor_thread EspBootMonitor._running polling map due_until_gone].
    pose proof (poll_controller cb recorded ports) as Hpoll. cbn zeta in Hpoll.
    rewrite Hpoll. clear Hpoll.
    rewrite apply_hooks_due.
    set (present := EspBootMonitor.present_in (polling port cb recorded) ports).
    assert (Hsame : map (EspBootMonitor.present_in
                           (polling port (Some (EspBoot.EspBootObserver ctl)) present)) rest
                    = map (EspBootMonitor.present_in (polling port cb recorded)) rest)
      by reflexivity.
    destruct (negb present && recorded) eqn:Egone.
    + destruct (close_open_controller w) as (closed & Hrun & _). rewrite Hrun.
      cbn [negb].
      assert (Hdue : due port recorded present = [OnDisconnect port]).
      { unfold due. rewrite Egone.
        destruct present, recorded; (discriminate || reflexivity). }
      rewrite Hdue.
      destruct rest; cbn [EspBoot.monitor_thread EspBootMonitor._running];
        unfold notifications, thread_pass, thread_controller, thread_world,
          monitor_after; cbn [fst snd app];
        (split; [reflexivity|]); (split; [intros _; split; reflexivity|]);
        intros Hnot; exfalso; apply Hnot; now left.
    + cbn [negb].
      fold (polling port (Some (EspBoot.EspBootObserver ctl)) present).
      specialize (IH (Some (EspBoot.EspBootObserver ctl)) present w).
      cbn zeta in IH. rewrite Hsame in IH.
      destruct IH as (IHn & IHgone & IHstay).
      destruct (EspBoot.monitor_thread ctl _ rest w)
        as [[ctl2 [[m2 hooks2] exn2]] w2] eqn:Erun.
      unfold notifications, thread_pass, thread_controller, thread_world,
        monitor_after in *. cbn [fst snd] in *.
      assert (Hdue : ~ In (OnDisconnect port) (due port recorded present)).
      { unfold due. rewrite Egone.
        destruct (present && negb recorded); cbn; intuition discriminate. }
      split; [now rewrite IHn|]. split.
      * intros Hin. apply in_app_or in Hin as [Hin|Hin]; [contradiction|].
        now apply IHgone.
      * intros Hnot. apply IHstay. intros Hin. apply Hnot, in_or_app. now right.
Qed.

End ControllerThread.

(** The monitor thread of an open controller (one that holds an exit stack
    and a monitor), run with the controller as shared state.  Up to the first
    disconnect of the watched port the hooks due are invoked; the disconnect
    hook makes the observer call [close] on the controller, so that the
    controller and the world after the run are exactly what [close] leaves
    (monitor stopped, then stack closed, handle cleared), the loop has been
    stopped, and nothing is invoked afterwards even if the port comes back.
    As long as no disconnect is seen the controller and the world are
    untouched. *)
Theorem controller_monitor_stops_at_disconnect :
  forall (ctl : EspBoot.t) (stack : ExitStack) (watched m : EspBootMonitor.t)
         (enumerations : list (list PortInfo)) (w : World),
    EspBoot._stack ctl = Some stack ->
    EspBoot._EspBoot__monitor ctl = Some (Some watched) ->
    EspBootMonitor._port m <> "" ->
    EspBootMonitor._running m = true ->
    EspBootMonitor._device_present m = false ->
    let port := EspBootMonitor._port m in
    let run := EspBoot.monitor_thread ctl m enumerations w in
    let hooks := notifications (thread_pass run) in
    let observed := map (EspBootMonitor.present_in m) enumerations in
    hooks = due_until_gone port false observed /\
    (In (OnDisconnect port) hooks ->
     EspBootMonitor._running (monitor_after (thread_pass run)) = false /\
     EspBoot.close ctl w = (Ok (thread_controller run), thread_world run) /\
     EspBoot._esp (thread_controller run) = None /\
     log (thread_world run) = log w ++ [EvMonitorStop; EvStackClose stack]) /\
    (~ In (OnDisconnect port) hooks ->
     thread_controller run = ctl /\ thread_world run = w) /\
    (forall a b rest,
        observed = repeat false a ++ repeat true (S b) ++ false :: rest ->
        hooks = [OnConnect port; OnDisconnect port]).
Proof.
  intros ctl stack watched m enumerations w Hstack Hmon Hport Hrun Hrec.
  destruct m as [port cb running recorded]. cbn in Hport, Hrun, Hrec.
  subst running recorded.
  change {| EspBootMonitor._port := port; EspBootMonitor._cls_callback := cb;
            EspBootMonitor._running := true;
            EspBootMonitor._device_present := false |}
    with (polling port cb false).
  change (EspBootMonitor._port (polling port cb false)) with port.
  intros port0 run hooks observed. subst port0 hooks observed.
  destruct (thread_run ctl stack watched port Hstack Hmon Hport enumerations cb false w)
    as (Hnote & Hgone & Hstay).
  fold run in Hnote, Hgone, Hstay.
  split; [exact Hnote|]. split; [|split; [exact Hstay|]].
  - intros Hin. destruct (Hgone Hin) as (Hstop & Hclose).
    split; [exact Hstop|]. split; [exact Hclose|].
    destruct (close_open_controller ctl stack watched Hstack Hmon w)
      as (closed & Hrun & Hesp & _).
    rewrite Hrun in Hclose. injection Hclose as Hc Hw.
    rewrite <- Hc, <- Hw. split; [exact Hesp|reflexivity].
  - intros a b rest Hobs. rewrite Hnote, Hobs. clear.
    induction a as [|a IH]; [|exact IH].
    cbn [repeat app due_until_gone andb negb due].
    induction b as [|b IHb]; [reflexivity|].
    cbn [repeat app due_until_gone andb negb due] in *. exact IHb.
Qed.

Lemma controller_monitor_stops_at_disconnect_witness :
  fst (EspBoot.open plugged_env (Some "/dev/ttyUSB0") true fresh_world) = Ok opened_sample /\
  let run := EspBoot.monitor_thread opened_sample watched_sample
               [without_target; with_target; without_target; with_target] fresh_world in
  notifications (thread_pass run)
  = [OnConnect "/dev/ttyUSB0"; OnDisconnect "/dev/ttyUSB0"] /\
  EspBoot._esp (thread_controller run) = None /\
  log (thread_world run) = [EvMonitorStop; EvStackClose ["/dev/ttyUSB0"]].
Proof.
  split; [reflexivity|]. cbn zeta.
  destruct (controller_monitor_stops_at_disconnect
              opened_sample ["/dev/ttyUSB0"] watched_sample watched_sample
              [without_target; with_target; without_target; with_target] fresh_world)
    as (Hhooks & Hgone & _ & _).
  - reflexivity.
  - reflexivity.
  - discriminate.
  - reflexivity.
  - reflexivity.
  - split; [exact Hhooks|].
    destruct Hgone as (_ & _ & Hesp & Hlog).
    + rewrite Hhooks. right. left. reflexivity.
    + split; [exact Hesp|exact Hlog].
Defined.

(** ** Chip information *)

Lemma chip_name_run (self : EspBoot.t) (esp : Esp) (w : World) :
  EspBoot._esp self = Some esp ->
  EspBoot.chip_name self w = (Ok (name_of esp), w).
Proof. intros Hc. unfold EspBoot.chip_name. now rewrite Hc. Qed.

Lemma chip_id_run (self : EspBoot.t) (esp : Esp) (w : World) :
  EspBoot._esp self = Some esp ->
  EspBoot.chip_id self w
  = (Ok (chip_id_value esp), logged w (called EvGetChipId (get_chip_id esp))).
Proof.
  intros Hc. unfold EspBoot.chip_id, chip_id_value, called. rewrite Hc.
  destruct (get_chip_id esp) as [outcome|].
  - unfold try_except. rewrite call_logged. destruct outcome; reflexivity.
  - unfold ret. now rewrite logged_nil.
Qed.

Lemma optional_entry_run (key : string) (ev : Event) (m : Method InfoValue)
    (info : list (string * InfoValue)) (w : World) :
  EspBoot.optional_entry key ev m info w
  = (Ok (info ++ optional_value key m), logged w (called ev m)).
Proof.
  unfold EspBoot.optional_entry, optional_value, called.
  destruct m as [outcome|].
  - unfold try_except, bind. rewrite call_logged.
    destruct outcome; unfold ret; now rewrite ?app_nil_r.
  - unfold ret. now rewrite app_nil_r, logged_nil.
Qed.

(** The platform is read off the chip name alone. *)
Lemma platform_pure (self : EspBoot.t) (esp : Esp) (w w0 : World) :
  EspBoot._esp self = Some esp ->
  EspBoot.platform self w = (fst (EspBoot.platform self w0), w).
Proof.
  intros Hc. unfold EspBoot.platform, EspBoot._determine_platform, bind.
  rewrite !(chip_name_run self esp) by exact Hc.
  repeat match goal with
         | |- context [if ?b then _ else _] => destruct b
         end; reflexivity.
Qed.

(** On an open controller the [platform] property is one of the three ESP32
    members or [UNKNOWN], never a member of the RP family; the only way it
    fails is the [AttributeError] of the undeclared member; it calls nothing;
    and a handle without a chip name is [UNKNOWN]. *)
Theorem platform_range :
  forall (self : EspBoot.t) (esp : Esp) (w : World),
    EspBoot._esp self = Some esp ->
    snd (EspBoot.platform self w) = w /\
    (forall p, fst (EspBoot.platform self w) = Ok p ->
               p = ESP32S3 \/ p = ESP32S2 \/ p = ESP32C3 \/ p = UNKNOWN) /\
    (forall e, fst (EspBoot.platform self w) = Raise e ->
               exn_class e = AttributeError /\
               PyStr.contains "esp32" (PyStr.lower (name_of esp)) = true) /\
    (CHIP_NAME esp = None -> fst (EspBoot.platform self w) = Ok UNKNOWN).
Proof.
  intros self esp w Hc.
  unfold EspBoot.platform, EspBoot._determine_platform, bind.
  rewrite (chip_name_run self esp w Hc).
  split; [|split; [|split]].
  - repeat match goal with
           | |- context [if ?b then _ else _] => destruct b
           end; reflexivity.
  - intros p.
    repeat match goal with
           | |- context [if ?b then _ else _] => destruct b
           end; cbn; intros H; inversion H; auto.
  - intros e.
    destruct (PyStr.contains "esp32-s3" _); [discriminate|].
    destruct (PyStr.contains "esp32-s2" _); [discriminate|].
    destruct (PyStr.contains "esp32c3" _); [discriminate|].
    destruct (PyStr.contains "esp32" _); [|discriminate].
    cbn. intros H; inversion H. split; reflexivity.
  - intros Hname. unfold name_of. rewrite Hname. reflexivity.
Qed.

Lemma platform_range_witness :
  fst (EspBoot.platform
         (connected_to {| CHIP_NAME := None; get_chip_id := None; esp_chip_id := None;
                          read_mac := None; get_chip_description := None;
                          get_chip_features := None; flash_size := None;
                          FLASH_SIZE := None; FLASH_SIZE_BYTES := None |})
         fresh_world) = Ok UNKNOWN.
Proof.
  apply (platform_range
           (connected_to {| CHIP_NAME := None; get_chip_id := None; esp_chip_id := None;
                            read_mac := None; get_chip_description := None;
                            get_chip_features := None; flash_size := None;
                            FLASH_SIZE := None; FLASH_SIZE_BYTES := None |})
           _ fresh_world eq_refl).
  reflexivity.
Defined.

(** [get_chip_info] on an open controller whose platform can be told: the
    record always has the chip name, the chip id, the platform value and the
    port, in that order; the description and the features are added exactly
    when their getter exists and returns, and a getter that raises (for the
    chip id too, which then reads as [None]) never makes the call fail. *)
Theorem get_chip_info_best_effort :
  forall (self : EspBoot.t) (esp : Esp) (plat : Platform) (w : World),
    EspBoot._esp self = Some esp ->
    fst (EspBoot.platform self w) = Ok plat ->
    EspBoot.get_chip_info self w
    = (Ok ([ ("chip_name", VStr (name_of esp))
           ; ("chip_id", match chip_id_value esp with Some n => VInt n | None => VNone end)
           ; ("platform", VInt (Platform_value plat))
           ; ("port", match EspBoot.port self with Some p => VStr p | None => VNone end) ]
           ++ optional_value "description" (get_chip_description esp)
           ++ optional_value "features" (get_chip_features esp)),
       logged w (called EvGetChipId (get_chip_id esp)
                 ++ called EvGetChipDescription (get_chip_description esp)
                 ++ called EvGetChipFeatures (get_chip_features esp))).
Proof.
  intros self esp plat w Hc Hplat.
  unfold EspBoot.get_chip_info. rewrite Hc.
  unfold bind at 1. rewrite (chip_name_run self esp w Hc).
  unfold bind at 1. rewrite (chip_id_run self esp w Hc).
  unfold bind at 1. rewrite (platform_pure self esp _ w Hc), Hplat.
  unfold bind. rewrite !optional_entry_run, !logged_logged.
  now rewrite <- !app_assoc.
Qed.

Lemma get_chip_info_best_effort_witness :
  fst (EspBoot.get_chip_info (connected_to described_esp) fresh_world)
  = Ok [ ("chip_name", VStr "ESP32-S3 (revision 2)"); ("chip_id", VNone);
         ("platform", VInt 0x03754d); ("port", VStr "/dev/ttyUSB0");
         ("description", VStr "ESP32-S3 (QFN56)") ].
Proof.
  rewrite (get_chip_info_best_effort (connected_to described_esp) described_esp
             ESP32S3 fresh_world eq_refl eq_refl).
  reflexivity.
Defined.

(** ** The monitor under any observer *)

Section AnyObserver.

Import EspBootMonitor.

Lemma alternates_due_over (port : string) (observations : list bool) :
  forall recorded,
    alternates port (negb recorded) (due_over port recorded observations) = true.
Proof.
  induction observations as [|present rest IH]; intros recorded; [reflexivity|].
  cbn [due_over]. unfold due.
  destruct present, recorded; cbn [andb negb app alternates];
    rewrite ?String.eqb_refl; cbn [andb];
    first [apply (IH true) | apply (IH false)].
Qed.

Lemma alternates_prefix (port : string) (a rest : list Notification) :
  forall connect_next,
    alternates port connect_next (a ++ rest) = true ->
    alternates port connect_next a = true.
Proof.
  induction a as [|n a IH]; intros b H; [reflexivity|].
  destruct n as [p|p]; cbn [app alternates] in *;
    apply andb_true_iff in H as [H1 H2]; rewrite H1; cbn [andb]; now apply IH.
Qed.

(** Whatever the observer does, the hooks invoked over a run are an initial
    part of the hooks due over the observations. *)
Lemma run_prefix_of_due (cb : EspBootMonitorObserver.t) (enumerations : list (list PortInfo)) :
  forall m,
    _cls_callback m = Some cb ->
    exists rest,
      due_over (_port m) (_device_present m) (map (present_in m) enumerations)
      = notifications (_run m enumerations) ++ rest.
Proof.
  induction enumerations as [|ports more IH]; intros m Hcb.
  - exists []. destruct m as [p c [|] r]; reflexivity.
  - cbn [_run]. destruct (_running m).
    + destruct (poll_spec m cb ports Hcb) as (Hflag & Hnote & Hport & Hcb').
      destruct (poll m ports) as [[m1 log1] exn1] eqn:Epoll.
      unfold monitor_after, notifications in *. cbn [fst snd] in *.
      cbn [map due_over]. rewrite <- Hnote.
      destruct exn1 as [e|].
      * cbn [fst snd]. eexists. reflexivity.
      * destruct (IH m1) as (rest & Hrest); [congruence|].
        assert (Hsame : map (present_in m1) more = map (present_in m) more).
        { apply map_ext. intros ps. unfold present_in. now rewrite Hport. }
        rewrite Hport, Hflag, Hsame in Hrest.
        destruct (_run m1 more) as [[m2 log2] exn2].
        cbn [fst snd] in *. exists rest. now rewrite Hrest, app_assoc.
    + eexists. reflexivity.
Qed.

End AnyObserver.

(** Under any observer, one that stops the monitor or raises included, the
    monitor invokes no hook that is not due: the hooks of a run are an
    initial part of those due over the observations, so connects and
    disconnects of the target port take turns, beginning with a connect when
    the port was recorded absent. *)
Theorem monitor_hooks_alternate :
  forall (m : EspBootMonitor.t) (cb : EspBootMonitorObserver.t)
         (enumerations : list (list PortInfo)),
    EspBootMonitor._cls_callback m = Some cb ->
    (exists rest,
        due_over (EspBootMonitor._port m) (EspBootMonitor._device_present m)
          (map (EspBootMonitor.present_in m) enumerations)
        = notifications (EspBootMonitor._run m enumerations) ++ rest) /\
    alternates (EspBootMonitor._port m) (negb (EspBootMonitor._device_present m))
      (notifications (EspBootMonitor._run m enumerations)) = true.
Proof.
  intros m cb enumerations Hcb.
  destruct (run_prefix_of_due cb enumerations m Hcb) as (rest & Hrest).
  split; [now exists rest|].
  apply alternates_prefix with rest. rewrite <- Hrest.
  apply alternates_due_over.
Qed.

Lemma monitor_hooks_alternate_witness :
  alternates "/dev/ttyUSB0" true
    (notifications
       (EspBootMonitor._run
          (EspBootMonitor.init "/dev/ttyUSB0" (Some failing_observer))
          [without_target; with_target; without_target; with_target])) = true.
Proof.
  apply (monitor_hooks_alternate
           (EspBootMonitor.init "/dev/ttyUSB0" (Some failing_observer))
           failing_observer
           [without_target; with_target; without_target; with_target] eq_refl).
Defined.

(** A monitor without an observer still follows the port: while it runs,
    its flag is the presence observed at the last poll, and no hook is
    invoked. *)
Theorem monitor_without_observer :
  forall (m : EspBootMonitor.t) (enumerations : list (list PortInfo)),
    EspBootMonitor._cls_callback m = None ->
    EspBootMonitor._running m = true ->
    let pass := EspBootMonitor._run m enumerations in
    notifications pass = [] /\
    snd pass = None /\
    EspBootMonitor._device_present (monitor_after pass)
    = last (map (EspBootMonitor.present_in m) enumerations)
           (EspBootMonitor._device_present m).
Proof.
  intros m enumerations. revert m.
  induction enumerations as [|ports rest IH]; intros m Hcb Hrun pass; subst pass.
  - destruct m as [p c r d]. cbn in *. subst. repeat split.
  - destruct m as [p c r d]. cbn in Hcb, Hrun. subst c r.
    cbn [EspBootMonitor._run EspBootMonitor._running].
    set (present := existsb (String.eqb p) (map device ports)).
    assert (Hpoll :
      EspBootMonitor.poll
        {| EspBootMonitor._port := p; EspBootMonitor._cls_callback := None;
           EspBootMonitor._running := true; EspBootMonitor._device_present := d |} ports
      = ({| EspBootMonitor._port := p; EspBootMonitor._cls_callback := None;
            EspBootMonitor._running := true;
            EspBootMonitor._device_present := present |}, [], None)).
    { unfold EspBootMonitor.poll, EspBootMonitor.present_in.
      cbn [EspBootMonitor._port EspBootMonitor._device_present
           EspBootMonitor._cls_callback EspBootMonitor.set_device_present].
      fold present. destruct present, d; reflexivity. }
    rewrite Hpoll.
    specialize (IH {| EspBootMonitor._port := p; EspBootMonitor._cls_callback := None;
                      EspBootMonitor._running := true;
                      EspBootMonitor._device_present := present |} eq_refl eq_refl).
    cbn zeta in IH. destruct IH as (IHn & IHe & IHf).
    destruct (EspBootMonitor._run _ rest) as [[m2 log2] exn2].
    unfold notifications, monitor_after in *. cbn [fst snd] in *.
    subst log2 exn2. repeat split.
    rewrite IHf. cbn [map EspBootMonitor._device_present].
    change (EspBootMonitor.present_in
              {| EspBootMonitor._port := p; EspBootMonitor._cls_callback := None;
                 EspBootMonitor._running := true;
                 EspBootMonitor._device_present := d |} ports) with present.
    destruct (map _ rest) eqn:E; [reflexivity|].
    cbn [last]. apply last_nonempty.
Qed.

Lemma monitor_without_observer_witness :
  EspBootMonitor._device_present
    (monitor_after
       (EspBootMonitor._run (EspBootMonitor.init "/dev/ttyUSB0" None)
          [without_target; with_target]))
  = true.
Proof.
  apply (monitor_without_observer (EspBootMonitor.init "/dev/ttyUSB0" None)
           [without_target; with_target] eq_refl eq_refl).
Defined.

(** ** Opening, continued *)

(** Auto-detection needs pyserial: without it [open], asked to detect the
    port, fails with the generic error raised from the error that names
    pyserial, having tried no port; it touches nothing but the toolkit's
    verbosity and the empty exit stack. *)
Theorem open_auto_without_pyserial :
  forall (env : Env) (port : option string) (run_stub_flasher : bool) (w : World),
    EspBoot.wants_auto port = true ->
    comports env = None ->
    exists cause,
      exn_class cause = EspBootError /\
      exn_msg cause = "pyserial is required for auto port detection" /\
      EspBoot.open env port run_stub_flasher w
      = (Raise (MkExnFrom EspBootError
                  ("Failed to open ESP32 on port " ++ EspBoot.format_port port
                   ++ ": pyserial is required for auto port detection") cause),
         logged w (verbosity_events env ++ [EvStackClose []])).
Proof.
  intros env port flag w Hauto Hnone.
  eexists. split; [|split]; cycle 2.
  - unfold EspBoot.open, EspBoot.open_connect, EspBoot._auto_detect_port,
      EspBoot._list_serial_ports, verbosity_events.
    rewrite Hauto, Hnone.
    destruct (esptool_logger env); cbv [bind emit ret raise];
      unfold EspBoot.open_failed, logged; cbn [exn_msg log next_fd app];
      rewrite <- ?app_assoc; reflexivity.
  - reflexivity.
  - reflexivity.
Qed.

Lemma open_auto_without_pyserial_witness :
  exists cause,
    exn_class cause = EspBootError /\
    fst (EspBoot.open no_pyserial_env (Some "auto") true fresh_world)
    = Raise (MkExnFrom EspBootError
               "Failed to open ESP32 on port auto: pyserial is required for auto port detection"
               cause).
Proof.
  destruct (open_auto_without_pyserial no_pyserial_env (Some "auto") true fresh_world
              eq_refl eq_refl) as (cause & Hclass & _ & Hrun).
  exists cause. split; [exact Hclass|]. rewrite Hrun. reflexivity.
Defined.

(** The life of a connection: after a successful [open] on an explicit
    port, [close] stops the monitor that [open] started and then releases
    the one connection that [open] entered, and nothing else; the closed
    controller keeps its port and its cached flash size, has no handle, and
    a second [close] does nothing. *)
Theorem open_then_close :
  forall (env : Env) (p : string) (run_stub_flasher : bool) (esp esp' : Esp) (w : World),
    EspBoot.wants_auto (Some p) = false ->
    detect_chip env p = Ok esp ->
    handle_kept env esp run_stub_flasher = Ok esp' ->
    attach_flash env esp' = Ok tt ->
    exists self w1 closed,
      EspBoot.open env (Some p) run_stub_flasher w = (Ok self, w1) /\
      EspBoot.close self w1 = (Ok closed, logged w1 [EvMonitorStop; EvStackClose [p]]) /\
      EspBoot.port closed = Some p /\
      EspBoot._esp closed = None /\
      EspBoot._flash_size closed = size_at_open env esp' /\
      forall w2, EspBoot.close closed w2 = (Ok closed, w2).
Proof.
  intros env p flag esp esp' w Hauto Hdetect Hkept Hattach.
  eexists. eexists.
  exists {| EspBoot.port := Some p; EspBoot._esp := None; EspBoot._stack := None;
            EspBoot._flash_size := size_at_open env esp';
            EspBoot._cached_serial_number := None;
            EspBoot._EspBoot__monitor := Some None |}.
  split.
  { unfold EspBoot.open. rewrite (open_connect_explicit env p w Hauto), Hdetect.
    rewrite open_attach_run. unfold attach_outcome. rewrite Hkept, Hattach.
    unfold bind. rewrite open_flash_size_run. unfold emit, ret. reflexivity. }
  split.
  - unfold EspBoot.close, EspBoot.opened.
    cbn [EspBoot._stack EspBoot._EspBoot__monitor EspBoot.port EspBoot._flash_size
         EspBoot._cached_serial_number].
    cbv [bind emit ret]. f_equal. unfold logged. cbn [log next_fd].
    now rewrite <- !app_assoc.
  - repeat split.
Qed.

Lemma open_then_close_witness :
  exists self w1 closed,
    EspBoot.open plugged_env (Some "/dev/ttyUSB0") true fresh_world = (Ok self, w1) /\
    EspBoot.close self w1
    = (Ok closed, logged w1 [EvMonitorStop; EvStackClose ["/dev/ttyUSB0"]]) /\
    EspBoot._esp closed = None.
Proof.
  destruct (open_then_close plugged_env "/dev/ttyUSB0" true target_esp target_esp
              fresh_world eq_refl eq_refl eq_refl eq_refl)
    as (self & w1 & closed & Hopen & Hclose & _ & Hesp & _).
  exists self, w1, closed. repeat split; assumption.
Defined.
